(** * Pelican: registry, self-test runner, director namespace listing, server init

    A shallow embedding of the parts of the Pelican sources that the
    specification talks about, and the properties proved of them.

    Definitions:
    - [Go]        : the Go notions every package uses (errors, results,
                    [make], package strings, encoding/hex, gin's response
                    writer).
    - [Utils]     : utils/test_file_transfers_utils.go  (RunTests).
    - [Director]  : director/director_api.go            (ListNamespaces).
    - [Config]    : config/config.go                    (ServerType, InitServer).
    - [Registry]  : registry/registry.go                (the HTTP handlers).
    - [RegistryKeys]  : registry/registry.go   (matchKeys, the existence check).
    - [Xrootd]        : the authfile line scanner       (ScanLinesWithCont).
    - [ServerTypes]   : config/config.go       (the ServerType methods, the
                        enabled-server list, the preferred prefixes).
    - [UtilsRequests] : what the requests of a test run look like.
    - [RegistrySamples] : further sample registries and requests.

    Properties: [UtilsSpec], [DirectorSpec], [ConfigSpec], [GoSpec],
    [RegistrySpec], [XrootdSpec], [RegistryMore], [ServerTypesSpec],
    [UtilsMore].

    Library calls whose code is not part of the repository (net/http, net/url,
    crypto, jwx, viper's file access, the operating system) are taken as
    fields of an environment record; the state they may change is threaded
    through explicitly. Each package also gets one small concrete
    environment on which the code can be run. *)

From Stdlib Require Import ZArith Lia Bool List Ascii String.
From stdpp Require Import base option list strings gmap.
Import ListNotations.

Local Open Scope string_scope.
Local Open Scope Z_scope.
Local Open Scope list_scope.

(* ===================================================================== *)
(** ** Go notions shared by the packages *)
(* ===================================================================== *)

Module Go.

(** Arguments of a [%v] / [%t] / [%s] verb in [errors.Errorf] and friends. *)
Inductive fmt_arg :=
| ArgInt (z : Z)
| ArgStr (s : string)
| ArgBool (b : bool).

(** Go's [error] values as the sources build them with pkg/errors. *)
Inductive error :=
| errors_New (msg : string)
| errors_Errorf (format : string) (args : list fmt_arg)
| errors_Wrap (cause : error) (msg : string)
| errors_Wrapf (cause : error) (format : string) (args : list fmt_arg).

(** A Go pair [(value, err)] where exactly one side is meaningful. *)
Inductive result (A : Type) :=
| Ok (a : A)
| Err (e : error).
Arguments Ok {A} a.
Arguments Err {A} e.

Definition is_Ok {A} (r : result A) : bool :=
  match r with Ok _ => true | Err _ => false end.

(** What a call does: it returns, or it panics at run time. *)
Inductive outcome (A : Type) :=
| Returned (a : A)
| Panicked (msg : string).
Arguments Returned {A} a.
Arguments Panicked {A} msg.

(** [make([]T, len, cap)]: the runtime panics unless [0 <= len <= cap];
    otherwise the slice holds [len] zero values. *)
Definition make_slice {A} (zero : A) (len cap : Z) : outcome (list A) :=
  if len <? 0 then Panicked "runtime error: makeslice: len out of range"
  else if cap <? len then Panicked "runtime error: makeslice: cap out of range"
  else Returned (repeat zero (Z.to_nat len)).

(** *** package strings

    A Go string is a sequence of bytes, and so is a [string] here; the
    conversions [[]byte(s)] and [string(b)] are the identity. *)

Definition HasPrefix (s prefix : string) : bool := String.prefix prefix s.

Definition TrimPrefix (s prefix : string) : string :=
  if HasPrefix s prefix
  then substring (String.length prefix) (String.length s - String.length prefix) s
  else s.

Definition HasSuffix (s suffix : string) : bool :=
  let n := String.length s in
  let m := String.length suffix in
  (m <=? n)%nat && String.eqb (substring (n - m) m s) suffix.

Definition TrimSuffix (s suffix : string) : string :=
  if HasSuffix s suffix
  then substring 0 (String.length s - String.length suffix) s
  else s.

(** [strings.Split(s, sep)] for a one-byte separator: the pieces between
    the separators, empty pieces included. *)
Fixpoint Split_on (sep : ascii) (s : string) : list string :=
  match s with
  | EmptyString => [EmptyString]
  | String c rest =>
      if Ascii.eqb c sep then EmptyString :: Split_on sep rest
      else match Split_on sep rest with
           | [] => [String c EmptyString]
           | piece :: pieces => String c piece :: pieces
           end
  end.

(** Lower case of the letters A to Z, what [strings.ToLower] does to a
    string of ASCII bytes. *)
Definition lower_byte (c : ascii) : ascii :=
  let v := nat_of_ascii c in
  if ((65 <=? v) && (v <=? 90))%nat then ascii_of_nat (v + 32) else c.

Fixpoint ascii_lower (s : string) : string :=
  match s with
  | EmptyString => EmptyString
  | String c rest => String (lower_byte c) (ascii_lower rest)
  end.

Fixpoint is_ascii (s : string) : bool :=
  match s with
  | EmptyString => true
  | String c rest => (nat_of_ascii c <? 128)%nat && is_ascii rest
  end.

(** *** package encoding/hex *)

Definition hextable : string := "0123456789abcdef".

Definition hexdigit (n : N) : ascii :=
  match String.get (N.to_nat n) hextable with
  | Some c => c
  | None => "0"%char
  end.

Fixpoint EncodeToString (src : string) : string :=
  match src with
  | EmptyString => EmptyString
  | String c rest =>
      let v := N_of_ascii c in
      String (hexdigit (N.shiftr v 4)) (String (hexdigit (N.land v 15))
             (EncodeToString rest))
  end.

Definition fromHexChar (c : ascii) : option N :=
  let v := N_of_ascii c in
  if ((48 <=? v) && (v <=? 57))%N then Some (v - 48)%N
  else if ((97 <=? v) && (v <=? 102))%N then Some (v - 97 + 10)%N
  else if ((65 <=? v) && (v <=? 70))%N then Some (v - 65 + 10)%N
  else None.

Definition InvalidByteError (c : ascii) : error :=
  errors_Errorf "encoding/hex: invalid byte: %#U" [ArgInt (Z.of_N (N_of_ascii c))].

Definition ErrLength : error := errors_New "encoding/hex: odd length hex string".

Fixpoint DecodeString (s : string) : result string :=
  match s with
  | EmptyString => Ok EmptyString
  | String a EmptyString =>
      match fromHexChar a with
      | None => Err (InvalidByteError a)
      | Some _ => Err ErrLength
      end
  | String a (String b rest) =>
      match fromHexChar a with
      | None => Err (InvalidByteError a)
      | Some x =>
          match fromHexChar b with
          | None => Err (InvalidByteError b)
          | Some y =>
              match DecodeString rest with
              | Err e => Err e
              | Ok d => Ok (String (ascii_of_N (N.lor (N.shiftl x 4) y)) d)
              end
          end
      end
  end.

(** *** gin's response writer

    Every [ctx.JSON], [ctx.String] or abort-with-status is one write. The
    status of the first write goes on the wire; the status of a later write
    is dropped with a warning because the header is already out. A handler
    that writes nothing answers with gin's default, 200. *)

Definition response_status {B} (writes : list (Z * B)) : Z :=
  match writes with
  | [] => 200
  | (code, _) :: _ => code
  end.

Definition is_2xx (code : Z) : bool := (200 <=? code) && (code <? 300).
Definition is_4xx (code : Z) : bool := (400 <=? code) && (code <? 500).

End Go.

(* ===================================================================== *)
(** ** utils/test_file_transfers_utils.go *)
(* ===================================================================== *)

Module Utils.
Import Go.

Definition TestType := string.

Definition OriginSelfFileTest : TestType := "self-test".
Definition DirectorFileTest : TestType := "director-test".

Definition selfTestBody : string :=
  "This object was created by the Pelican self-test functionality".
Definition directorTestBody : string :=
  "This object was created by the Pelican director-test functionality".

Record TestFileTransferImpl := {
  audienceUrl : string;
  issuerUrl : string;
  testType : TestType;
  testBody : string
}.

(** utils.TokenConfig, as [generateFileTestScitoken] fills it. *)
Record TokenConfig := {
  TokenProfile : string;
  Lifetime : string;
  Issuer : string;
  Audience : list string;
  Version : string;
  Subject : string;
  Claims : list (string * string)
}.

(** net/url's URL: only [Path] is touched by the code; the other
    components stay as parsed. *)
Record URL := {
  Authority : string;
  Path : string
}.

Record Request := {
  Method : string;
  ReqURL : string;
  Header : list (string * string);
  Body : option string
}.

Record Response := {
  StatusCode : Z;
  Status : string;
  (** what [io.ReadAll(resp.Body)] yields *)
  RespBody : result string
}.

Inductive Step := StepUpload | StepDownload | StepDelete.

(** What an execution leaves behind for an observer: which step
    functions were entered, and every HTTP exchange with its result. *)
Inductive Event :=
| EvStep (s : Step)
| EvHttp (req : Request) (resp : result Response).

(** The collaborators of the test runner. [World] is whatever state they
    live in (the origin's storage, the clock, the key files). *)
Record Env (World : Type) := {
  Server_ExternalWebUrl : string;
  CreateToken : TokenConfig -> World -> result string * World;
  time_Now_RFC3339 : World -> string;
  url_Parse : string -> result URL;
  url_String : URL -> string;
  client_Do : Request -> World -> result Response * World
}.
Arguments Server_ExternalWebUrl {World}.
Arguments CreateToken {World}.
Arguments time_Now_RFC3339 {World}.
Arguments url_Parse {World}.
Arguments url_String {World}.
Arguments client_Do {World}.

Section Runner.
Context {World : Type} (E : Env World).

(** State passing with an event trace. *)
Definition M (A : Type) : Type := World -> A * World * list Event.

Definition ret {A} (a : A) : M A := fun w => (a, w, []).

Definition bind {A B} (m : M A) (k : A -> M B) : M B :=
  fun w =>
    let '(a, w1, t1) := m w in
    let '(b, w2, t2) := k a w1 in
    (b, w2, t1 ++ t2).

Definition mark (s : Step) : M unit := fun w => (tt, w, [EvStep s]).

Definition liftW {A} (f : World -> A * World) : M A :=
  fun w => let '(a, w1) := f w in (a, w1, []).

Definition now : M string := fun w => (time_Now_RFC3339 E w, w, []).

(** [client.Do(req)] *)
Definition Do (req : Request) : M (result Response) :=
  fun w => let '(r, w1) := client_Do E req w in (r, w1, [EvHttp req r]).

Notation "x <- c1 ;; c2" := (bind c1 (fun x => c2))
  (at level 100, c1 at next level, right associativity).

(** [http.NewRequestWithContext]: with a fixed valid method and a live
    context it fails exactly when the URL does not parse. *)
Definition NewRequestWithContext (method url : string)
    (body : option string) : result Request :=
  match url_Parse E url with
  | Err e => Err e
  | Ok _ => Ok {| Method := method; ReqURL := url; Header := []; Body := body |}
  end.

Definition Header_Set (req : Request) (k v : string) : Request :=
  {| Method := Method req; ReqURL := ReqURL req;
     Header := (k, v) :: filter (fun kv => negb (String.eqb (fst kv) k)) (Header req);
     Body := Body req |}.

Definition generateFileTestScitoken (t : TestFileTransferImpl)
    : M (result string) :=
  let issuerUrl0 := Server_ExternalWebUrl E in
  let issuerUrl1 :=
    if negb (String.eqb (issuerUrl t) "") then issuerUrl t else issuerUrl0 in
  if String.eqb issuerUrl1 "" then
    ret (Err (errors_New
      "Failed to create token: Invalid iss, Server_ExternalWebUrl is empty"))
  else
    let fTestTokenCfg :=
      {| TokenProfile := "wlcg"; Lifetime := "1m"; Issuer := issuerUrl1;
         Audience := [audienceUrl t]; Version := "1.0"; Subject := "origin";
         Claims := [("scope", "storage.read:/ storage.modify:/")] |} in
    r <- liftW (CreateToken E fTestTokenCfg) ;;
    match r with
    | Err err => ret (Err (errors_Wrap err "failed to create file test token"))
    | Ok tok => ret (Ok tok)
    end.

Definition uploadTestfile (t : TestFileTransferImpl) (baseUrl : string)
    : M (result string) :=
  _ <- mark StepUpload ;;
  r <- generateFileTestScitoken t ;;
  match r with
  | Err err =>
      ret (Err (errors_Wrap err "Failed to create a token for test file transfer"))
  | Ok tkn =>
      match url_Parse E baseUrl with
      | Err err => ret (Err (errors_Wrap err "The baseUrl is not parseable as a URL"))
      | Ok parsed =>
          ts <- now ;;
          let uploadURL :=
            {| Authority := Authority parsed;
               Path := "/pelican/monitoring/" +:+ testType t +:+ "-" +:+ ts +:+ ".txt" |} in
          match NewRequestWithContext "PUT" (url_String E uploadURL)
                  (Some (testBody t)) with
          | Err err =>
              ret (Err (errors_Wrap err
                     "Failed to create POST request for monitoring upload"))
          | Ok req0 =>
              let req := Header_Set req0 "Authorization" ("Bearer " +:+ tkn) in
              r <- Do req ;;
              match r with
              | Err err =>
                  ret (Err (errors_Wrap err
                         "Failed to start request for test file upload"))
              | Ok resp =>
                  if 299 <? StatusCode resp then
                    ret (Err (errors_Errorf
                           "Error response %v from test file upload: %v"
                           [ArgInt (StatusCode resp); ArgStr (Status resp)]))
                  else ret (Ok (url_String E uploadURL))
              end
          end
      end
  end.

Definition downloadTestfile (t : TestFileTransferImpl) (downloadUrl : string)
    : M (option error) :=
  _ <- mark StepDownload ;;
  r <- generateFileTestScitoken t ;;
  match r with
  | Err err =>
      ret (Some (errors_Wrap err
             "Failed to create a token for test file transfer download"))
  | Ok tkn =>
      match NewRequestWithContext "GET" downloadUrl None with
      | Err err =>
          ret (Some (errors_Wrap err
                 "Failed to create GET request for test file transfer download"))
      | Ok req0 =>
          let req := Header_Set req0 "Authorization" ("Bearer " +:+ tkn) in
          r <- Do req ;;
          match r with
          | Err err =>
              ret (Some (errors_Wrap err
                     "Failed to start request for test file transfer download"))
          | Ok resp =>
              match RespBody resp with
              | Err err =>
                  ret (Some (errors_Wrap err
                         "Failed to get response body from test file transfer download"))
              | Ok body =>
                  if negb (String.eqb body (testBody t)) then
                    ret (Some (errors_Errorf
                           "Contents of test file transfer body do not match upload: %v"
                           [ArgStr body]))
                  else if 299 <? StatusCode resp then
                    ret (Some (errors_Errorf
                           "Error response %v from test file transfer download: %v"
                           [ArgInt (StatusCode resp); ArgStr (Status resp)]))
                  else ret None
              end
          end
      end
  end.

Definition deleteTestfile (t : TestFileTransferImpl) (fileUrl : string)
    : M (option error) :=
  _ <- mark StepDelete ;;
  r <- generateFileTestScitoken t ;;
  match r with
  | Err err =>
      ret (Some (errors_Wrap err
             "Failed to create a token for the test file transfer deletion"))
  | Ok tkn =>
      match NewRequestWithContext "DELETE" fileUrl None with
      | Err err =>
          ret (Some (errors_Wrap err
                 "Failed to create DELETE request for test file transfer deletion"))
      | Ok req0 =>
          let req := Header_Set req0 "Authorization" ("Bearer " +:+ tkn) in
          r <- Do req ;;
          match r with
          | Err err =>
              ret (Some (errors_Wrap err
                     "Failed to start request for test file transfer deletion"))
          | Ok resp =>
              if 299 <? StatusCode resp then
                ret (Some (errors_Errorf
                       "Error response %v from test file transfer deletion: %v"
                       [ArgInt (StatusCode resp); ArgStr (Status resp)]))
              else ret None
          end
      end
  end.

(** The receiver as [RunTests] fills it in before the first step;
    [None] for a test type it does not support. *)
Definition configure (t : TestFileTransferImpl) (baseUrl issuerUrl' : string)
    (testType' : TestType) : option TestFileTransferImpl :=
  if String.eqb testType' OriginSelfFileTest then
    Some {| audienceUrl := baseUrl; issuerUrl := issuerUrl';
            testType := testType'; testBody := selfTestBody |}
  else if String.eqb testType' DirectorFileTest then
    Some {| audienceUrl := baseUrl; issuerUrl := issuerUrl';
            testType := testType'; testBody := directorTestBody |}
  else None.

Definition RunTests (t : TestFileTransferImpl) (baseUrl issuerUrl' : string)
    (testType' : TestType) : M (bool * option error) :=
  match configure t baseUrl issuerUrl' testType' with
  | None => ret (false, Some (errors_New ("Unsupported testType: " +:+ testType')))
  | Some t =>
      r <- uploadTestfile t baseUrl ;;
      match r with
      | Err err =>
          ret (false, Some (errors_Wrap err "Test file transfer failed during upload"))
      | Ok downloadUrl =>
          err <- downloadTestfile t downloadUrl ;;
          match err with
          | Some err =>
              ret (false, Some (errors_Wrap err
                                  "Test file transfer failed during download"))
          | None =>
              err <- deleteTestfile t downloadUrl ;;
              match err with
              | Some err =>
                  ret (false, Some (errors_Wrap err
                                      "Test file transfer failed during delete"))
              | None => ret (true, None)
              end
          end
      end
  end.

(** *** Reading a trace *)

Definition steps (tr : list Event) : list Step :=
  flat_map (fun ev => match ev with EvStep s => [s] | EvHttp _ _ => [] end) tr.

Definition exchanges (tr : list Event) : list (Request * result Response) :=
  flat_map (fun ev => match ev with EvStep _ => [] | EvHttp q r => [(q, r)] end) tr.

(** A step is attempted when its function is entered. *)
Definition attempted (s : Step) (tr : list Event) : Prop := In s (steps tr).

Definition value {A} (x : A * World * list Event) : A := fst (fst x).
Definition trace {A} (x : A * World * list Event) : list Event := snd x.

(** The upload step of a run succeeded: the receiver was configured and
    [uploadTestfile], called in the run's initial world, returned a URL. *)
Definition upload_succeeded (t : TestFileTransferImpl) (baseUrl issuerUrl' : string)
    (testType' : TestType) (w : World) : Prop :=
  exists t' u w1 tr1,
    configure t baseUrl issuerUrl' testType' = Some t' /\
    uploadTestfile t' baseUrl w = (Ok u, w1, tr1).

(** Upload and download both succeeded, the download starting in the
    world the upload left. *)
Definition upload_download_succeeded (t : TestFileTransferImpl)
    (baseUrl issuerUrl' : string) (testType' : TestType) (w : World) : Prop :=
  exists t' u w1 tr1 w2 tr2,
    configure t baseUrl issuerUrl' testType' = Some t' /\
    uploadTestfile t' baseUrl w = (Ok u, w1, tr1) /\
    downloadTestfile t' u w1 = (None, w2, tr2).

(** The path the probe object is stored under. *)
Definition probe_path (testType' : TestType) (ts : string) : string :=
  "/pelican/monitoring/" +:+ testType' +:+ "-" +:+ ts +:+ ".txt".

(** An exchange that counts as a failure of its step. *)
Definition bad_exchange (body : string) (x : Request * result Response) : Prop :=
  match snd x with
  | Err _ => True
  | Ok resp =>
      300 <= StatusCode resp \/
      (Method (fst x) = "GET" /\ RespBody resp <> Ok body)
  end.

(** The exchanges of a fully successful run, spelled out. *)
Definition clean_run (t' : TestFileTransferImpl) (base tt : string)
    (xs : list (Request * result Response)) : Prop :=
  exists parsed w0 h1 h2 h3 r1 r2 r3,
    url_Parse E base = Ok parsed /\
    let u := url_String E {| Authority := Authority parsed;
                             Path := probe_path tt (time_Now_RFC3339 E w0) |} in
    xs = [({| Method := "PUT"; ReqURL := u; Header := h1; Body := Some (testBody t') |},
           Ok r1);
          ({| Method := "GET"; ReqURL := u; Header := h2; Body := None |}, Ok r2);
          ({| Method := "DELETE"; ReqURL := u; Header := h3; Body := None |}, Ok r3)] /\
    StatusCode r1 < 300 /\
    StatusCode r2 < 300 /\ RespBody r2 = Ok (testBody t') /\
    StatusCode r3 < 300.

(** The token a run asks for: issued by the issuer URL passed in, or by
    the server's external web URL when none is passed, for the base URL as
    audience. *)
Definition run_token_config (baseUrl issuerUrl' : string) : TokenConfig :=
  {| TokenProfile := "wlcg"; Lifetime := "1m";
     Issuer := if String.eqb issuerUrl' "" then Server_ExternalWebUrl E else issuerUrl';
     Audience := [baseUrl]; Version := "1.0"; Subject := "origin";
     Claims := [("scope", "storage.read:/ storage.modify:/")] |}.

(** A request whose only header is the bearer token. *)
Definition bearer_request (method url tkn : string) (body : option string) : Request :=
  {| Method := method; ReqURL := url;
     Header := [("Authorization", "Bearer " +:+ tkn)]; Body := body |}.

(** The two test types and the constant body of each. *)
Definition supported (testType' : TestType) (body : string) : Prop :=
  (testType' = "self-test" /\
   body = "This object was created by the Pelican self-test functionality") \/
  (testType' = "director-test" /\
   body = "This object was created by the Pelican director-test functionality").

(** What the token minter, the URL parser and the origin do when all three
    steps complete: a token is minted before each request; the PUT of
    [body] to /pelican/monitoring/<testType>-<timestamp>.txt under the base
    URL, the GET of that URL and the DELETE of that URL are each answered
    with a status below 300, the GET with [body]. [wfin] is the world after
    the DELETE and [tr] what an observer has seen. The runner does not
    occur in this definition. *)
Definition transfers_succeed (baseUrl issuerUrl' : string) (testType' : TestType)
    (body : string) (w wfin : World) (tr : list Event) : Prop :=
  exists parsed parsedU tkn1 w1 r1 w2 tkn2 w3 r2 w4 tkn3 w5 r3,
    let cfg := run_token_config baseUrl issuerUrl' in
    let u := url_String E
               {| Authority := Authority parsed;
                  Path := "/pelican/monitoring/" +:+ testType' +:+ "-" +:+
                          time_Now_RFC3339 E w1 +:+ ".txt" |} in
    Issuer cfg <> "" /\
    CreateToken E cfg w = (Ok tkn1, w1) /\
    url_Parse E baseUrl = Ok parsed /\
    url_Parse E u = Ok parsedU /\
    client_Do E (bearer_request "PUT" u tkn1 (Some body)) w1 = (Ok r1, w2) /\
    StatusCode r1 < 300 /\
    CreateToken E cfg w2 = (Ok tkn2, w3) /\
    client_Do E (bearer_request "GET" u tkn2 None) w3 = (Ok r2, w4) /\
    RespBody r2 = Ok body /\
    StatusCode r2 < 300 /\
    CreateToken E cfg w4 = (Ok tkn3, w5) /\
    client_Do E (bearer_request "DELETE" u tkn3 None) w5 = (Ok r3, wfin) /\
    StatusCode r3 < 300 /\
    tr = [EvStep StepUpload; EvHttp (bearer_request "PUT" u tkn1 (Some body)) (Ok r1);
          EvStep StepDownload; EvHttp (bearer_request "GET" u tkn2 None) (Ok r2);
          EvStep StepDelete; EvHttp (bearer_request "DELETE" u tkn3 None) (Ok r3)].

(** The specification's sentence about clean-up: the delete step is
    attempted if and only if the upload step succeeded. *)
Definition delete_iff_upload (t : TestFileTransferImpl) (baseUrl issuerUrl' : string)
    (testType' : TestType) (w : World) : Prop :=
  attempted StepDelete (trace (RunTests t baseUrl issuerUrl' testType' w)) <->
  upload_succeeded t baseUrl issuerUrl' testType' w.

End Runner.

(** *** A small origin to run the code against

    Objects live in a map from URL to body. [healthy = false] is an origin
    whose reads fail with 500 while writes and deletes work. *)

Definition origin_Do (healthy : bool) (req : Request) (w : gmap string string)
    : result Response * gmap string string :=
  if String.eqb (Method req) "PUT" then
    (Ok {| StatusCode := 201; Status := "201 Created"; RespBody := Ok "" |},
     <[ReqURL req := default "" (Body req)]> w)
  else if String.eqb (Method req) "GET" then
    if healthy then
      match w !! ReqURL req with
      | Some b => (Ok {| StatusCode := 200; Status := "200 OK"; RespBody := Ok b |}, w)
      | None => (Ok {| StatusCode := 404; Status := "404 Not Found"; RespBody := Ok "" |}, w)
      end
    else
      (Ok {| StatusCode := 500; Status := "500 Internal Server Error";
             RespBody := Ok "" |}, w)
  else if String.eqb (Method req) "DELETE" then
    match w !! ReqURL req with
    | Some _ => (Ok {| StatusCode := 204; Status := "204 No Content"; RespBody := Ok "" |},
                 delete (ReqURL req) w)
    | None => (Ok {| StatusCode := 404; Status := "404 Not Found"; RespBody := Ok "" |}, w)
    end
  else
    (Ok {| StatusCode := 405; Status := "405 Method Not Allowed"; RespBody := Ok "" |}, w).

Definition origin_env (healthy : bool) : Env (gmap string string) :=
  {| Server_ExternalWebUrl := "https://origin.example.org:8444";
     CreateToken := fun cfg w => (Ok ("token-for-" +:+ Issuer cfg), w);
     time_Now_RFC3339 := fun _ => "2023-12-01T10:00:00Z";
     url_Parse := fun s => Ok {| Authority := s; Path := "" |};
     url_String := fun u => Authority u +:+ Path u;
     client_Do := origin_Do healthy |}.

Definition blank : TestFileTransferImpl :=
  {| audienceUrl := ""; issuerUrl := ""; testType := ""; testBody := "" |}.

Definition origin_url : string := "https://origin.example.org:8443".

(** *** The same origin with its objects in a list

    The pairs of URL and body, newest first. *)

Definition stored (url : string) (w : list (string * string)) : option string :=
  match List.find (fun kv => String.eqb (fst kv) url) w with
  | Some kv => Some (snd kv)
  | None => None
  end.

Definition shelf_Do (req : Request) (w : list (string * string))
    : result Response * list (string * string) :=
  if String.eqb (Method req) "PUT" then
    (Ok {| StatusCode := 201; Status := "201 Created"; RespBody := Ok "" |},
     (ReqURL req, default "" (Body req)) :: w)
  else if String.eqb (Method req) "GET" then
    match stored (ReqURL req) w with
    | Some b => (Ok {| StatusCode := 200; Status := "200 OK"; RespBody := Ok b |}, w)
    | None => (Ok {| StatusCode := 404; Status := "404 Not Found"; RespBody := Ok "" |}, w)
    end
  else if String.eqb (Method req) "DELETE" then
    match stored (ReqURL req) w with
    | Some _ => (Ok {| StatusCode := 204; Status := "204 No Content"; RespBody := Ok "" |},
                 List.filter (fun kv => negb (String.eqb (fst kv) (ReqURL req))) w)
    | None => (Ok {| StatusCode := 404; Status := "404 Not Found"; RespBody := Ok "" |}, w)
    end
  else
    (Ok {| StatusCode := 405; Status := "405 Method Not Allowed"; RespBody := Ok "" |}, w).

Definition shelf_env : Env (list (string * string)) :=
  {| Server_ExternalWebUrl := "https://origin.example.org:8444";
     CreateToken := fun cfg w => (Ok ("token-for-" +:+ Issuer cfg), w);
     time_Now_RFC3339 := fun _ => "2023-12-01T10:00:00Z";
     url_Parse := fun s => Ok {| Authority := s; Path := "" |};
     url_String := fun u => Authority u +:+ Path u;
     client_Do := shelf_Do |}.

(** The URL of the probe object on the sample origin, the token the sample
    minter hands out, and what an observer sees of a self-test there. *)
Definition sample_probe_url : string :=
  "https://origin.example.org:8443/pelican/monitoring/self-test-2023-12-01T10:00:00Z.txt".

Definition sample_token : string := "token-for-https://origin.example.org:8444".

Definition sample_trace : list Event :=
  [EvStep StepUpload;
   EvHttp (bearer_request "PUT" sample_probe_url sample_token (Some selfTestBody))
          (Ok {| StatusCode := 201; Status := "201 Created"; RespBody := Ok "" |});
   EvStep StepDownload;
   EvHttp (bearer_request "GET" sample_probe_url sample_token None)
          (Ok {| StatusCode := 200; Status := "200 OK"; RespBody := Ok selfTestBody |});
   EvStep StepDelete;
   EvHttp (bearer_request "DELETE" sample_probe_url sample_token None)
          (Ok {| StatusCode := 204; Status := "204 No Content"; RespBody := Ok "" |})].
End Utils.

(* ===================================================================== *)
(** ** director/director_api.go *)
(* ===================================================================== *)

Module Director.
Import Go.

(** Modelled from the spec: the role half of a ServerIdentity; the
    declaration of director.ServerType is not in src/. *)
Inductive ServerType := OriginType | CacheType.

Definition ServerType_eqb (a b : ServerType) : bool :=
  match a, b with
  | OriginType, OriginType | CacheType, CacheType => true
  | _, _ => false
  end.

(** Modelled from the spec: ServerIdentity = (role, name), the key of the
    catalog, with the endpoints an advertisement carries; the declaration of
    director.ServerAd is not in src/. *)
Record ServerAd := {
  Name : string;
  Type_ : ServerType;
  URL : string;
  WebURL : string
}.

(** Modelled from the spec: one advertised namespace (prefix, issuers,
    public-read flag); the declaration of director.NamespaceAd is not in
    src/. *)
Record NamespaceAd := {
  Path : string;
  Issuer : list string;
  PublicRead : bool
}.

(** The zero value of the struct. *)
Definition zeroNamespaceAd : NamespaceAd :=
  {| Path := ""; Issuer := []; PublicRead := false |}.

(** What [serverAds.Items()] hands to the loop: the entries of the TTL
    cache, key and value, in the order the map iteration yields them. *)
Definition Items := list (ServerAd * list NamespaceAd).

(** The body of the [for ... range serverAdItems] loop. *)
Definition collect (serverAdItems : Items) (namespaces : list NamespaceAd)
    : list NamespaceAd :=
  fold_left
    (fun namespaces item =>
       if ServerType_eqb (Type_ (fst item)) OriginType
       then fold_left (fun namespaces v => namespaces ++ [v]) (snd item) namespaces
       else namespaces)
    serverAdItems namespaces.

(** [ListNamespaces]; the lock it holds is released on every exit, a panic
    included, and plays no part in the value. *)
Definition ListNamespaces (serverAdItems : Items) : outcome (list NamespaceAd) :=
  match make_slice zeroNamespaceAd (Z.of_nat (length serverAdItems)) 0 with
  | Panicked msg => Panicked msg
  | Returned namespaces => Returned (collect serverAdItems namespaces)
  end.

(** What the doc comment promises: the namespaces of the origins in the
    catalog. *)
Definition origin_namespaces (serverAdItems : Items) : list NamespaceAd :=
  flat_map (fun item => if ServerType_eqb (Type_ (fst item)) OriginType
                        then snd item else [])
           serverAdItems.

Definition origin1 : ServerAd :=
  {| Name := "origin1"; Type_ := OriginType;
     URL := "https://origin1.example.org:8443";
     WebURL := "https://origin1.example.org:8444" |}.

Definition ad_foo : NamespaceAd :=
  {| Path := "/foo"; Issuer := ["https://origin1.example.org:8444"]; PublicRead := true |}.

End Director.

(* ===================================================================== *)
(** ** config/config.go *)
(* ===================================================================== *)

Module Config.
Import Go.

(** [ServerType] is a bit mask over Go's [int]. *)
Definition ServerType := Z.

Definition CacheType : ServerType := Z.shiftl 1 0.
Definition OriginType : ServerType := Z.shiftl 1 1.
Definition DirectorType : ServerType := Z.shiftl 1 2.
Definition RegistryType : ServerType := Z.shiftl 1 3.

Definition Set_ (sType server : ServerType) : ServerType := Z.lor sType server.

Definition IsEnabled (sType testServer : ServerType) : bool :=
  Z.land sType testServer =? testServer.

(** A value held by viper. *)
Inductive Value :=
| VString (s : string)
| VBool (b : bool)
| VInt (z : Z).

(** The process-wide state [InitServer] reads and writes: viper's default
    layer, viper's layers above it (explicit sets, environment, config
    file), both under lower-cased keys, and the package variables
    [enabledServers] / [setServerOnce]. *)
Record State := {
  viper_defaults : gmap string Value;
  viper_overrides : gmap string Value;
  enabledServers : ServerType;
  setServerOnce : bool
}.

(** The operating system and the part of [InitServer] that follows the
    defaults (OS-specific defaults, data directories, host name, ports,
    keys, certificates, federation discovery), whose callees are not in
    src/. [OS] is the state of the file system. *)
Record Env (OS : Type) := {
  IsRootExecution : bool;
  os_UserHomeDir : result string;
  os_Getenv : string -> string;
  os_MkdirAll : string -> OS -> option error * OS;
  os_MkdirTemp : string -> string -> OS -> result string * OS;
  cleanupDirOnShutdown : string -> OS -> OS;
  filepath_Join : list string -> string;
  cast_ToString : Value -> string;
  strings_ToLower : string -> string;
  finishInitServer : ServerType -> State * OS -> option error * (State * OS)
}.
Arguments IsRootExecution {OS}.
Arguments os_UserHomeDir {OS}.
Arguments os_Getenv {OS}.
Arguments os_MkdirAll {OS}.
Arguments os_MkdirTemp {OS}.
Arguments cleanupDirOnShutdown {OS}.
Arguments filepath_Join {OS}.
Arguments cast_ToString {OS}.
Arguments strings_ToLower {OS}.
Arguments finishInitServer {OS}.

Section Init.
Context {OS : Type} (E : Env OS).

(** viper's keys are case-insensitive: every key is lower-cased with
    [strings.ToLower] before it is stored or looked up. *)
Definition viper_SetDefault (key : string) (v : Value) (st : State) : State :=
  {| viper_defaults := <[strings_ToLower E key := v]> (viper_defaults st);
     viper_overrides := viper_overrides st;
     enabledServers := enabledServers st;
     setServerOnce := setServerOnce st |}.

(** [viper.GetString]: the layers above the defaults win; a missing key
    reads as the empty string. *)
Definition viper_GetString (key : string) (st : State) : string :=
  match viper_overrides st !! strings_ToLower E key with
  | Some v => cast_ToString E v
  | None =>
      match viper_defaults st !! strings_ToLower E key with
      | Some v => cast_ToString E v
      | None => ""
      end
  end.

(** [setEnabledServer]: the [sync.Once] lets only the first call through. *)
Definition setEnabledServer (newServers : ServerType) (st : State) : State :=
  if setServerOnce st then st
  else {| viper_defaults := viper_defaults st;
          viper_overrides := viper_overrides st;
          enabledServers := Set_ (enabledServers st) newServers;
          setServerOnce := true |}.

Definition getConfigBase : result string :=
  match os_UserHomeDir E with
  | Err err => Err err
  | Ok home => Ok (filepath_Join E [home; ".config"; "pelican"])
  end.

Definition initConfigDir (st : State) : option error * State :=
  let configDir := viper_GetString "ConfigDir" st in
  if String.eqb configDir "" then
    if IsRootExecution E then
      (None, viper_SetDefault "ConfigDir" (VString "/etc/pelican") st)
    else
      match getConfigBase with
      | Err err => (Some err, st)
      | Ok configTmp => (None, viper_SetDefault "ConfigDir" (VString configTmp) st)
      end
  else (None, st).

(** The defaults the assignments below [setEnabledServer] put in place,
    in source order, as far as they do not touch the file system. *)
Definition serverDefaults (configDir : string) : list (string * Value) :=
  let j := fun elems => VString (filepath_Join E (configDir :: elems)) in
  [ ("Server.TLSCertificate", j ["certificates"; "tls.crt"]);
    ("Server.TLSKey", j ["certificates"; "tls.key"]);
    ("Server.TLSCAKey", j ["certificates"; "tlsca.key"]);
    ("Server.SessionSecretFile", j ["session-secret"]);
    ("Xrootd.RobotsTxtFile", j ["robots.txt"]);
    ("Xrootd.ScitokensConfig", j ["xrootd"; "scitokens.cfg"]);
    ("Xrootd.Authfile", j ["xrootd"; "authfile"]);
    ("Xrootd.MacaroonsKeyFile", j ["macaroons-secret"]);
    ("IssuerKey", j ["issuer.jwk"]);
    ("Server.UIPasswordFile", j ["server-web-passwd"]);
    ("Server.UIActivationCodeFile", j ["server-web-activation-code"]);
    ("Server.SessionSecretFile", j ["session-secret"]);
    ("OIDC.ClientIDFile", j ["oidc-client-id"]);
    ("OIDC.ClientSecretFile", j ["oidc-client-secret"]);
    ("Cache.ExportLocation", VString "/");
    ("Registry.RequireKeyChaining", VBool true) ].

Definition setDefaults (kvs : list (string * Value)) (st : State) : State :=
  fold_left (fun st kv => viper_SetDefault (fst kv) (snd kv) st) kvs st.

(** The root / non-root branch of the defaults. *)
Definition locationDefaults (xrootdPrefix configDir : string) (s : State * OS)
    : option error * (State * OS) :=
  let '(st, os) := s in
  if IsRootExecution E then
    (None,
     (setDefaults
        [ ("Xrootd.RunLocation",
           VString (filepath_Join E ["/run"; "pelican"; "xrootd"; xrootdPrefix]));
          ("Cache.DataLocation", VString "/run/pelican/xcache");
          ("Origin.Multiuser", VBool true);
          ("Director.GeoIPLocation",
           VString "/var/cache/pelican/maxmind/GeoLite2-City.mmdb");
          ("Registry.DbLocation", VString "/var/lib/pelican/registry.sqlite");
          ("Monitoring.DataLocation", VString "/var/lib/pelican/monitoring/data");
          ("Shoveler.QueueDirectory", VString "/var/spool/pelican/shoveler/queue");
          ("Shoveler.AMQPTokenLocation", VString "/etc/pelican/shoveler-token") ] st,
      os))
  else
    let st1 :=
      setDefaults
        [ ("Director.GeoIPLocation",
           VString (filepath_Join E [configDir; "maxmind"; "GeoLite2-City.mmdb"]));
          ("Registry.DbLocation",
           VString (filepath_Join E [configDir; "ns-registry.sqlite"]));
          ("Monitoring.DataLocation",
           VString (filepath_Join E [configDir; "monitoring/data"]));
          ("Shoveler.QueueDirectory",
           VString (filepath_Join E [configDir; "shoveler/queue"]));
          ("Shoveler.AMQPTokenLocation",
           VString (filepath_Join E [configDir; "shoveler-token"])) ] st in
    let userRuntimeDir := os_Getenv E "XDG_RUNTIME_DIR" in
    if negb (String.eqb userRuntimeDir "") then
      let runtimeDir := filepath_Join E [userRuntimeDir; "pelican"; xrootdPrefix] in
      match os_MkdirAll E runtimeDir os with
      | (Some err, os1) => (Some err, (st1, os1))
      | (None, os1) =>
          (None,
           (setDefaults
              [ ("Xrootd.RunLocation", VString runtimeDir);
                ("Cache.DataLocation", VString (filepath_Join E [runtimeDir; "xcache"]));
                ("Origin.Multiuser", VBool false) ] st1,
            os1))
      end
    else
      match os_MkdirTemp E "" "pelican-xrootd-*" os with
      | (Err err, os1) => (Some err, (st1, os1))
      | (Ok dir, os1) =>
          (None,
           (setDefaults
              [ ("Xrootd.RunLocation", VString (filepath_Join E [dir; xrootdPrefix]));
                ("Cache.DataLocation", VString (filepath_Join E [dir; "xcache"]));
                ("Origin.Multiuser", VBool false) ] st1,
            cleanupDirOnShutdown E dir os1))
      end.

Definition InitServer (currentServers : ServerType) (s : State * OS)
    : option error * (State * OS) :=
  let '(st, os) := s in
  match initConfigDir st with
  | (Some err, st1) =>
      (Some (errors_Wrap err "Failed to initialize the server configuration"), (st1, os))
  | (None, st1) =>
      if IsEnabled currentServers OriginType && IsEnabled currentServers CacheType then
        (Some (errors_New
                 "A cache and origin cannot both be enabled in the same instance"),
         (st1, os))
      else
        let st2 := setEnabledServer currentServers st1 in
        let xrootdPrefix :=
          if IsEnabled currentServers OriginType then "origin"
          else if IsEnabled currentServers CacheType then "cache"
          else "" in
        let configDir := viper_GetString "ConfigDir" st2 in
        let st3 := setDefaults (serverDefaults configDir) st2 in
        match locationDefaults xrootdPrefix configDir (st3, os) with
        | (Some err, s4) => (Some err, s4)
        | (None, s4) => finishInitServer E currentServers s4
        end
  end.

(** The specification's sentence about the rejected call: with both bits
    set it returns an error, no server type recorded and no default
    applied. *)
Definition rejected_untouched (currentServers : ServerType) (s : State * OS) : Prop :=
  IsEnabled currentServers CacheType = true ->
  IsEnabled currentServers OriginType = true ->
  exists err s',
    InitServer currentServers s = (Some err, s') /\
    enabledServers (fst s') = enabledServers (fst s) /\
    setServerOnce (fst s') = setServerOnce (fst s) /\
    viper_defaults (fst s') = viper_defaults (fst s).

(** The two errors of a rejected call. *)
Definition conflict_error : error :=
  errors_New "A cache and origin cannot both be enabled in the same instance".

Definition configDir_error (err : error) : error :=
  errors_Wrap err "Failed to initialize the server configuration".

End Init.

(** A plain non-root machine to run the code on. *)
Definition plain_env : Env unit :=
  {| IsRootExecution := false;
     os_UserHomeDir := Ok "/home/pelican";
     os_Getenv := fun _ => "";
     os_MkdirAll := fun _ os => (None, os);
     os_MkdirTemp := fun _ _ os => (Ok "/tmp/pelican-xrootd-1", os);
     cleanupDirOnShutdown := fun _ os => os;
     filepath_Join := fun elems => String.concat "/" elems;
     strings_ToLower := ascii_lower;
     cast_ToString := fun v => match v with
                               | VString s => s
                               | VBool true => "true"
                               | VBool false => "false"
                               | VInt _ => ""
                               end;
     finishInitServer := fun _ s => (None, s) |}.

Definition fresh : State :=
  {| viper_defaults := ∅; viper_overrides := ∅;
     enabledServers := 0; setServerOnce := false |}.

End Config.

(* ===================================================================== *)
(** ** registry/registry.go *)
(* ===================================================================== *)

Module Registry.
Import Go.

(** A JWK, identified by its canonical JSON; a key set is a list of them. *)
Definition Key := string.
Definition Jwks := list Key.

(** What [key.Raw] can yield: the ECDSA public key the handshake needs, or
    a key of another kind. *)
Inductive RawKey :=
| ECDSAPublicKey (pub : string)
| OtherKey.

Definition PrivateKey := string.

(** Modelled from the spec: the approval status of a namespace; the
    declaration of RegistrationStatus is not in src/. *)
Definition RegistrationStatus := string.
Definition Pending : RegistrationStatus := "Pending".
Definition Approved : RegistrationStatus := "Approved".
Definition Denied : RegistrationStatus := "Denied".

(** Modelled from the spec: admin_metadata with status, description,
    site_name, institution, user_id; the declaration of AdminMetadata is not
    in src/. *)
Record AdminMetadata := {
  UserID : string;
  Description : string;
  SiteName : string;
  Institution : string;
  Status : RegistrationStatus
}.

(** The zero value [AdminMetadata{}]. *)
Definition emptyMetadata : AdminMetadata :=
  {| UserID := ""; Description := ""; SiteName := ""; Institution := ""; Status := "" |}.

(** Go's [==] on the struct. *)
Definition AdminMetadata_eqb (a b : AdminMetadata) : bool :=
  String.eqb (UserID a) (UserID b) && String.eqb (Description a) (Description b) &&
  String.eqb (SiteName a) (SiteName b) && String.eqb (Institution a) (Institution b) &&
  String.eqb (Status a) (Status b).

(** Modelled from the spec: a row of the Namespace table (prefix, pubkeys,
    identity, admin_metadata); the declaration of Namespace is not in
    src/. *)
Record Namespace := {
  ID : Z;
  Prefix : string;
  Pubkey : string;
  Identity : string;
  Admin_Metadata : AdminMetadata
}.

Record registrationData := {
  ClientNonce : string;
  ClientPayload : string;
  ClientSignature : string;
  ServerNonce : string;
  ServerPayload : string;
  ServerSignature : string;
  rd_Pubkey : string;
  AccessToken : string;
  rd_Identity : string;
  IdentityRequired : string;
  DeviceCode : string;
  rd_Prefix : string
}.

Definition set_Identity (d : registrationData) (v : string) : registrationData :=
  {| ClientNonce := ClientNonce d; ClientPayload := ClientPayload d;
     ClientSignature := ClientSignature d; ServerNonce := ServerNonce d;
     ServerPayload := ServerPayload d; ServerSignature := ServerSignature d;
     rd_Pubkey := rd_Pubkey d; AccessToken := AccessToken d; rd_Identity := v;
     IdentityRequired := IdentityRequired d; DeviceCode := DeviceCode d;
     rd_Prefix := rd_Prefix d |}.

Definition set_Prefix (d : registrationData) (v : string) : registrationData :=
  {| ClientNonce := ClientNonce d; ClientPayload := ClientPayload d;
     ClientSignature := ClientSignature d; ServerNonce := ServerNonce d;
     ServerPayload := ServerPayload d; ServerSignature := ServerSignature d;
     rd_Pubkey := rd_Pubkey d; AccessToken := AccessToken d; rd_Identity := rd_Identity d;
     IdentityRequired := IdentityRequired d; DeviceCode := DeviceCode d;
     rd_Prefix := v |}.

Record checkStatusReq := { csr_Prefix : string }.

(** The device-authorization answer and the token answer of the identity
    provider, as [json.Unmarshal] fills them. *)
Record Response := { VerificationURLComplete : string; rs_DeviceCode : string }.
Record TokenResponse := { tr_AccessToken : string; tr_Error : string }.

(** oauth2's client configuration. *)
Record OIDCClient := {
  ClientID : string;
  ClientSecret : string;
  Scopes : list string;
  DeviceAuthURL : string;
  TokenURL : string;
  UserInfoURL : string
}.

Record HttpResponse := {
  StatusCode : Z;
  RespBody : result string
}.

(** The [scope] claim of a parsed token, as [tok.Get] and the type
    assertion see it. *)
Inductive ScopeClaim :=
| ScopeAbsent
| ScopeNotString
| ScopeString (s : string).

Record Token := {
  tok_scope : ScopeClaim;
  tok_claims : string
}.

(** token_scopes.Pelican_NamespaceDelete, named in the spec. *)
Definition Pelican_NamespaceDelete : string := "pelican.namespace_delete".

(** What a handler hands to gin. *)
Inductive Body :=
| NoBody
| H (fields : list (string * string))
| HErr (context : string) (e : error)
| JwksBody (keys : Jwks)
| CheckStatusRes (approved : bool)
| NamespaceConfig (JwksUri : string)
| Text (s : string).

Definition Write : Type := Z * Body.

(** The registry's collaborators: its database layer and validation
    (registry_db.go, registry_validation.go: not in src/), the
    crypto, jwt, json, url and http libraries, and the configuration. *)
Record Env (DB World : Type) := {
  namespaceExists : string -> DB -> result bool;
  namespaceExistsByPrefix : string -> DB -> result bool;
  getNamespaceJwksByPrefix : string -> DB -> result (Jwks * option AdminMetadata);
  getNamespaceByPrefix : string -> DB -> result (option Namespace);
  addNamespace : Namespace -> DB -> option error * DB;
  deleteNamespace : string -> DB -> option error * DB;
  validateJwks : string -> result Key;
  validatePrefix : string -> string * option error;
  validateKeyChaining : string -> Key -> DB -> option error * option error;
  key_Raw : Key -> result RawKey;
  sha256_Sum256 : string -> string;
  ecdsa_VerifyASN1 : string -> string -> string -> bool;
  ecdsa_Sign : PrivateKey -> string -> World -> result string * World;
  PublicKey_of : PrivateKey -> string;
  rand_Read : World -> result (nat -> ascii) * World;
  config_LoadPrivateKey : string -> World -> result PrivateKey * World;
  json_Marshal_RawMessage : string -> result string;
  jwt_Parse : string -> Jwks -> result Token;
  jwt_Validate_claims : Token -> World -> option error;
  IssuerKey : string;
  Registry_RequireCacheApproval : bool;
  Registry_RequireOriginApproval : bool;
  Server_ExternalWebUrl : string;
  ServerOIDCClient : result OIDCClient;
  client_PostForm : string -> list (string * string) -> World -> result HttpResponse * World;
  json_Unmarshal_Response : string -> result Response;
  json_Unmarshal_TokenResponse : string -> result TokenResponse;
  url_Parse : string -> result string;
  url_JoinPath : string -> list string -> result string;
  url_String : string -> string -> string
}.
Arguments namespaceExists {DB World}.
Arguments namespaceExistsByPrefix {DB World}.
Arguments getNamespaceJwksByPrefix {DB World}.
Arguments getNamespaceByPrefix {DB World}.
Arguments addNamespace {DB World}.
Arguments deleteNamespace {DB World}.
Arguments validateJwks {DB World}.
Arguments validatePrefix {DB World}.
Arguments validateKeyChaining {DB World}.
Arguments key_Raw {DB World}.
Arguments sha256_Sum256 {DB World}.
Arguments ecdsa_VerifyASN1 {DB World}.
Arguments ecdsa_Sign {DB World}.
Arguments PublicKey_of {DB World}.
Arguments rand_Read {DB World}.
Arguments config_LoadPrivateKey {DB World}.
Arguments json_Marshal_RawMessage {DB World}.
Arguments jwt_Parse {DB World}.
Arguments jwt_Validate_claims {DB World}.
Arguments IssuerKey {DB World}.
Arguments Registry_RequireCacheApproval {DB World}.
Arguments Registry_RequireOriginApproval {DB World}.
Arguments Server_ExternalWebUrl {DB World}.
Arguments ServerOIDCClient {DB World}.
Arguments client_PostForm {DB World}.
Arguments json_Unmarshal_Response {DB World}.
Arguments json_Unmarshal_TokenResponse {DB World}.
Arguments url_Parse {DB World}.
Arguments url_JoinPath {DB World}.
Arguments url_String {DB World}.

(** The registry process: the database, the once-loaded server key
    ([serverCredsLoad], [serverCredsPrivKey], [serverCredsErr]) and the
    world outside. *)
Record St (DB World : Type) := {
  db : DB;
  serverCreds : option (result PrivateKey);
  world : World
}.
Arguments db {DB World}.
Arguments serverCreds {DB World}.
Arguments world {DB World}.

Section Handlers.
Context {DB World : Type} (E : Env DB World).

Abbreviation State := (St DB World).

(** A handler step: it returns or panics, moves the state on and adds to
    the response. *)
Definition M (A : Type) : Type := State -> outcome A * State * list Write.

Definition ret {A} (a : A) : M A := fun s => (Returned a, s, []).

Definition bind {A B} (m : M A) (k : A -> M B) : M B :=
  fun s =>
    let '(o, s1, w1) := m s in
    match o with
    | Panicked msg => (Panicked msg, s1, w1)
    | Returned a => let '(o2, s2, w2) := k a s1 in (o2, s2, w1 ++ w2)
    end.

Notation "x <- c1 ;; c2" := (bind c1 (fun x => c2))
  (at level 100, c1 at next level, right associativity).
Notation "c1 ;;; c2" := (bind c1 (fun _ => c2))
  (at level 100, right associativity).

Definition panic {A} (msg : string) : M A := fun s => (Panicked msg, s, []).

(** [ctx.JSON(code, body)] and its relatives. *)
Definition JSON (code : Z) (body : Body) : M unit :=
  fun s => (Returned tt, s, [(code, body)]).

Definition readDB {A} (f : DB -> A) : M A := fun s => (Returned (f (db s)), s, []).

Definition writeDB {A} (f : DB -> A * DB) : M A :=
  fun s => let '(a, d) := f (db s) in
           (Returned a, {| db := d; serverCreds := serverCreds s; world := world s |}, []).

Definition inWorld {A} (f : World -> A * World) : M A :=
  fun s => let '(a, w) := f (world s) in
           (Returned a, {| db := db s; serverCreds := serverCreds s; world := w |}, []).

Definition readWorld {A} (f : World -> A) : M A :=
  fun s => (Returned (f (world s)), s, []).

Definition generateNonce : M (result string) :=
  r <- inWorld (rand_Read E) ;;
  match r with
  | Err err => ret (Err err)
  | Ok fill =>
      let nonce := string_of_list_ascii (map fill (seq 0 32)) in
      ret (Ok (EncodeToString nonce))
  end.

Definition loadServerKeys : M (result PrivateKey) :=
  fun s =>
    match serverCreds s with
    | Some r => (Returned r, s, [])
    | None =>
        let '(r, w) := config_LoadPrivateKey E (IssuerKey E) (world s) in
        (Returned r, {| db := db s; serverCreds := Some r; world := w |}, [])
    end.

Definition signPayload (payload : string) (privateKey : PrivateKey)
    : M (result string) :=
  let hash := sha256_Sum256 E payload in
  r <- inWorld (ecdsa_Sign E privateKey hash) ;;
  match r with
  | Err err => ret (Err err)
  | Ok signature => ret (Ok signature)
  end.

Definition verifySignature (payload signature publicKey : string) : bool :=
  let hash := sha256_Sum256 E payload in
  ecdsa_VerifyASN1 E publicKey hash signature.

Definition keySignChallengeInit (data : registrationData) : M (option error) :=
  r <- generateNonce ;;
  match r with
  | Err err =>
      JSON 500 (H [("error", "Failed to generate nonce for key sign challenge")]) ;;;
      ret (Some (errors_Wrap err "Failed to generate nonce for key-sign challenge"))
  | Ok serverNonce =>
      let serverPayload := ClientNonce data +:+ ServerNonce data in
      r <- loadServerKeys ;;
      match r with
      | Err err =>
          JSON 500 (H [("error", "Server is unable to generate a key sign challenge")]) ;;;
          ret (Some (errors_Wrap err "Failed to load the server's private key"))
      | Ok privateKey =>
          r <- signPayload serverPayload privateKey ;;
          match r with
          | Err err =>
              JSON 500 (H [("error", "Failure when signing the challenge")]) ;;;
              ret (Some (errors_Wrap err "Failed to sign payload for key-sign challenge"))
          | Ok serverSignature =>
              JSON 200 (H [("server_nonce", serverNonce);
                           ("client_nonce", ClientNonce data);
                           ("server_payload", EncodeToString serverPayload);
                           ("server_signature", EncodeToString serverSignature)]) ;;;
              ret None
          end
      end
  end.

Definition addNamespaceHandler (data : registrationData) : M (option error) :=
  match json_Marshal_RawMessage E (rd_Pubkey data) with
  | Err err =>
      ret (Some (errors_Wrapf err "Failed to marshal the pubkey for prefix %s"
                   [ArgStr (rd_Prefix data)]))
  | Ok pubkeyData =>
      let ns := {| ID := 0; Prefix := rd_Prefix data; Pubkey := pubkeyData;
                   Identity := rd_Identity data;
                   Admin_Metadata :=
                     {| UserID := ""; Description := ""; SiteName := "";
                        Institution := ""; Status := Pending |} |} in
      err <- writeDB (addNamespace E ns) ;;
      match err with
      | Some err =>
          ret (Some (errors_Wrapf err "Failed to add prefix %s" [ArgStr (Prefix ns)]))
      | None =>
          JSON 201 (H [("status", "success")]) ;;;
          ret None
      end
  end.

Definition keySignChallengeCommit (data : registrationData) (action : string)
    : M (option error) :=
  match validateJwks E (rd_Pubkey data) with
  | Err err => ret (Some err)
  | Ok key =>
  match key_Raw E key with
  | Err err => ret (Some (errors_Wrap err "failed to generate raw pubkey from jwks"))
  | Ok rawkey =>
  let clientPayload := ClientNonce data +:+ ServerNonce data in
  match DecodeString (ClientSignature data) with
  | Err err =>
      JSON 500 (H [("error", "Failed to decode client's signature")]) ;;;
      ret (Some (errors_Wrap err "Failed to decode the client's signature"))
  | Ok clientSignature =>
  match rawkey with
  | OtherKey =>
      panic "interface conversion: interface {} is not *ecdsa.PublicKey"
  | ECDSAPublicKey clientPub =>
  let clientVerified := verifySignature clientPayload clientSignature clientPub in
  match DecodeString (ServerPayload data) with
  | Err err =>
      JSON 500 (H [("error", "Failed to decode the server's payload")]) ;;;
      ret (Some (errors_Wrap err "Failed to decode the server's payload"))
  | Ok serverPayload =>
  match DecodeString (ServerSignature data) with
  | Err err =>
      JSON 500 (H [("error", "Failed to decode the server's signature")]) ;;;
      ret (Some (errors_Wrap err "Failed to decode the server's signature"))
  | Ok serverSignature =>
  r <- loadServerKeys ;;
  match r with
  | Err err =>
      JSON 500 (H [("error", "Failed to load server's private key")]) ;;;
      ret (Some (errors_Wrap err "Failed to decode the server's private key"))
  | Ok serverPrivateKey =>
  let serverPubkey := PublicKey_of E serverPrivateKey in
  let serverVerified := verifySignature serverPayload serverSignature serverPubkey in
  if clientVerified && serverVerified then
    if String.eqb action "register" then
      r <- readDB (namespaceExists E (rd_Prefix data)) ;;
      match r with
      | Err err =>
          ret (Some (errors_Wrap err
                 "Server encountered an error checking if namespace already exists"))
      | Ok true =>
          JSON 200 (H [("message",
                        "The prefix " +:+ rd_Prefix data +:+
                        " is already registered -- nothing else to do!")]) ;;;
          ret None
      | Ok false =>
          let '(reqPrefix, verr) := validatePrefix E (rd_Prefix data) in
          match verr with
          | Some err =>
              ret (Some (errors_Wrapf err "Requested namespace %s failed validation"
                           [ArgStr reqPrefix]))
          | None =>
              let data := set_Prefix data reqPrefix in
              r <- readDB (validateKeyChaining E reqPrefix key) ;;
              match r with
              | (Some valErr, _) =>
                  JSON 403 (HErr "" valErr) ;;;
                  ret (Some valErr)
              | (None, Some sysErr) =>
                  JSON 500 (HErr "" sysErr) ;;;
                  ret (Some sysErr)
              | (None, None) =>
                  err <- addNamespaceHandler data ;;
                  match err with
                  | Some err =>
                      JSON 500 (H [("error",
                        "The server encountered an error while attempting to add the prefix to its database")]) ;;;
                      ret (Some (errors_Wrapf err "Failed while trying to add to database" []))
                  | None => ret None
                  end
              end
          end
      end
    else ret None
  else
    JSON 500 (H [("error",
      "Server was either unable to verify the client's public key, or an encountered an error with its own")]) ;;;
    ret (Some (errors_Errorf
      "Either the server or the client could not be verified: server verified:%t, client verified:%t"
      [ArgBool serverVerified; ArgBool clientVerified]))
  end end end end end end end.

Definition nonempty (s : string) : bool := negb (String.eqb s "").

Definition keySignChallenge (data : registrationData) (action : string)
    : M (option error) :=
  if nonempty (ClientNonce data) && nonempty (ClientPayload data) &&
     nonempty (ClientSignature data) && nonempty (ServerNonce data) &&
     nonempty (ServerPayload data) && nonempty (ServerSignature data) then
    err <- keySignChallengeCommit data action ;;
    match err with
    | Some err => ret (Some (errors_Wrap err "commit failed"))
    | None => ret None
    end
  else if nonempty (ClientNonce data) then
    err <- keySignChallengeInit data ;;
    match err with
    | Some err => ret (Some (errors_Wrap err "init failed"))
    | None => ret None
    end
  else
    JSON 300 (H [("error", "MISSING PARAMETERS")]) ;;;
    ret (Some (errors_New "key sign challenge was missing parameters")).

(** The tail shared by the two callers of [keySignChallenge]. *)
Definition runChallenge (reqData : registrationData) : M unit :=
  err <- keySignChallenge reqData "register" ;;
  match err with
  | Some err =>
      JSON 500 (HErr "server encountered an error during key-sign challenge: " err)
  | None => ret tt
  end.

Definition serverError (msg : string) : M unit := JSON 500 (H [("error", msg)]).

(** [cliRegisterNamespace]; [bound] is what [ctx.BindJSON] made of the
    request body. A failed bind has gin abort with 400 before the handler
    adds its own 400. *)
Definition cliRegisterNamespace (bound : result registrationData) : M unit :=
  match bound with
  | Err _ =>
      JSON 400 NoBody ;;;
      JSON 400 (H [("error", "Bad Request")])
  | Ok reqData =>
  if nonempty (AccessToken reqData) then
    let payload := [("access_token", AccessToken reqData)] in
    match ServerOIDCClient E with
    | Err _ => serverError "server has malformed OIDC configuration"
    | Ok oidcConfig =>
        r <- inWorld (client_PostForm E (UserInfoURL oidcConfig) payload) ;;
        match r with
        | Err _ =>
            serverError "server encountered an error making request to user info endpoint"
        | Ok resp =>
            if negb (StatusCode resp =? 200) then
              serverError "server received non-200 status from user info endpoint"
            else
              match RespBody resp with
              | Err _ =>
                  serverError
                    "Server encountered an error reading response from user info endpoint"
              | Ok body => runChallenge (set_Identity reqData body)
              end
        end
    end
  else if String.eqb (IdentityRequired reqData) "false" ||
          String.eqb (IdentityRequired reqData) "" then
    runChallenge reqData
  else
    match ServerOIDCClient E with
    | Err _ => serverError "server has malformed OIDC configuration"
    | Ok oidcConfig =>
        if String.eqb (DeviceCode reqData) "" then
          let payload := [("client_id", ClientID oidcConfig);
                          ("client_secret", ClientSecret oidcConfig);
                          ("scope", String.concat " " (Scopes oidcConfig))] in
          r <- inWorld (client_PostForm E (DeviceAuthURL oidcConfig) payload) ;;
          match r with
          | Err _ => serverError "server encountered error requesting device code"
          | Ok response =>
              if negb (StatusCode response =? 200) then
                serverError
                  "server received non-200 status code from OIDC device auth endpoint"
              else
                match RespBody response with
                | Err _ =>
                    serverError
                      "server encountered error reading response from device auth endpoint"
                | Ok body =>
                    match json_Unmarshal_Response E body with
                    | Err _ =>
                        serverError
                          "server could not parse response from device auth endpoint"
                    | Ok res =>
                        JSON 200 (H [("device_code", rs_DeviceCode res);
                                     ("verification_url", VerificationURLComplete res)])
                    end
                end
          end
        else
          let payload := [("client_id", ClientID oidcConfig);
                          ("client_secret", ClientSecret oidcConfig);
                          ("device_code", DeviceCode reqData);
                          ("grant_type", "urn:ietf:params:oauth:grant-type:device_code")] in
          r <- inWorld (client_PostForm E (TokenURL oidcConfig) payload) ;;
          match r with
          | Err _ =>
              serverError "server encountered an error while making request to token endpoint"
          | Ok response =>
              if negb (StatusCode response =? 200) && negb (StatusCode response =? 400) then
                serverError "server received bad status code from token endpoint"
              else
                match RespBody response with
                | Err _ =>
                    serverError
                      "server encountered an error reading response from token endpoint"
                | Ok body =>
                    match json_Unmarshal_TokenResponse E body with
                    | Err _ =>
                        serverError "server could not parse error from token endpoint"
                    | Ok tokenResponse =>
                        if String.eqb (tr_AccessToken tokenResponse) "" then
                          if (StatusCode response =? 400) &&
                             String.eqb (tr_Error tokenResponse) "authorization_pending"
                          then JSON 200 (H [("status", "PENDING")])
                          else serverError
                                 "server encountered unknown error waiting for token"
                        else
                          JSON 200 (H [("status", "APPROVED");
                                       ("access_token", tr_AccessToken tokenResponse)])
                    end
                end
          end
    end
  end.

(** The validator [deleteNamespaceHandler] adds to [jwt.Validate]. *)
Definition scopeValidator (tok : Token) : option error :=
  match tok_scope tok with
  | ScopeAbsent =>
      Some (errors_New "No scope is present; required for authorization")
  | ScopeNotString =>
      Some (errors_New "scope claim in token is not string-valued")
  | ScopeString scope =>
      if existsb (fun scope => String.eqb scope Pelican_NamespaceDelete)
                 (Split_on " " scope)
      then None
      else Some (errors_New "Token does not contain namespace deletion authorization")
  end.

(** [jwt.Validate(parsed, jwt.WithValidator(scopeValidator))]: the
    time-based checks of the library, then the validator. *)
Definition jwt_Validate (parsed : Token) : M (option error) :=
  verr <- readWorld (jwt_Validate_claims E parsed) ;;
  match verr with
  | Some err => ret (Some err)
  | None => ret (scopeValidator parsed)
  end.

(** [deleteNamespaceHandler]; [prefix] is the wildcard parameter and
    [authHeader] the Authorization header (empty when absent). *)
Definition deleteNamespaceHandler (prefix authHeader : string) : M unit :=
  if String.eqb prefix "" then
    JSON 400 (H [("error", "prefix is required to delete")])
  else
    r <- readDB (namespaceExists E prefix) ;;
    match r with
    | Err _ =>
        serverError "server encountered an error checking if namespace already exists"
    | Ok exists_ =>
        (if negb exists_
         then JSON 400 (H [("error", "the prefix does not exist so it cannot be deleted")])
         else ret tt) ;;;
        let delTokenStr := TrimPrefix authHeader "Bearer " in
        r <- readDB (getNamespaceJwksByPrefix E prefix) ;;
        match r with
        | Err _ =>
            serverError "server encountered an error loading the prefix's stored jwks"
        | Ok (originJwks, _) =>
            match jwt_Parse E delTokenStr originJwks with
            | Err _ =>
                serverError "server could not verify/parse the provided deletion token"
            | Ok parsed =>
                verr <- jwt_Validate parsed ;;
                match verr with
                | Some _ =>
                    serverError "server could not validate the provided deletion token"
                | None =>
                    err <- writeDB (deleteNamespace E prefix) ;;
                    match err with
                    | Some _ =>
                        serverError
                          "server encountered an error deleting namespace from database"
                    | None => JSON 200 (H [("status", "success")])
                    end
                end
            end
        end
    end.

(** [wildcardHandler]; [path] is the wildcard parameter. *)
Definition wildcardHandler (path : string) : M unit :=
  if HasSuffix path "/.well-known/issuer.jwks" then
    let prefix := TrimSuffix path "/.well-known/issuer.jwks" in
    r <- readDB (namespaceExistsByPrefix E prefix) ;;
    match r with
    | Err _ =>
        serverError "server encountered an error trying to check if the namespace exists"
    | Ok false =>
        JSON 404 (H [("error", "namespace prefix '" +:+ prefix +:+ "', was not found")])
    | Ok true =>
        r <- readDB (getNamespaceJwksByPrefix E prefix) ;;
        match r with
        | Err _ => serverError "server encountered an error trying to get jwks for prefix"
        | Ok (jwks, adminMetadata) =>
            let serve := JSON 200 (JwksBody jwks) in
            let unapproved :=
              match adminMetadata with
              | Some md => negb (String.eqb (Status md) Approved)
              | None => false
              end in
            if unapproved then
              if HasPrefix prefix "/caches/" then
                if Registry_RequireCacheApproval E then
                  JSON 403 (H [("error",
                    "The cache has not been approved by federation administrator")])
                else serve
              else
                if Registry_RequireOriginApproval E then
                  JSON 403 (H [("error",
                    "The origin has not been approved by federation administrator")])
                else serve
            else serve
        end
    end
  else if HasSuffix path "/.well-known/openid-configuration" then
    let prefix := TrimSuffix path "/.well-known/openid-configuration" in
    r <- readDB (namespaceExists E prefix) ;;
    match r with
    | Err _ =>
        serverError "Server encountered an error while checking if the prefix exists"
    | Ok exists_ =>
        (if negb exists_
         then JSON 404 (H [("error", "The requested prefix " +:+ prefix +:+
                                     " does not exist in the registry's database")])
         else ret tt) ;;;
        match url_Parse E (Server_ExternalWebUrl E) with
        | Err _ => ret tt
        | Ok configUrl =>
            let path := TrimSuffix path "/openid-configuration" in
            match url_JoinPath E "api" ["v1.0"; "registry"; path; "issuer.jwks"] with
            | Err _ => ret tt
            | Ok joined => JSON 200 (NamespaceConfig (url_String E configUrl joined))
            end
        end
    end
  else JSON 404 (Text "404 Page not found").

(** [checkNamespaceStatusHandler]; [bound] is what [ctx.ShouldBind] made
    of the request body. *)
Definition checkNamespaceStatusHandler (bound : result checkStatusReq) : M unit :=
  match bound with
  | Err _ => JSON 400 (H [("error", "Failed to parse request body")])
  | Ok req =>
      if String.eqb (csr_Prefix req) "" then
        JSON 400 (H [("error", "prefix is required")])
      else
        r <- readDB (getNamespaceByPrefix E (csr_Prefix req)) ;;
        match r with
        | Err _ | Ok None => serverError "Error getting namespace"
        | Ok (Some ns) =>
            if negb (AdminMetadata_eqb (Admin_Metadata ns) emptyMetadata) then
              if HasPrefix (csr_Prefix req) "/caches" && Registry_RequireCacheApproval E then
                JSON 200 (CheckStatusRes
                            (String.eqb (Status (Admin_Metadata ns)) Approved))
              else if negb (Registry_RequireCacheApproval E) then
                JSON 200 (CheckStatusRes true)
              else if Registry_RequireOriginApproval E then
                JSON 200 (CheckStatusRes
                            (String.eqb (Status (Admin_Metadata ns)) Approved))
              else
                JSON 200 (CheckStatusRes true)
            else
              JSON 200 (CheckStatusRes true)
        end
  end.

(** *** Reading a run *)

Definition writes {A} (x : outcome A * State * list Write) : list Write := snd x.
Definition final {A} (x : outcome A * State * list Write) : State := snd (fst x).
Definition result_of {A} (x : outcome A * State * list Write) : outcome A := fst (fst x).

(** The status the client receives. *)
Definition status {A} (x : outcome A * State * list Write) : Z :=
  response_status (writes x).

(** *** Vocabulary of the statements *)

(** The registration handler hands [data] to the key-sign challenge in
    state [st0]: either the request asks for no identity, or its access
    token was exchanged for an identity at the user-info endpoint. *)
Definition reaches_challenge (bound : result registrationData) (st : State)
    (data : registrationData) (st0 : State) : Prop :=
  exists reqData, bound = Ok reqData /\
    ((AccessToken reqData = "" /\
      (IdentityRequired reqData = "false" \/ IdentityRequired reqData = "") /\
      data = reqData /\ st0 = st)
     \/
     (AccessToken reqData <> "" /\
      exists oidcConfig w1 resp body,
        ServerOIDCClient E = Ok oidcConfig /\
        client_PostForm E (UserInfoURL oidcConfig)
          [("access_token", AccessToken reqData)] (world st) = (Ok resp, w1) /\
        StatusCode resp = 200 /\
        RespBody resp = Ok body /\
        data = set_Identity reqData body /\
        st0 = {| db := db st; serverCreds := serverCreds st; world := w1 |})).

(** All six challenge fields are present. *)
Definition complete_commit (data : registrationData) : Prop :=
  ClientNonce data <> "" /\ ClientPayload data <> "" /\ ClientSignature data <> "" /\
  ServerNonce data <> "" /\ ServerPayload data <> "" /\ ServerSignature data <> "".

(** A challenge commit whose two signatures verify: the client's over
    client_nonce ‖ server_nonce with the submitted ECDSA key, the server's
    over the returned payload with the registry's own key. *)
Definition verified_commit (data : registrationData) (st0 : State) : Prop :=
  complete_commit data /\
  exists key pub csig spay ssig priv,
    validateJwks E (rd_Pubkey data) = Ok key /\
    key_Raw E key = Ok (ECDSAPublicKey pub) /\
    DecodeString (ClientSignature data) = Ok csig /\
    DecodeString (ServerPayload data) = Ok spay /\
    DecodeString (ServerSignature data) = Ok ssig /\
    result_of (loadServerKeys st0) = Returned (Ok priv) /\
    verifySignature (ClientNonce data +:+ ServerNonce data) csig pub = true /\
    verifySignature spay ssig (PublicKey_of E priv) = true.

(** A delete request is authorized: the bearer token verifies against the
    prefix's stored key set, is within its validity, and carries the
    namespace-delete scope. *)
Definition authorized (prefix authHeader : string) (st : State) : Prop :=
  exists jwks md tok scope,
    getNamespaceJwksByPrefix E prefix (db st) = Ok (jwks, md) /\
    jwt_Parse E (TrimPrefix authHeader "Bearer ") jwks = Ok tok /\
    jwt_Validate_claims E tok (world st) = None /\
    tok_scope tok = ScopeString scope /\
    In Pelican_NamespaceDelete (Split_on " " scope).

(** The specification's answer to an unauthorized delete: a 4xx status,
    401 without a bearer, and nothing deleted. *)
Definition refused_4xx (prefix authHeader : string) (st : State) : Prop :=
  let run := deleteNamespaceHandler prefix authHeader st in
  is_4xx (status run) = true /\
  (authHeader = "" -> status run = 401) /\
  db (final run) = db st.

(** The approval requirement that applies to a prefix. *)
Definition approval_required (prefix : string) : bool :=
  if HasPrefix prefix "/caches/"
  then Registry_RequireCacheApproval E
  else Registry_RequireOriginApproval E.

(** The stored admin metadata says the namespace is not approved. *)
Definition not_approved (md : option AdminMetadata) : Prop :=
  exists m, md = Some m /\ Status m <> Approved.

End Handlers.

(** *** A small registry to run the handlers against *)

(** Modelled from the spec: the durable table of Namespaces, unique by
    prefix; registry_db.go is not in src/. *)
Abbreviation Table := (gmap string Namespace).

Definition lookupJwks (prefix : string) (t : Table)
    : result (Jwks * option AdminMetadata) :=
  match t !! prefix with
  | Some ns => Ok ([Pubkey ns], Some (Admin_Metadata ns))
  | None => Err (errors_New "sql: no rows in result set")
  end.

Definition lookupNamespace (prefix : string) (t : Table) : result (option Namespace) :=
  match t !! prefix with
  | Some ns => Ok (Some ns)
  | None => Err (errors_New "record not found")
  end.

Definition hasPrefixRow (prefix : string) (t : Table) : result bool :=
  Ok (match t !! prefix with Some _ => true | None => false end).

(** A stand-in token format, [<key>|<scope>], accepted when [<key>] is in
    the key set; the empty string is no token. *)
Definition toy_jwt_Parse (tok : string) (jwks : Jwks) : result Token :=
  match List.find (fun k => HasPrefix tok (k +:+ "|")) jwks with
  | Some k => Ok {| tok_scope := ScopeString (TrimPrefix tok (k +:+ "|"));
                    tok_claims := "" |}
  | None => Err (errors_New "failed to parse token")
  end.

(** Stand-in signatures: [<key>:<digest>], with the digest the payload
    itself and the public half of a key the key itself. The world is a
    counter feeding the random source. *)
Definition toy (requireCache requireOrigin : bool) : Env Table nat :=
  {| namespaceExists := hasPrefixRow;
     namespaceExistsByPrefix := hasPrefixRow;
     getNamespaceJwksByPrefix := lookupJwks;
     getNamespaceByPrefix := lookupNamespace;
     addNamespace := fun ns t => (None, <[Prefix ns := ns]> t);
     deleteNamespace := fun prefix t => (None, delete prefix t);
     validateJwks := fun s => if String.eqb s "" then Err (errors_New "empty jwks") else Ok s;
     validatePrefix := fun s => if HasPrefix s "/" then (s, None)
                                else ("", Some (errors_New "prefix must start with /"));
     validateKeyChaining := fun _ _ _ => (None, None);
     key_Raw := fun k => Ok (ECDSAPublicKey k);
     sha256_Sum256 := fun payload => payload;
     ecdsa_VerifyASN1 := fun pub hash sig => String.eqb sig (pub +:+ ":" +:+ hash);
     ecdsa_Sign := fun priv hash w => (Ok (priv +:+ ":" +:+ hash), w);
     PublicKey_of := fun priv => priv;
     rand_Read := fun w => (Ok (fun i => ascii_of_nat (w + i)), S w);
     config_LoadPrivateKey := fun _ w => (Ok "registry-key", w);
     json_Marshal_RawMessage := fun s => Ok s;
     jwt_Parse := toy_jwt_Parse;
     jwt_Validate_claims := fun _ _ => None;
     IssuerKey := "/etc/pelican/issuer.jwk";
     Registry_RequireCacheApproval := requireCache;
     Registry_RequireOriginApproval := requireOrigin;
     Server_ExternalWebUrl := "https://registry.example.org";
     ServerOIDCClient := Err (errors_New "OIDC is not configured");
     client_PostForm := fun _ _ w => (Err (errors_New "no network"), w);
     json_Unmarshal_Response := fun _ => Err (errors_New "not JSON");
     json_Unmarshal_TokenResponse := fun _ => Err (errors_New "not JSON");
     url_Parse := fun s => Ok s;
     url_JoinPath := fun base elems => Ok (String.concat "/" (base :: elems));
     url_String := fun u path => u +:+ "/" +:+ path |}.

Definition start (t : Table) : St Table nat :=
  {| db := t; serverCreds := None; world := 0%nat |}.

Definition noData : registrationData :=
  {| ClientNonce := ""; ClientPayload := ""; ClientSignature := "";
     ServerNonce := ""; ServerPayload := ""; ServerSignature := "";
     rd_Pubkey := ""; AccessToken := ""; rd_Identity := "";
     IdentityRequired := ""; DeviceCode := ""; rd_Prefix := "" |}.

(** The body of a challenge init, [{"client_nonce": "A"}]. *)
Definition initA : registrationData :=
  {| ClientNonce := "A"; ClientPayload := ""; ClientSignature := "";
     ServerNonce := ""; ServerPayload := ""; ServerSignature := "";
     rd_Pubkey := ""; AccessToken := ""; rd_Identity := "";
     IdentityRequired := ""; DeviceCode := ""; rd_Prefix := "" |}.

(** A challenge commit for [prefix] by the holder of [key]: client nonce
    "A", server nonce "B", both signatures in the stand-in scheme. *)
Definition commitAB (key prefix : string) : registrationData :=
  {| ClientNonce := "A"; ClientPayload := "AB";
     ClientSignature := EncodeToString (key +:+ ":AB");
     ServerNonce := "B"; ServerPayload := EncodeToString "AB";
     ServerSignature := EncodeToString "registry-key:AB";
     rd_Pubkey := key; AccessToken := ""; rd_Identity := "";
     IdentityRequired := ""; DeviceCode := ""; rd_Prefix := prefix |}.

Definition row (prefix key : string) (st : RegistrationStatus) : Namespace :=
  {| ID := 1; Prefix := prefix; Pubkey := key; Identity := "";
     Admin_Metadata := {| UserID := "admin"; Description := ""; SiteName := "";
                          Institution := ""; Status := st |} |}.

(** A table with [/foo] registered to key k1. *)
Definition foo_k1 (st : RegistrationStatus) : Table := {[ "/foo" := row "/foo" "k1" st ]}.

(** The specification's rule for a commit naming a registered prefix:
    the same key is answered 200, another key is refused with a non-2xx
    status and the row stays as it is. *)
Definition same_key_or_refused {World} (E : Env Table World)
    (data : registrationData) (st : St Table World) : Prop :=
  let run := cliRegisterNamespace E (Ok data) st in
  forall ns, db st !! rd_Prefix data = Some ns ->
    (rd_Pubkey data = Pubkey ns -> status run = 200) /\
    (rd_Pubkey data <> Pubkey ns ->
       is_2xx (status run) = false /\ db (final run) !! rd_Prefix data = Some ns).

End Registry.

(* ===================================================================== *)
(** ** registry/registry.go: key comparison and the existence check *)
(* ===================================================================== *)

Module RegistryKeys.
Import Go Registry.

(** The jwx and json calls these two functions make on keys. *)
Record JwkLib := {
  json_Marshal_Key : Key -> result string;
  jwk_ParseString : string -> result Jwks;
  jwk_KeyID : Key -> string;
  jwk_Equal : Key -> Key -> bool
}.

Record checkNamespaceExistsReq := {
  cer_Prefix : string;
  cer_PubKey : string
}.

(** What [checkNamespaceExistsHandler] answers: an error object, or a
    [checkNamespaceExistsRes]. *)
Inductive ExistsBody :=
| ExistsError (msg : string)
| ExistsErrorOf (e : error)
| ExistsRes (PrefixExists KeyMatch : bool) (Message : string).

(** No space in a string. *)
Definition space_free (s : string) : bool :=
  forallb (fun c => negb (Ascii.eqb c " ")) (list_ascii_of_string s).

(** A digit of lower-case hexadecimal. *)
Definition is_lower_hex (c : ascii) : bool :=
  existsb (Ascii.eqb c) (list_ascii_of_string hextable).

Section Keys.
Context {DB World : Type} (E : Env DB World) (L : JwkLib).

(** The inner loop of [matchKeys] over the keys of one namespace [ns]:
    whether one of them marshals to the same JSON as the incoming key. *)
Fixpoint matchKeyset (incomingKey : Key) (ns : string) (keys : list Key)
    : result bool :=
  match keys with
  | [] => Ok false
  | registeredKey :: keys' =>
      match json_Marshal_Key L registeredKey with
      | Err err =>
          Err (errors_Wrapf err "failed to marshal a key registered to %s into JSON"
                 [ArgStr ns])
      | Ok registeredKeyBuf =>
          match json_Marshal_Key L incomingKey with
          | Err err => Err (errors_Wrap err "failed to marshal the incoming key into JSON")
          | Ok incomingKeyBuf =>
              if String.eqb registeredKeyBuf incomingKeyBuf then Ok true
              else matchKeyset incomingKey ns keys'
          end
      end
  end.

(** The outer loop, [foundMatch] carried along: a match does not end it,
    the remaining namespaces are still looked up. *)
Fixpoint matchKeysLoop (incomingKey : Key) (registeredNamespaces : list string)
    (foundMatch : bool) (d : DB) : result bool :=
  match registeredNamespaces with
  | [] => Ok foundMatch
  | ns :: rest =>
      match getNamespaceJwksByPrefix E ns d with
      | Err err =>
          Err (errors_Wrapf err "Cannot get keyset for %s from the database" [ArgStr ns])
      | Ok (keyset, _) =>
          match matchKeyset incomingKey ns keyset with
          | Err err => Err err
          | Ok found =>
              matchKeysLoop incomingKey rest (if found then true else foundMatch) d
          end
      end
  end.

Definition matchKeys (incomingKey : Key) (registeredNamespaces : list string) (d : DB)
    : result bool :=
  matchKeysLoop incomingKey registeredNamespaces false d.

(** [keyset.LookupKeyID]: the first key with that key id. *)
Definition LookupKeyID (keyset : Jwks) (kid : string) : option Key :=
  List.find (fun k => String.eqb (jwk_KeyID L k) kid) keyset.

(** [checkNamespaceExistsHandler]: every path writes one answer and
    returns; the database is only read. *)
Definition checkNamespaceExistsHandler (bound : result checkNamespaceExistsReq) (d : DB)
    : Z * ExistsBody :=
  match bound with
  | Err _ => (400, ExistsError "Failed to parse request body")
  | Ok req =>
      if String.eqb (cer_Prefix req) "" then (400, ExistsError "prefix is required")
      else if String.eqb (cer_PubKey req) "" then (400, ExistsError "pubkey is required")
      else
        match jwk_ParseString L (cer_PubKey req) with
        | Err _ =>
            (400, ExistsError ("pubkey is not a valid JWK string: " +:+ cer_PubKey req))
        | Ok jwksReq =>
            if negb (length jwksReq =? 1)%nat then
              (400, ExistsError ("pubkey is a jwks with multiple or zero key: " +:+
                                 cer_PubKey req))
            else
              match jwksReq with
              | [] =>
                  (400, ExistsError ("the first key from the pubkey does not exist: " +:+
                                     cer_PubKey req))
              | jwkReq :: _ =>
                  match namespaceExistsByPrefix E (cer_Prefix req) d with
                  | Err _ => (500, ExistsError "Failed to check if the namespace exists")
                  | Ok false =>
                      (200, ExistsRes false false "Prefix was not found in database")
                  | Ok true =>
                      match getNamespaceJwksByPrefix E (cer_Prefix req) d with
                      | Err err => (500, ExistsErrorOf err)
                      | Ok (jwksDb, _) =>
                          match LookupKeyID jwksDb (jwk_KeyID L jwkReq) with
                          | None =>
                              (200, ExistsRes true false
                                      "Given JWK is not present in the JWKS from database")
                          | Some registryKey =>
                              if jwk_Equal L registryKey jwkReq
                              then (200, ExistsRes true true "")
                              else (200, ExistsRes true false
                                           "Given JWK does not equal to the JWK from database")
                          end
                      end
                  end
              end
        end
  end.

End Keys.

(** Stand-ins: a key is its own JSON and its own key id. *)
Definition plain_keys : JwkLib :=
  {| json_Marshal_Key := fun k => Ok k;
     jwk_ParseString := fun s => if String.eqb s "" then Err (errors_New "empty") else Ok [s];
     jwk_KeyID := fun k => k;
     jwk_Equal := String.eqb |}.

End RegistryKeys.

(* ===================================================================== *)
(** ** xrootd authorization files: the line scanner *)
(* ===================================================================== *)

Module Xrootd.
Import Go.

(** A [[]byte] that may be nil: [None] is the nil slice, [Some ""] an empty
    slice that is not nil. (bufio.Scanner tells the two apart.) *)
Definition bytes := option string.

Definition content (b : bytes) : string := default "" b.

(** [append(token, xs...)]: with nothing to add the slice comes back as it
    is, a nil slice stays nil. *)
Definition append_bytes (token : bytes) (xs : string) : bytes :=
  match xs with
  | EmptyString => token
  | _ => Some (content token +:+ xs)
  end.

Definition CR : ascii := ascii_of_nat 13.
Definition LF : ascii := ascii_of_nat 10.
Definition backslash : ascii := ascii_of_nat 92.

Fixpoint last_byte (s : string) : option ascii :=
  match s with
  | EmptyString => None
  | String c EmptyString => Some c
  | String _ rest => last_byte rest
  end.

(** [dropCR]: a trailing carriage return is cut off; the result of the cut
    is a slice of the argument and so not nil. *)
Definition dropCR (data : bytes) : bytes :=
  match data with
  | None => None
  | Some s =>
      match last_byte s with
      | Some c => if Ascii.eqb c CR
                  then Some (substring 0 (String.length s - 1) s)
                  else Some s
      | None => Some s
      end
  end.

(** [bytes.IndexAny(curData, "\\\n")]: where the first backslash or newline
    is, if there is one. *)
Fixpoint firstControl (curData : string) : option nat :=
  match curData with
  | EmptyString => None
  | String c rest =>
      if Ascii.eqb c backslash || Ascii.eqb c LF then Some 0%nat
      else option_map S (firstControl rest)
  end.

(** [unicode.IsSpace(rune(b))] for a byte [b]: the Latin-1 white space. *)
Definition IsSpace (c : ascii) : bool :=
  let v := nat_of_ascii c in
  ((9 <=? v) && (v <=? 13))%nat || (v =? 32)%nat || (v =? 133)%nat || (v =? 160)%nat.

(** The inner loop after a backslash at [idx - 1]: [rest] is [curData[idx:]].
    It ends at the end of the data, just behind the next newline, or with
    the offending byte. *)
Fixpoint skipContinuation (rest : string) (idx : nat) : nat + ascii :=
  match rest with
  | EmptyString => inl idx
  | String c rest' =>
      if Ascii.eqb c LF then inl (idx + 1)%nat
      else if IsSpace c then skipContinuation rest' (idx + 1)%nat
      else inr c
  end.

Definition drop_bytes (n : nat) (s : string) : string :=
  substring n (String.length s - n) s.

(** [string(b)] for a byte [b]: the UTF-8 encoding of the code point [b],
    one byte below 128 and two bytes from there on. *)
Definition string_of_byte (b : ascii) : string :=
  let v := nat_of_ascii b in
  if (v <? 128)%nat then String b EmptyString
  else String (ascii_of_nat (192 + v / 64))
         (String (ascii_of_nat (128 + v mod 64)) EmptyString).

Definition ScanResult : Type := nat * bytes * option error.

(** The outer loop of [ScanLinesWithCont], [fuel] bounding its rounds;
    [None] only when the fuel runs out. *)
Fixpoint scanLoop (fuel : nat) (atEOF : bool) (curData : string) (token : bytes)
    (advance : nat) : option ScanResult :=
  match fuel with
  | O => None
  | S fuel' =>
      match firstControl curData with
      | None =>
          if atEOF
          then Some ((advance + String.length curData)%nat,
                     append_bytes token curData, None)
          else Some (0%nat, None, None)
      | Some i =>
          if match String.get i curData with
             | Some c => Ascii.eqb c backslash
             | None => false
             end
          then
            let token := append_bytes token (substring 0 i curData) in
            match skipContinuation (drop_bytes (i + 1) curData) (i + 1) with
            | inr c =>
                Some (0%nat, None,
                      Some (errors_Errorf
                              "invalid character after line continuation: %s"
                              [ArgStr (string_of_byte c)]))
            | inl idx =>
                scanLoop fuel' atEOF (drop_bytes idx curData) token (advance + idx)%nat
            end
          else
            Some ((advance + i + 1)%nat,
                  dropCR (append_bytes token (substring 0 i curData)), None)
      end
  end.

(** [ScanLinesWithCont]. Every round of the loop but the last consumes at
    least one byte, so one round more than there are bytes is enough. *)
Definition ScanLinesWithCont (data : string) (atEOF : bool) : option ScanResult :=
  if atEOF && (String.length data =? 0)%nat then Some (0%nat, None, None)
  else scanLoop (S (String.length data)) atEOF data None 0.

(** No backslash and no newline in a string. *)
Fixpoint plain (s : string) : bool :=
  match s with
  | EmptyString => true
  | String c rest => negb (Ascii.eqb c backslash || Ascii.eqb c LF) && plain rest
  end.

(** Only white space other than the newline. *)
Fixpoint blanks (s : string) : bool :=
  match s with
  | EmptyString => true
  | String c rest => negb (Ascii.eqb c LF) && IsSpace c && blanks rest
  end.

End Xrootd.

(* ===================================================================== *)
(** ** config/config.go: server types and prefixes *)
(* ===================================================================== *)

Module ServerTypes.
Import Go Config.

(** [SetList]: every listed server is or-ed into the mask. *)
Definition SetList (sType : ServerType) (newServers : list ServerType) : ServerType :=
  fold_left (fun sType server => Z.lor sType server) newServers sType.

Definition Clear (sType : ServerType) : ServerType := 0.

Definition NewServerType : ServerType := 0.

Definition IsServerEnabled (testServer : ServerType) (st : State) : bool :=
  IsEnabled (enabledServers st) testServer.

(** The [String] method of a [ServerType]. *)
Definition ServerType_String (sType : ServerType) : string :=
  if sType =? CacheType then "Cache"
  else if sType =? OriginType then "Origin"
  else if sType =? DirectorType then "Director"
  else if sType =? RegistryType then "Registry"
  else "Unknown".

(** [sort.Strings]: ascending in the byte order of Go's string comparison
    (an insertion sort; equal strings cannot be told apart, so every
    sorting algorithm gives this list). *)
Fixpoint insert_sorted (s : string) (l : list string) : list string :=
  match l with
  | [] => [s]
  | x :: rest => if String.leb s x then s :: l else x :: insert_sorted s rest
  end.

Definition sort_Strings (l : list string) : list string :=
  fold_right insert_sorted [] l.

Definition underscore : ascii := ascii_of_nat 95.

(** [strings.Index(s, "_")] and the like: where the first byte [c] is. *)
Fixpoint IndexByte (c : ascii) (s : string) : option nat :=
  match s with
  | EmptyString => None
  | String x rest => if Ascii.eqb x c then Some 0%nat else option_map S (IndexByte c rest)
  end.

Section Names.
(** [strings.ToLower], [strings.ToUpper], [filepath.Base] and [os.Args[0]]. *)
Variable strings_ToLower : string -> string.
Variable strings_ToUpper : string -> string.
Variable filepath_Base : string -> string.
Variable os_Args0 : string.

Definition SetString (sType : ServerType) (name : string) : bool * ServerType :=
  let lowered := strings_ToLower name in
  if String.eqb lowered "cache" then (true, Z.lor sType CacheType)
  else if String.eqb lowered "origin" then (true, Z.lor sType OriginType)
  else if String.eqb lowered "director" then (true, Z.lor sType DirectorType)
  else if String.eqb lowered "registry" then (true, Z.lor sType RegistryType)
  else (false, sType).

Definition GetEnabledServerString (lowerCase : bool) (st : State) : list string :=
  let servers : list string := [] in
  let servers := if IsEnabled (enabledServers st) CacheType
                 then servers ++ [ServerType_String CacheType] else servers in
  let servers := if IsEnabled (enabledServers st) OriginType
                 then servers ++ [ServerType_String OriginType] else servers in
  let servers := if IsEnabled (enabledServers st) DirectorType
                 then servers ++ [ServerType_String DirectorType] else servers in
  let servers := if IsEnabled (enabledServers st) RegistryType
                 then servers ++ [ServerType_String RegistryType] else servers in
  let servers := sort_Strings servers in
  if lowerCase then map strings_ToLower servers else servers.

(** [testingPreferredPrefix] is the package variable the two functions
    below read and write. *)
Definition GetPreferredPrefix (testingPreferredPrefix : string) : string :=
  if negb (String.eqb testingPreferredPrefix "") then testingPreferredPrefix
  else
    let arg0 := strings_ToUpper (filepath_Base os_Args0) in
    match IndexByte underscore arg0 with
    | Some underscore_idx => substring 0 underscore_idx arg0
    | None =>
        if HasPrefix arg0 "STASH" then "STASH"
        else if HasPrefix arg0 "OSDF" then "OSDF"
        else "PELICAN"
    end.

(** Returns the old prefix and the new value of the variable. *)
Definition SetPreferredPrefix (newPref : string) (testingPreferredPrefix : string)
    : string * string :=
  (testingPreferredPrefix, newPref).

Definition GetAllPrefixes (testingPreferredPrefix : string) : list string :=
  let prefixes := [GetPreferredPrefix testingPreferredPrefix] in
  match prefixes with
  | p0 :: _ =>
      if String.eqb p0 "OSDF" then prefixes ++ ["STASH"; "PELICAN"]
      else if String.eqb p0 "STASH" then prefixes ++ ["OSDF"; "PELICAN"]
      else prefixes
  | [] => prefixes
  end.

End Names.

(** The four server types, in alphabetical order of their names. *)
Definition server_types : list ServerType :=
  [CacheType; DirectorType; OriginType; RegistryType].

End ServerTypes.

(* ===================================================================== *)
(** ** utils/test_file_transfers_utils.go: the requests of a run *)
(* ===================================================================== *)

Module UtilsRequests.
Import Go Utils.

(** What a request of the runner looks like to the server: method, URL and
    body. *)
Definition shape (q : Request) : string * string * option string :=
  (Method q, ReqURL q, Body q).

(** The requests of a run, in the order they were sent. *)
Definition requests (tr : list Event) : list Request := map fst (exchanges tr).

(** The one header of the request is a bearer token. *)
Definition bearer (q : Request) : Prop :=
  exists tkn, Header q = [("Authorization", "Bearer " +:+ tkn)].

(** A server without an external web URL and without a network. *)
Definition offline : Env unit :=
  {| Server_ExternalWebUrl := "";
     CreateToken := fun cfg w => (Ok "token", w);
     time_Now_RFC3339 := fun _ => "2023-12-01T10:00:00Z";
     url_Parse := fun s => Ok {| Authority := s; Path := "" |};
     url_String := fun u => Authority u +:+ Path u;
     client_Do := fun _ w => (Err (errors_New "no network"), w) |}.

End UtilsRequests.

(* ===================================================================== *)
(** ** More sample registries and requests *)
(* ===================================================================== *)

Module RegistrySamples.
Import Go Registry.

(** [toy] with another key-chaining check and another reading of raw keys. *)
Definition toy_with
    (chain : string -> Key -> Table -> option error * option error)
    (raw : Key -> result RawKey) : Env Table nat :=
  let E := toy true true in
  {| namespaceExists := namespaceExists E;
     namespaceExistsByPrefix := namespaceExistsByPrefix E;
     getNamespaceJwksByPrefix := getNamespaceJwksByPrefix E;
     getNamespaceByPrefix := getNamespaceByPrefix E;
     addNamespace := addNamespace E;
     deleteNamespace := deleteNamespace E;
     validateJwks := validateJwks E;
     validatePrefix := validatePrefix E;
     validateKeyChaining := chain;
     key_Raw := raw;
     sha256_Sum256 := sha256_Sum256 E;
     ecdsa_VerifyASN1 := ecdsa_VerifyASN1 E;
     ecdsa_Sign := ecdsa_Sign E;
     PublicKey_of := PublicKey_of E;
     rand_Read := rand_Read E;
     config_LoadPrivateKey := config_LoadPrivateKey E;
     json_Marshal_RawMessage := json_Marshal_RawMessage E;
     jwt_Parse := jwt_Parse E;
     jwt_Validate_claims := jwt_Validate_claims E;
     IssuerKey := IssuerKey E;
     Registry_RequireCacheApproval := Registry_RequireCacheApproval E;
     Registry_RequireOriginApproval := Registry_RequireOriginApproval E;
     Server_ExternalWebUrl := Server_ExternalWebUrl E;
     ServerOIDCClient := ServerOIDCClient E;
     client_PostForm := client_PostForm E;
     json_Unmarshal_Response := json_Unmarshal_Response E;
     json_Unmarshal_TokenResponse := json_Unmarshal_TokenResponse E;
     url_Parse := url_Parse E;
     url_JoinPath := url_JoinPath E;
     url_String := url_String E |}.

(** A registry whose key-chaining check refuses every key. *)
Definition toy_unchained : Env Table nat :=
  toy_with (fun _ _ _ => (Some (errors_New "key does not chain to a superspace"), None))
           (fun k => Ok (ECDSAPublicKey k)).

(** A registry whose key sets hold keys that are not ECDSA keys. *)
Definition toy_rsa : Env Table nat :=
  toy_with (fun _ _ _ => (None, None)) (fun _ => Ok OtherKey).

(** A commit for [prefix] whose client signature was made with another
    key than the one it submits. *)
Definition forgedAB (key prefix : string) : registrationData :=
  {| ClientNonce := "A"; ClientPayload := "AB";
     ClientSignature := EncodeToString "intruder:AB";
     ServerNonce := "B"; ServerPayload := EncodeToString "AB";
     ServerSignature := EncodeToString "registry-key:AB";
     rd_Pubkey := key; AccessToken := ""; rd_Identity := "";
     IdentityRequired := ""; DeviceCode := ""; rd_Prefix := prefix |}.

(** A request that asks for an identity and brings no access token. *)
Definition identityWanted : registrationData :=
  {| ClientNonce := ""; ClientPayload := ""; ClientSignature := "";
     ServerNonce := ""; ServerPayload := ""; ServerSignature := "";
     rd_Pubkey := ""; AccessToken := ""; rd_Identity := "";
     IdentityRequired := "true"; DeviceCode := ""; rd_Prefix := "" |}.

(** The row a registration of [prefix] with key set [key] adds. *)
Definition pendingRow (prefix key : string) : Namespace :=
  {| ID := 0; Prefix := prefix; Pubkey := key; Identity := "";
     Admin_Metadata := {| UserID := ""; Description := ""; SiteName := "";
                          Institution := ""; Status := Pending |} |}.

End RegistrySamples.

(* ===================================================================== *)
(** * Properties *)
(* ===================================================================== *)

(** ** The test runner *)

Module UtilsSpec.
Import Go Utils.

Section Facts.
Context {World : Type} (E : Env World).

Lemma steps_app (a b : list Event) : steps (a ++ b) = steps a ++ steps b.
Proof. unfold steps. now rewrite !flat_map_concat_map, map_app, concat_app. Qed.

Lemma exchanges_app (a b : list Event) :
  exchanges (a ++ b) = exchanges a ++ exchanges b.
Proof. unfold exchanges. now rewrite !flat_map_concat_map, map_app, concat_app. Qed.

(** Minting a token neither enters a step nor talks HTTP. *)
Lemma generateFileTestScitoken_trace t w :
  trace (generateFileTestScitoken E t w) = [].
Proof.
  unfold generateFileTestScitoken, bind, liftW, ret, trace.
  destruct (String.eqb _ ""); [reflexivity |].
  destruct (CreateToken E _ w) as [[tok | e] w1]; reflexivity.
Qed.

(** Case analysis on every branch of a step function; the token call is
    kept folded and only its (empty) trace is used. *)
Ltac token_call :=
  match goal with
  | H : context [generateFileTestScitoken E ?t ?w] |- _ =>
      let Ht := fresh "Htok" in
      pose proof (generateFileTestScitoken_trace t w) as Ht;
      destruct (generateFileTestScitoken E t w) as [[? ?] ?];
      unfold trace in Ht; simpl in Ht; subst
  end.

Ltac branches :=
  repeat match goal with
         | H : context [match ?x with _ => _ end] |- _ => destruct x eqn:?; simpl in *
         | H : context [if ?x then _ else _] |- _ => destruct x eqn:?; simpl in *
         end;
  repeat match goal with
         | H : (_, _) = (_, _) |- _ => inversion H; subst; clear H
         | H : Ok _ = Ok _ |- _ => inversion H; subst; clear H
         | H : Some _ = Some _ |- _ => inversion H; subst; clear H
         end;
  try discriminate.

Ltac run_step H :=
  unfold uploadTestfile, downloadTestfile, deleteTestfile, bind, mark, now, Do, ret,
    NewRequestWithContext in H;
  simpl in H; token_call; simpl in *; branches.

Lemma uploadTestfile_Ok t base w u w1 tr :
  uploadTestfile E t base w = (Ok u, w1, tr) ->
  exists parsed w0 hdr resp,
    url_Parse E base = Ok parsed /\
    u = url_String E {| Authority := Authority parsed;
                        Path := probe_path (testType t) (time_Now_RFC3339 E w0) |} /\
    tr = [EvStep StepUpload;
          EvHttp {| Method := "PUT"; ReqURL := u; Header := hdr;
                    Body := Some (testBody t) |} (Ok resp)] /\
    StatusCode resp <= 299.
Proof.
  intros H. run_step H.
  eexists _, _, _, _; repeat split; try eassumption; try reflexivity.
  apply Z.ltb_ge in Heqb. lia.
Qed.

Ltac bad_one :=
  split; [reflexivity |];
  first [ left; reflexivity
        | right; eexists; split; [reflexivity |]; unfold bad_exchange; simpl;
          first [ exact I
                | left; match goal with
                        | H : (299 <? _) = true |- _ => apply Z.ltb_lt in H; lia
                        end
                | right; split; [reflexivity |]; congruence ] ].

Lemma uploadTestfile_Err body t base w e w1 tr :
  uploadTestfile E t base w = (Err e, w1, tr) ->
  steps tr = [StepUpload] /\
  (exchanges tr = [] \/ exists x, exchanges tr = [x] /\ bad_exchange body x).
Proof. intros H. run_step H; bad_one. Qed.

Lemma downloadTestfile_None t u w w1 tr :
  downloadTestfile E t u w = (None, w1, tr) ->
  exists hdr resp,
    tr = [EvStep StepDownload;
          EvHttp {| Method := "GET"; ReqURL := u; Header := hdr; Body := None |}
                 (Ok resp)] /\
    RespBody resp = Ok (testBody t) /\
    StatusCode resp <= 299.
Proof.
  intros H. run_step H.
  eexists _, _; repeat split; try reflexivity.
  - apply negb_false_iff, String.eqb_eq in Heqb. congruence.
  - apply Z.ltb_ge in Heqb0. lia.
Qed.

Lemma downloadTestfile_Some t u w e w1 tr :
  downloadTestfile E t u w = (Some e, w1, tr) ->
  steps tr = [StepDownload] /\
  (exchanges tr = [] \/ exists x, exchanges tr = [x] /\ bad_exchange (testBody t) x).
Proof.
  intros H. run_step H; try bad_one.
  split; [reflexivity |]. right. eexists; split; [reflexivity |].
  unfold bad_exchange; simpl. right. split; [reflexivity |].
  apply negb_true_iff, String.eqb_neq in Heqb. congruence.
Qed.

Lemma deleteTestfile_None t u w w1 tr :
  deleteTestfile E t u w = (None, w1, tr) ->
  exists hdr resp,
    tr = [EvStep StepDelete;
          EvHttp {| Method := "DELETE"; ReqURL := u; Header := hdr; Body := None |}
                 (Ok resp)] /\
    StatusCode resp <= 299.
Proof.
  intros H. run_step H.
  eexists _, _; repeat split; try reflexivity.
  apply Z.ltb_ge in Heqb. lia.
Qed.

Lemma deleteTestfile_Some body t u w e w1 tr :
  deleteTestfile E t u w = (Some e, w1, tr) ->
  steps tr = [StepDelete] /\
  (exchanges tr = [] \/ exists x, exchanges tr = [x] /\ bad_exchange body x).
Proof. intros H. run_step H; bad_one. Qed.

Lemma configure_testBody t base iss tt t' :
  configure t base iss tt = Some t' ->
  testType t' = tt /\
  (tt = OriginSelfFileTest /\ testBody t' = selfTestBody \/
   tt = DirectorFileTest /\ testBody t' = directorTestBody).
Proof.
  unfold configure. intros H.
  destruct (String.eqb tt OriginSelfFileTest) eqn:H1.
  - apply String.eqb_eq in H1. inversion H; subst; simpl. auto.
  - destruct (String.eqb tt DirectorFileTest) eqn:H2; [| discriminate].
    apply String.eqb_eq in H2. inversion H; subst; simpl. auto.
Qed.

(** The four ways a supported run can go, each with its result and trace. *)
Lemma RunTests_cases t base iss tt w :
  (configure t base iss tt = None /\
   RunTests E t base iss tt w =
     ((false, Some (errors_New ("Unsupported testType: " +:+ tt))), w, []))
  \/
  exists t', configure t base iss tt = Some t' /\
    ((exists e w1 tr1,
        uploadTestfile E t' base w = (Err e, w1, tr1) /\
        RunTests E t base iss tt w =
          ((false, Some (errors_Wrap e "Test file transfer failed during upload")),
           w1, tr1 ++ []))
     \/
     (exists u w1 tr1 e w2 tr2,
        uploadTestfile E t' base w = (Ok u, w1, tr1) /\
        downloadTestfile E t' u w1 = (Some e, w2, tr2) /\
        RunTests E t base iss tt w =
          ((false, Some (errors_Wrap e "Test file transfer failed during download")),
           w2, tr1 ++ tr2 ++ []))
     \/
     (exists u w1 tr1 w2 tr2 e w3 tr3,
        uploadTestfile E t' base w = (Ok u, w1, tr1) /\
        downloadTestfile E t' u w1 = (None, w2, tr2) /\
        deleteTestfile E t' u w2 = (Some e, w3, tr3) /\
        RunTests E t base iss tt w =
          ((false, Some (errors_Wrap e "Test file transfer failed during delete")),
           w3, tr1 ++ tr2 ++ tr3 ++ []))
     \/
     (exists u w1 tr1 w2 tr2 w3 tr3,
        uploadTestfile E t' base w = (Ok u, w1, tr1) /\
        downloadTestfile E t' u w1 = (None, w2, tr2) /\
        deleteTestfile E t' u w2 = (None, w3, tr3) /\
        RunTests E t base iss tt w = ((true, None), w3, tr1 ++ tr2 ++ tr3 ++ []))).
Proof.
  unfold RunTests.
  destruct (configure t base iss tt) as [t' |]; [right; exists t'; split; [reflexivity |] | left; auto].
  unfold bind.
  destruct (uploadTestfile E t' base w) as [[[u | e] w1] tr1].
  2: { left. eexists _, _, _. split; reflexivity. }
  right.
  destruct (downloadTestfile E t' u w1) as [[[e |] w2] tr2] eqn:Hd.
  { left. eexists _, _, _, _, _, _. repeat split; try eassumption. }
  right.
  destruct (deleteTestfile E t' u w2) as [[[e |] w3] tr3] eqn:Hx.
  { left. eexists _, _, _, _, _, _, _, _. repeat split; try eassumption. }
  right. eexists _, _, _, _, _, _, _. repeat split; try eassumption.
Qed.

Lemma steps_upload_Ok t base w u w1 tr :
  uploadTestfile E t base w = (Ok u, w1, tr) -> steps tr = [StepUpload].
Proof.
  intros H. apply uploadTestfile_Ok in H as (? & ? & ? & ? & _ & _ & -> & _). reflexivity.
Qed.

Lemma steps_download_None t u w w1 tr :
  downloadTestfile E t u w = (None, w1, tr) -> steps tr = [StepDownload].
Proof.
  intros H. apply downloadTestfile_None in H as (? & ? & -> & _). reflexivity.
Qed.

Lemma steps_delete t u w r w1 tr :
  deleteTestfile E t u w = (r, w1, tr) -> steps tr = [StepDelete].
Proof.
  intros H. destruct r.
  - apply (deleteTestfile_Some "") in H as [H _]. exact H.
  - apply deleteTestfile_None in H as (? & ? & -> & _). reflexivity.
Qed.

(** C1, as the code has it: the delete step of a run is attempted if and
    only if both the upload step and the download step succeeded. A failed
    download ends the run before [deleteTestfile] is entered. *)
Theorem RunTests_delete_attempted_iff t base iss tt w :
  attempted StepDelete (trace (RunTests E t base iss tt w)) <->
  upload_download_succeeded E t base iss tt w.
Proof.
  unfold attempted, upload_download_succeeded, trace.
  destruct (RunTests_cases t base iss tt w)
    as [[Hc ->] | (t' & Hc & [(e & w1 & tr1 & Hu & ->)
                  | [(u & w1 & tr1 & e & w2 & tr2 & Hu & Hd & ->)
                  | [(u & w1 & tr1 & w2 & tr2 & e & w3 & tr3 & Hu & Hd & Hx & ->)
                  | (u & w1 & tr1 & w2 & tr2 & w3 & tr3 & Hu & Hd & Hx & ->)]]])];
    simpl.
  - split; [tauto |]. intros (? & ? & ? & ? & ? & ? & H & _). congruence.
  - rewrite steps_app. destruct (uploadTestfile_Err "" _ _ _ _ _ _ Hu) as [-> _]. simpl.
    split; [intuition discriminate |].
    intros (? & ? & ? & ? & ? & ? & H & H' & _). congruence.
  - rewrite !steps_app. rewrite (steps_upload_Ok _ _ _ _ _ _ Hu).
    destruct (downloadTestfile_Some _ _ _ _ _ _ Hd) as [-> _]. simpl.
    split; [intuition discriminate |].
    intros (? & ? & ? & ? & ? & ? & H & H' & H''). congruence.
  - rewrite !steps_app. rewrite (steps_delete _ _ _ _ _ _ Hx). split.
    + intros _. eexists _, _, _, _, _, _. eauto.
    + intros _. rewrite (steps_upload_Ok _ _ _ _ _ _ Hu), (steps_download_None _ _ _ _ _ Hd).
      simpl. auto.
  - rewrite !steps_app. rewrite (steps_delete _ _ _ _ _ _ Hx). split.
    + intros _. eexists _, _, _, _, _, _. eauto.
    + intros _. rewrite (steps_upload_Ok _ _ _ _ _ _ Hu), (steps_download_None _ _ _ _ _ Hd).
      simpl. auto.
Qed.

Lemma exchanges_upload_Ok t base w u w1 tr :
  uploadTestfile E t base w = (Ok u, w1, tr) ->
  exists parsed w0 hdr resp,
    url_Parse E base = Ok parsed /\
    u = url_String E {| Authority := Authority parsed;
                        Path := probe_path (testType t) (time_Now_RFC3339 E w0) |} /\
    exchanges tr = [({| Method := "PUT"; ReqURL := u; Header := hdr;
                        Body := Some (testBody t) |}, Ok resp)] /\
    StatusCode resp <= 299.
Proof.
  intros H. apply uploadTestfile_Ok in H as (p & ts & h & r & Hp & Hu & -> & Hs).
  exists p, ts, h, r. auto.
Qed.

Lemma exchanges_download_None t u w w1 tr :
  downloadTestfile E t u w = (None, w1, tr) ->
  exists hdr resp,
    exchanges tr = [({| Method := "GET"; ReqURL := u; Header := hdr; Body := None |},
                     Ok resp)] /\
    RespBody resp = Ok (testBody t) /\ StatusCode resp <= 299.
Proof.
  intros H. apply downloadTestfile_None in H as (h & r & -> & Hb & Hs).
  exists h, r. auto.
Qed.

Lemma exchanges_delete_None t u w w1 tr :
  deleteTestfile E t u w = (None, w1, tr) ->
  exists hdr resp,
    exchanges tr = [({| Method := "DELETE"; ReqURL := u; Header := hdr; Body := None |},
                     Ok resp)] /\
    StatusCode resp <= 299.
Proof.
  intros H. apply deleteTestfile_None in H as (h & r & -> & Hs).
  exists h, r. auto.
Qed.

Lemma clean_run_no_bad t' base tt xs x :
  clean_run E t' base tt xs -> In x xs -> ~ bad_exchange (testBody t') x.
Proof.
  intros (p & ts & h1 & h2 & h3 & r1 & r2 & r3 & _ & -> & H1 & H2 & Hb & H3) Hin Hbad.
  simpl in Hin. destruct Hin as [<- | [<- | [<- | []]]]; unfold bad_exchange in Hbad;
    simpl in Hbad; destruct Hbad as [? | [? ?]]; try lia; try discriminate; contradiction.
Qed.

(** The same seen from the trace: a run answers [(true, nil)] exactly when
    the exchanges it made are the three of a clean run. *)
Lemma RunTests_true_trace t base iss tt w :
  let run := RunTests E t base iss tt w in
  (value run = (true, None) <->
   exists t', configure t base iss tt = Some t' /\
              clean_run E t' base tt (exchanges (trace run))) /\
  (value run = (true, None) \/ exists e, value run = (false, Some e)) /\
  (forall t' x, configure t base iss tt = Some t' ->
                In x (exchanges (trace run)) -> bad_exchange (testBody t') x ->
                exists e, value run = (false, Some e)) /\
  (forall t', configure t base iss OriginSelfFileTest = Some t' ->
              testBody t' =
              "This object was created by the Pelican self-test functionality").
Proof.
  assert (Hclean : forall t', configure t base iss tt = Some t' ->
            value (RunTests E t base iss tt w) = (true, None) <->
            clean_run E t' base tt (exchanges (trace (RunTests E t base iss tt w)))).
  { intros t0 Hc0. unfold value, trace.
    destruct (RunTests_cases t base iss tt w)
      as [[Hc ->] | (t' & Hc & [(e & w1 & tr1 & Hu & ->)
                    | [(u & w1 & tr1 & e & w2 & tr2 & Hu & Hd & ->)
                    | [(u & w1 & tr1 & w2 & tr2 & e & w3 & tr3 & Hu & Hd & Hx & ->)
                    | (u & w1 & tr1 & w2 & tr2 & w3 & tr3 & Hu & Hd & Hx & ->)]]])];
      simpl; try congruence.
    all: assert (t0 = t') by congruence; subst t0.
    all: destruct (configure_testBody _ _ _ _ _ Hc) as [Htt _].
    - split; [discriminate |].
      intros (p & ts & h1 & h2 & h3 & r1 & r2 & r3 & _ & Hx & _). exfalso.
      rewrite exchanges_app in Hx. simpl in Hx. rewrite app_nil_r in Hx.
      destruct (uploadTestfile_Err "" _ _ _ _ _ _ Hu) as [_ [H | (bx & H & _)]];
        rewrite H in Hx; discriminate.
    - split; [discriminate |].
      intros (p & ts & h1 & h2 & h3 & r1 & r2 & r3 & _ & Hx & _). exfalso.
      rewrite !exchanges_app in Hx. simpl in Hx. rewrite app_nil_r in Hx.
      destruct (exchanges_upload_Ok _ _ _ _ _ _ Hu) as (? & ? & ? & ? & _ & _ & H1 & _).
      rewrite H1 in Hx.
      destruct (downloadTestfile_Some _ _ _ _ _ _ Hd) as [_ [H | (bx & H & _)]];
        rewrite H in Hx; discriminate.
    - split; [discriminate |].
      intros (p & ts & h1 & h2 & h3 & r1 & r2 & r3 & _ & Hxs & _ & _ & _ & Hr3). exfalso.
      rewrite !exchanges_app in Hxs. simpl in Hxs. rewrite app_nil_r in Hxs.
      destruct (exchanges_upload_Ok _ _ _ _ _ _ Hu) as (? & ? & ? & ? & _ & _ & H1 & _).
      destruct (exchanges_download_None _ _ _ _ _ Hd) as (? & ? & H2 & _).
      rewrite H1, H2 in Hxs.
      destruct (deleteTestfile_Some "" _ _ _ _ _ _ Hx) as [_ [H | (bx & H & Hbad)]];
        rewrite H in Hxs; [discriminate |].
      simpl in Hxs. inversion Hxs; subst. unfold bad_exchange in Hbad; simpl in Hbad.
      destruct Hbad as [? | [? _]]; [lia | discriminate].
    - split; [intros _ | reflexivity].
      rewrite !exchanges_app. simpl. rewrite app_nil_r.
      destruct (exchanges_upload_Ok _ _ _ _ _ _ Hu) as (p & ts & h1 & r1 & Hp & Hu' & Hx1 & Hs1).
      destruct (exchanges_download_None _ _ _ _ _ Hd) as (h2 & r2 & Hx2 & Hb2 & Hs2).
      destruct (exchanges_delete_None _ _ _ _ _ Hx) as (h3 & r3 & Hx3 & Hs3).
      rewrite Hx1, Hx2, Hx3. rewrite Htt in Hu'. subst u.
      exists p, ts, h1, h2, h3, r1, r2, r3. simpl. repeat split; auto; lia. }
  assert (Hdich : value (RunTests E t base iss tt w) = (true, None) \/
                  exists e, value (RunTests E t base iss tt w) = (false, Some e)).
  { unfold value.
    destruct (RunTests_cases t base iss tt w)
      as [[Hc ->] | (t' & Hc & [(e & w1 & tr1 & Hu & ->)
                    | [(u & w1 & tr1 & e & w2 & tr2 & Hu & Hd & ->)
                    | [(u & w1 & tr1 & w2 & tr2 & e & w3 & tr3 & Hu & Hd & Hx & ->)
                    | (u & w1 & tr1 & w2 & tr2 & w3 & tr3 & Hu & Hd & Hx & ->)]]])];
      simpl; eauto. }
  cbv zeta. repeat split.
  - intros H. destruct (configure t base iss tt) as [t' |] eqn:Hc.
    + exists t'. split; [reflexivity |]. now apply Hclean.
    + exfalso. destruct (RunTests_cases t base iss tt w) as [[_ Hr] | (? & ? & _)];
        [| congruence]. rewrite Hr in H. discriminate.
  - intros (t' & Hc & H). now apply (Hclean t').
  - exact Hdich.
  - intros t' x Hc Hin Hbad. destruct Hdich as [Ht | He]; [| exact He]. exfalso.
    apply (Hclean t' Hc) in Ht. exact (clean_run_no_bad _ _ _ _ _ Ht Hin Hbad).
  - intros t' Hc. apply configure_testBody in Hc as [_ [[_ H] | [H _]]];
      [exact H | discriminate].
Qed.

(** A token is minted exactly when an issuer is known and [CreateToken]
    succeeds for the run's token configuration. *)
Lemma generateFileTestScitoken_Ok t w tkn w1 tr :
  generateFileTestScitoken E t w = (Ok tkn, w1, tr) <->
  Issuer (run_token_config E (audienceUrl t) (issuerUrl t)) <> "" /\
  CreateToken E (run_token_config E (audienceUrl t) (issuerUrl t)) w = (Ok tkn, w1) /\
  tr = [].
Proof.
  unfold generateFileTestScitoken, run_token_config, bind, liftW, ret. simpl.
  destruct (String.eqb (issuerUrl t) "") eqn:Hi; simpl.
  - destruct (String.eqb (Server_ExternalWebUrl E) "") eqn:Hs.
    + apply String.eqb_eq in Hs. split; [discriminate | intros [H _]; contradiction].
    + apply String.eqb_neq in Hs.
      destruct (CreateToken E _ w) as [[tok | e] w'].
      * split; [intros H; inversion H; subst; auto |].
        intros (_ & H & ->). inversion H; subst. reflexivity.
      * split; [discriminate | intros (_ & H & _); discriminate].
  - rewrite Hi. apply String.eqb_neq in Hi.
    destruct (CreateToken E _ w) as [[tok | e] w'].
    + split; [intros H; inversion H; subst; auto |].
      intros (_ & H & ->). inversion H; subst. reflexivity.
    + split; [discriminate | intros (_ & H & _); discriminate].
Qed.


Lemma Header_Set_bearer (method url tkn : string) (body : option string) :
  Header_Set {| Method := method; ReqURL := url; Header := []; Body := body |}
    "Authorization" ("Bearer " +:+ tkn) = bearer_request method url tkn body.
Proof. reflexivity. Qed.

Ltac open_step :=
  unfold uploadTestfile, downloadTestfile, deleteTestfile, bind, mark, now, Do, ret,
    NewRequestWithContext; simpl.

Lemma status_ok (r : Response) : (299 <? StatusCode r) = false <-> StatusCode r < 300.
Proof. rewrite Z.ltb_ge. lia. Qed.

Lemma uploadTestfile_Ok_iff t base w u w2 tr :
  uploadTestfile E t base w = (Ok u, w2, tr) <->
  exists parsed parsedU tkn w1 r1,
    Issuer (run_token_config E (audienceUrl t) (issuerUrl t)) <> "" /\
    CreateToken E (run_token_config E (audienceUrl t) (issuerUrl t)) w = (Ok tkn, w1) /\
    url_Parse E base = Ok parsed /\
    u = url_String E {| Authority := Authority parsed;
                        Path := "/pelican/monitoring/" +:+ testType t +:+ "-" +:+
                                time_Now_RFC3339 E w1 +:+ ".txt" |} /\
    url_Parse E u = Ok parsedU /\
    client_Do E (bearer_request "PUT" u tkn (Some (testBody t))) w1 = (Ok r1, w2) /\
    StatusCode r1 < 300 /\
    tr = [EvStep StepUpload; EvHttp (bearer_request "PUT" u tkn (Some (testBody t))) (Ok r1)].
Proof.
  split.
  - open_step.
    destruct (generateFileTestScitoken E t w) as [[[tkn | e] w1] tr0] eqn:Hg;
      [| discriminate].
    apply generateFileTestScitoken_Ok in Hg as (Hi & Hc & ->).
    destruct (url_Parse E base) as [parsed | e] eqn:Hp; [| discriminate]. simpl.
    destruct (url_Parse E (url_String E _)) as [parsedU | e] eqn:HpU; [| discriminate].
    simpl. rewrite Header_Set_bearer.
    destruct (client_Do E _ w1) as [[r1 | e] w2'] eqn:Hd; [| discriminate]. simpl.
    destruct (299 <? StatusCode r1) eqn:Hs; [discriminate |].
    intros H; inversion H; subst. apply status_ok in Hs.
    exists parsed, parsedU, tkn, w1, r1. repeat split; auto.
  - intros (parsed & parsedU & tkn & w1 & r1 & Hi & Hc & Hp & -> & HpU & Hd & Hs & ->).
    assert (Hg : generateFileTestScitoken E t w = (Ok tkn, w1, []))
      by (apply generateFileTestScitoken_Ok; auto).
    apply status_ok in Hs.
    open_step. rewrite Hg, Hp. simpl. rewrite HpU. simpl. rewrite Header_Set_bearer, Hd. simpl.
    rewrite Hs. reflexivity.
Qed.

Lemma downloadTestfile_None_iff t u w w2 tr :
  downloadTestfile E t u w = (None, w2, tr) <->
  exists parsedU tkn w1 r2,
    Issuer (run_token_config E (audienceUrl t) (issuerUrl t)) <> "" /\
    CreateToken E (run_token_config E (audienceUrl t) (issuerUrl t)) w = (Ok tkn, w1) /\
    url_Parse E u = Ok parsedU /\
    client_Do E (bearer_request "GET" u tkn None) w1 = (Ok r2, w2) /\
    RespBody r2 = Ok (testBody t) /\
    StatusCode r2 < 300 /\
    tr = [EvStep StepDownload; EvHttp (bearer_request "GET" u tkn None) (Ok r2)].
Proof.
  split.
  - open_step.
    destruct (generateFileTestScitoken E t w) as [[[tkn | e] w1] tr0] eqn:Hg;
      [| discriminate].
    apply generateFileTestScitoken_Ok in Hg as (Hi & Hc & ->).
    destruct (url_Parse E u) as [parsedU | e] eqn:HpU; [| discriminate]. simpl. rewrite Header_Set_bearer.
    destruct (client_Do E _ w1) as [[r2 | e] w2'] eqn:Hd; [| discriminate]. simpl.
    destruct (RespBody r2) as [body | e] eqn:Hb; [| discriminate].
    destruct (String.eqb body (testBody t)) eqn:Hbody; [| discriminate]. simpl.
    destruct (299 <? StatusCode r2) eqn:Hs; [discriminate |].
    intros H; inversion H; subst. apply status_ok in Hs. apply String.eqb_eq in Hbody.
    subst body. exists parsedU, tkn, w1, r2. repeat split; auto.
  - intros (parsedU & tkn & w1 & r2 & Hi & Hc & HpU & Hd & Hb & Hs & ->).
    assert (Hg : generateFileTestScitoken E t w = (Ok tkn, w1, []))
      by (apply generateFileTestScitoken_Ok; auto).
    apply status_ok in Hs.
    open_step. rewrite Hg. simpl. rewrite HpU. simpl. rewrite Header_Set_bearer, Hd. simpl.
    rewrite Hb, String.eqb_refl. simpl. rewrite Hs. reflexivity.
Qed.

Lemma deleteTestfile_None_iff t u w w2 tr :
  deleteTestfile E t u w = (None, w2, tr) <->
  exists parsedU tkn w1 r3,
    Issuer (run_token_config E (audienceUrl t) (issuerUrl t)) <> "" /\
    CreateToken E (run_token_config E (audienceUrl t) (issuerUrl t)) w = (Ok tkn, w1) /\
    url_Parse E u = Ok parsedU /\
    client_Do E (bearer_request "DELETE" u tkn None) w1 = (Ok r3, w2) /\
    StatusCode r3 < 300 /\
    tr = [EvStep StepDelete; EvHttp (bearer_request "DELETE" u tkn None) (Ok r3)].
Proof.
  split.
  - open_step.
    destruct (generateFileTestScitoken E t w) as [[[tkn | e] w1] tr0] eqn:Hg;
      [| discriminate].
    apply generateFileTestScitoken_Ok in Hg as (Hi & Hc & ->).
    destruct (url_Parse E u) as [parsedU | e] eqn:HpU; [| discriminate]. simpl. rewrite Header_Set_bearer.
    destruct (client_Do E _ w1) as [[r3 | e] w2'] eqn:Hd; [| discriminate]. simpl.
    destruct (299 <? StatusCode r3) eqn:Hs; [discriminate |].
    intros H; inversion H; subst. apply status_ok in Hs.
    exists parsedU, tkn, w1, r3. repeat split; auto.
  - intros (parsedU & tkn & w1 & r3 & Hi & Hc & HpU & Hd & Hs & ->).
    assert (Hg : generateFileTestScitoken E t w = (Ok tkn, w1, []))
      by (apply generateFileTestScitoken_Ok; auto).
    apply status_ok in Hs.
    open_step. rewrite Hg. simpl. rewrite HpU. simpl. rewrite Header_Set_bearer, Hd. simpl.
    rewrite Hs. reflexivity.
Qed.

(** The receiver [RunTests] sets up for a supported test type. *)
Lemma configure_supported t base iss tt body :
  supported tt body ->
  configure t base iss tt =
    Some {| audienceUrl := base; issuerUrl := iss; testType := tt; testBody := body |}.
Proof. intros [[-> ->] | [-> ->]]; reflexivity. Qed.

Lemma configure_Some t base iss tt t' :
  configure t base iss tt = Some t' ->
  supported tt (testBody t') /\
  t' = {| audienceUrl := base; issuerUrl := iss; testType := tt; testBody := testBody t' |}.
Proof.
  unfold configure, supported.
  destruct (String.eqb tt OriginSelfFileTest) eqn:H1.
  - apply String.eqb_eq in H1. intros H; inversion H; subst. simpl. split; [left |]; auto.
  - destruct (String.eqb tt DirectorFileTest) eqn:H2; [| discriminate].
    apply String.eqb_eq in H2. intros H; inversion H; subst. simpl. split; [right |]; auto.
Qed.

(** A run whose three steps the environment answers. *)
Lemma RunTests_succeeds t base iss tt w body wfin tr :
  supported tt body ->
  transfers_succeed E base iss tt body w wfin tr ->
  RunTests E t base iss tt w = ((true, None), wfin, tr).
Proof.
  intros Hsup (parsed & parsedU & tkn1 & w1 & r1 & w2 & tkn2 & w3 & r2 & w4 & tkn3 & w5 & r3 &
               Hi & Hc1 & Hp & HpU & Hd1 & Hs1 & Hc2 & Hd2 & Hb2 & Hs2 & Hc3 & Hd3 & Hs3 & ->).
  unfold RunTests. rewrite (configure_supported t base iss tt body Hsup).
  set (t' := {| audienceUrl := base; issuerUrl := iss; testType := tt; testBody := body |}).
  set (u := url_String E {| Authority := Authority parsed;
                            Path := "/pelican/monitoring/" +:+ tt +:+ "-" +:+
                                    time_Now_RFC3339 E w1 +:+ ".txt" |}) in *.
  assert (Hu : uploadTestfile E t' base w =
                 (Ok u, w2, [EvStep StepUpload;
                             EvHttp (bearer_request "PUT" u tkn1 (Some body)) (Ok r1)])).
  { apply uploadTestfile_Ok_iff. exists parsed, parsedU, tkn1, w1, r1.
    repeat split; auto. }
  assert (Hdl : downloadTestfile E t' u w2 =
                  (None, w4, [EvStep StepDownload;
                              EvHttp (bearer_request "GET" u tkn2 None) (Ok r2)])).
  { apply downloadTestfile_None_iff. exists parsedU, tkn2, w3, r2. repeat split; auto. }
  assert (Hx : deleteTestfile E t' u w4 =
                 (None, wfin, [EvStep StepDelete;
                               EvHttp (bearer_request "DELETE" u tkn3 None) (Ok r3)])).
  { apply deleteTestfile_None_iff. exists parsedU, tkn3, w5, r3. repeat split; auto. }
  unfold bind. rewrite Hu, Hdl, Hx. reflexivity.
Qed.

(** A run that answers true was answered by the environment. *)
Lemma RunTests_true_answered t base iss tt w :
  value (RunTests E t base iss tt w) = (true, None) ->
  exists body wfin tr,
    supported tt body /\ transfers_succeed E base iss tt body w wfin tr /\
    RunTests E t base iss tt w = ((true, None), wfin, tr).
Proof.
  unfold value.
  destruct (RunTests_cases t base iss tt w)
    as [[Hc ->] | (t' & Hc & [(e & w1 & tr1 & Hu & ->)
                  | [(u & w1 & tr1 & e & w2 & tr2 & Hu & Hd & ->)
                  | [(u & w1 & tr1 & w2 & tr2 & e & w3 & tr3 & Hu & Hd & Hx & ->)
                  | (u & w1 & tr1 & w2 & tr2 & w3 & tr3 & Hu & Hd & Hx & ->)]]])];
    simpl; try discriminate.
  intros _. destruct (configure_Some _ _ _ _ _ Hc) as [Hsup Ht'].
  apply uploadTestfile_Ok_iff in Hu
    as (parsed & parsedU & tkn1 & wa & r1 & Hi & Hc1 & Hp & Hu' & HpU & Hd1 & Hs1 & ->).
  apply downloadTestfile_None_iff in Hd
    as (parsedU2 & tkn2 & wb & r2 & _ & Hc2 & _ & Hd2 & Hb2 & Hs2 & ->).
  apply deleteTestfile_None_iff in Hx
    as (parsedU3 & tkn3 & wc & r3 & _ & Hc3 & _ & Hd3 & Hs3 & ->).
  rewrite Ht' in Hi, Hc1, Hc2, Hc3, Hu'. simpl in Hi, Hc1, Hc2, Hc3, Hu'. subst u.
  eexists (testBody t'), w3, _. split; [exact Hsup |]. split; [| reflexivity].
  exists parsed, parsedU, tkn1, wa, r1, w1, tkn2, wb, r2, w2, tkn3, wc, r3.
  simpl. repeat split; auto.
Qed.

Lemma supported_unique tt body body' :
  supported tt body -> supported tt body' -> body = body'.
Proof.
  intros [[-> ->] | [-> ->]] [[H ->] | [H ->]]; try reflexivity; discriminate.
Qed.

Lemma RunTests_dichotomy t base iss tt w :
  value (RunTests E t base iss tt w) = (true, None) \/
  exists e, value (RunTests E t base iss tt w) = (false, Some e).
Proof.
  unfold value.
  destruct (RunTests_cases t base iss tt w)
    as [[Hc ->] | (t' & Hc & [(e & w1 & tr1 & Hu & ->)
                  | [(u & w1 & tr1 & e & w2 & tr2 & Hu & Hd & ->)
                  | [(u & w1 & tr1 & w2 & tr2 & e & w3 & tr3 & Hu & Hd & Hx & ->)
                  | (u & w1 & tr1 & w2 & tr2 & w3 & tr3 & Hu & Hd & Hx & ->)]]])];
    simpl; eauto.
Qed.

(** C7: [RunTests] answers [(true, nil)] exactly when all three steps
    complete. Whenever the token minter, the URL parser and the origin
    answer the PUT of the constant test body to
    /pelican/monitoring/<testType>-<timestamp>.txt, the GET of the same URL
    and the DELETE of the same URL, each with a status below 300 and the GET
    with the same body, the run sends exactly these three requests and
    answers [(true, nil)]; and only then does it answer [(true, nil)]. In
    every other case, in particular for a status of 300 or more, a body
    that differs, or a test type other than the two, it answers [false]
    together with an error. *)
Theorem RunTests_true_iff t base iss tt w :
  let run := RunTests E t base iss tt w in
  (forall body wfin tr,
     supported tt body -> transfers_succeed E base iss tt body w wfin tr ->
     run = ((true, None), wfin, tr)) /\
  (value run = (true, None) ->
   exists body wfin tr,
     supported tt body /\ transfers_succeed E base iss tt body w wfin tr) /\
  (value run = (true, None) \/ exists e, value run = (false, Some e)) /\
  (forall body,
     supported tt body ->
     (~ exists wfin tr, transfers_succeed E base iss tt body w wfin tr) ->
     exists e, value run = (false, Some e)) /\
  (forall body x,
     supported tt body -> In x (exchanges (trace run)) -> bad_exchange body x ->
     exists e, value run = (false, Some e)).
Proof.
  cbv zeta. split; [| split; [| split; [| split]]].
  - intros body wfin tr Hsup Hok. exact (RunTests_succeeds t base iss tt w body wfin tr Hsup Hok).
  - intros H. destruct (RunTests_true_answered _ _ _ _ _ H) as (body & wfin & tr & Hs & Ht & _).
    eauto.
  - apply RunTests_dichotomy.
  - intros body Hsup Hno.
    destruct (RunTests_dichotomy t base iss tt w) as [Ht | He]; [| exact He]. exfalso.
    destruct (RunTests_true_answered _ _ _ _ _ Ht) as (body' & wfin & tr & Hs & Hok & _).
    rewrite (supported_unique _ _ _ Hsup Hs) in Hno. apply Hno. eauto.
  - intros body x Hsup Hin Hbad.
    destruct (RunTests_dichotomy t base iss tt w) as [Ht | He]; [| exact He]. exfalso.
    destruct (RunTests_true_answered _ _ _ _ _ Ht) as (body' & wfin & tr & Hs & Hok & Hrun).
    rewrite (supported_unique _ _ _ Hsup Hs) in Hbad.
    rewrite Hrun in Hin. unfold trace in Hin. simpl in Hin.
    destruct Hok as (parsed & parsedU & tkn1 & w1 & r1 & w2 & tkn2 & w3 & r2 & w4 & tkn3 &
                     w5 & r3 & _ & _ & _ & _ & _ & Hs1 & _ & _ & Hb2 & Hs2 & _ & _ & Hs3 & ->).
    simpl in Hin. destruct Hin as [<- | [<- | [<- | []]]];
      unfold bad_exchange in Hbad; simpl in Hbad;
      destruct Hbad as [Hbad | [Hm Hbad]]; try lia; try discriminate; contradiction.
Qed.

End Facts.

(** A healthy origin passes the self-test and keeps no probe object. *)
Example RunTests_healthy_origin :
  let run := RunTests (origin_env true) blank origin_url "" OriginSelfFileTest ∅ in
  value run = (true, None) /\
  steps (trace run) = [StepUpload; StepDownload; StepDelete] /\
  snd (fst run) = ∅.
Proof. vm_compute. repeat split. Qed.

(** The sample origin answers the three requests of a self-test, and the
    run sends exactly these and answers [(true, nil)]. *)
Lemma RunTests_true_iff_witness :
  supported OriginSelfFileTest selfTestBody /\
  transfers_succeed shelf_env origin_url "" OriginSelfFileTest selfTestBody
    [] [] sample_trace /\
  RunTests shelf_env blank origin_url "" OriginSelfFileTest [] =
    ((true, None), [], sample_trace).
Proof.
  assert (Hs : supported OriginSelfFileTest selfTestBody) by (left; split; reflexivity).
  assert (Ht : transfers_succeed shelf_env origin_url "" OriginSelfFileTest
                 selfTestBody [] [] sample_trace).
  { exists {| Authority := origin_url; Path := "" |},
           {| Authority := sample_probe_url; Path := "" |},
           sample_token, [],
           {| StatusCode := 201; Status := "201 Created"; RespBody := Ok "" |},
           [(sample_probe_url, selfTestBody)],
           sample_token, [(sample_probe_url, selfTestBody)],
           {| StatusCode := 200; Status := "200 OK"; RespBody := Ok selfTestBody |},
           [(sample_probe_url, selfTestBody)],
           sample_token, [(sample_probe_url, selfTestBody)],
           {| StatusCode := 204; Status := "204 No Content"; RespBody := Ok "" |}.
    vm_compute. repeat split. discriminate. }
  split; [exact Hs |]. split; [exact Ht |].
  exact (proj1 (RunTests_true_iff shelf_env blank origin_url "" OriginSelfFileTest [])
           selfTestBody [] sample_trace Hs Ht).
Defined.

(** An origin whose reads fail: the run stops after the download and the
    probe object stays behind. *)
Example RunTests_unreadable_origin :
  let run := RunTests (origin_env false) blank origin_url "" OriginSelfFileTest ∅ in
  steps (trace run) = [StepUpload; StepDownload] /\
  map_to_list (snd (fst run)) =
    [("https://origin.example.org:8443/pelican/monitoring/self-test-2023-12-01T10:00:00Z.txt",
      selfTestBody)].
Proof. vm_compute. repeat split. Qed.

(** C1 as the specification words it does not hold: on the origin whose
    reads fail the upload succeeds, yet no delete is attempted. *)
Lemma delete_iff_upload_fails :
  ~ delete_iff_upload (origin_env false) blank origin_url "" OriginSelfFileTest ∅.
Proof.
  unfold delete_iff_upload. intros [_ H].
  assert (Hup : upload_succeeded (origin_env false) blank origin_url ""
                  OriginSelfFileTest ∅).
  { eexists _, _, _, _. split; [reflexivity |]. vm_compute. reflexivity. }
  apply H in Hup. vm_compute in Hup. intuition discriminate.
Qed.

End UtilsSpec.

(** ** The director's namespace listing *)

Module DirectorSpec.
Import Go Director.

Lemma inner_append (vs acc : list NamespaceAd) :
  fold_left (fun namespaces v => namespaces ++ [v]) vs acc = acc ++ vs.
Proof.
  revert acc. induction vs as [| v vs IH]; intros acc; simpl.
  - now rewrite app_nil_r.
  - rewrite IH, <- app_assoc. reflexivity.
Qed.

(** The loop itself is right: started from an empty slice it gathers the
    namespaces of the origins and nothing else. *)
Lemma collect_spec (items : Items) (acc : list NamespaceAd) :
  collect items acc = acc ++ origin_namespaces items.
Proof.
  unfold collect. revert acc.
  induction items as [| [ad vs] items IH]; intros acc; simpl.
  - now rewrite app_nil_r.
  - rewrite IH. destruct (ServerType_eqb (Type_ ad) OriginType).
    + rewrite inner_append, <- app_assoc. reflexivity.
    + reflexivity.
Qed.

Lemma ListNamespaces_empty : ListNamespaces [] = Returned [].
Proof. reflexivity. Qed.

(** With anything in the catalog the slice is requested with a length above
    its capacity of zero and the runtime panics. *)
Lemma ListNamespaces_nonempty (items : Items) :
  items <> [] ->
  ListNamespaces items = Panicked "runtime error: makeslice: cap out of range".
Proof.
  intros Hne. unfold ListNamespaces, make_slice.
  destruct items as [| x xs]; [contradiction |].
  replace (Z.of_nat (length (x :: xs)) <? 0) with false
    by (symmetry; apply Z.ltb_ge; lia).
  replace (0 <? Z.of_nat (length (x :: xs))) with true
    by (symmetry; apply Z.ltb_lt; simpl length; lia).
  reflexivity.
Qed.

(** C9 at a catalog holding one origin with one namespace: the call panics
    instead of returning that namespace. *)
Theorem ListNamespaces_one_origin_panics :
  ListNamespaces [(origin1, [ad_foo])] =
    Panicked "runtime error: makeslice: cap out of range" /\
  origin_namespaces [(origin1, [ad_foo])] = [ad_foo].
Proof. split; reflexivity. Qed.

End DirectorSpec.

(** ** Server initialisation *)

Module ConfigSpec.
Import Go Config.

Section Facts.
Context {OS : Type} (E : Env OS).

(** Setting one default leaves every key that lower-cases differently, and
    everything outside the default layer, alone. *)
Lemma viper_SetDefault_other key v st k :
  strings_ToLower E k <> strings_ToLower E key ->
  viper_defaults (viper_SetDefault E key v st) !! strings_ToLower E k =
  viper_defaults st !! strings_ToLower E k.
Proof. intros Hk. unfold viper_SetDefault; simpl. now apply lookup_insert_ne. Qed.

(** What [initConfigDir] does, case by case: nothing when a configuration
    directory is configured; nothing but an error when the home directory
    is needed and unknown; otherwise the one default for "ConfigDir". *)
Lemma initConfigDir_cases st :
  (viper_GetString E "ConfigDir" st <> "" /\ initConfigDir E st = (None, st)) \/
  (viper_GetString E "ConfigDir" st = "" /\ IsRootExecution E = false /\
   exists e, getConfigBase E = Err e /\ initConfigDir E st = (Some e, st)) \/
  (viper_GetString E "ConfigDir" st = "" /\
   exists dir,
     (IsRootExecution E = true /\ dir = "/etc/pelican" \/
      IsRootExecution E = false /\ getConfigBase E = Ok dir) /\
     initConfigDir E st = (None, viper_SetDefault E "ConfigDir" (VString dir) st)).
Proof.
  unfold initConfigDir.
  destruct (String.eqb (viper_GetString E "ConfigDir" st) "") eqn:Hc.
  - apply String.eqb_eq in Hc. right.
    destruct (IsRootExecution E) eqn:Hr.
    + right. split; [exact Hc |]. exists "/etc/pelican". auto.
    + destruct (getConfigBase E) as [dir | e] eqn:Hb.
      * right. split; [exact Hc |]. exists dir. auto.
      * left. split; [exact Hc |]. split; [reflexivity |]. exists e. auto.
  - apply String.eqb_neq in Hc. left. auto.
Qed.

(** Both bits set is what the guard of [InitServer] tests. *)
Lemma both_enabled_iff mask :
  IsEnabled mask OriginType && IsEnabled mask CacheType = true <->
  Z.testbit mask 0 = true /\ Z.testbit mask 1 = true.
Proof.
  unfold IsEnabled, OriginType, CacheType. rewrite andb_true_iff, !Z.eqb_eq.
  change (Z.shiftl 1 1) with 2. change (Z.shiftl 1 0) with 1.
  split.
  - intros [H2 H1]. split.
    + apply (f_equal (fun z => Z.testbit z 0)) in H1.
      rewrite Z.land_spec in H1. simpl in H1. now rewrite andb_true_r in H1.
    + apply (f_equal (fun z => Z.testbit z 1)) in H2.
      rewrite Z.land_spec in H2. simpl in H2. now rewrite andb_true_r in H2.
  - intros [H0 H1]. split; apply Z.bits_inj'; intros n Hn; rewrite Z.land_spec.
    + destruct (Z.eq_dec n 1) as [-> | Hne]; [now rewrite H1 |].
      replace (Z.testbit 2 n) with false; [now rewrite andb_false_r |].
      symmetry. change 2 with (2 ^ 1). apply Z.pow2_bits_false. lia.
    + destruct (Z.eq_dec n 0) as [-> | Hne]; [now rewrite H0 |].
      replace (Z.testbit 1 n) with false; [now rewrite andb_false_r |].
      symmetry. change 1 with (2 ^ 0). apply Z.pow2_bits_false. lia.
Qed.

(** C10, as the code has it: with both the cache bit and the origin bit
    set, [InitServer] returns an error, the file system untouched, the
    enabled servers not recorded and the layers above the defaults as they
    were. The state is exactly as before, except that [initConfigDir], run
    first, has set the default for "ConfigDir" when no configuration
    directory was configured and one could be determined: /etc/pelican for
    root, the directory under the home directory otherwise. No other
    default is applied. *)
Theorem InitServer_rejects_cache_and_origin mask st os :
  IsEnabled mask CacheType = true ->
  IsEnabled mask OriginType = true ->
  exists err st',
    InitServer E mask (st, os) = (Some err, (st', os)) /\
    enabledServers st' = enabledServers st /\
    setServerOnce st' = setServerOnce st /\
    viper_overrides st' = viper_overrides st /\
    ((viper_GetString E "ConfigDir" st <> "" /\ st' = st /\ err = conflict_error) \/
     (viper_GetString E "ConfigDir" st = "" /\ IsRootExecution E = false /\
      exists e, getConfigBase E = Err e /\ st' = st /\ err = configDir_error e) \/
     (viper_GetString E "ConfigDir" st = "" /\
      exists dir,
        (IsRootExecution E = true /\ dir = "/etc/pelican" \/
         IsRootExecution E = false /\ getConfigBase E = Ok dir) /\
        viper_defaults st' =
          <[strings_ToLower E "ConfigDir" := VString dir]> (viper_defaults st) /\
        err = conflict_error)).
Proof.
  intros Hc Ho. unfold InitServer.
  destruct (initConfigDir_cases st)
    as [[Hset ->] | [(Hunset & Hroot & e & Hbase & ->)
                    | (Hunset & dir & Hdir & ->)]].
  - rewrite Ho, Hc. simpl. exists conflict_error, st. repeat split. left. auto.
  - exists (configDir_error e), st. repeat split. right. left.
    split; [exact Hunset |]. split; [exact Hroot |]. exists e. auto.
  - rewrite Ho, Hc. simpl.
    exists conflict_error, (viper_SetDefault E "ConfigDir" (VString dir) st).
    repeat split. right. right. split; [exact Hunset |]. exists dir. auto.
Qed.

End Facts.

(** The mask with exactly the cache and origin bits, on a fresh process of
    an ordinary user. *)
Lemma InitServer_rejects_cache_and_origin_witness :
  IsEnabled (Z.lor CacheType OriginType) CacheType = true /\
  IsEnabled (Z.lor CacheType OriginType) OriginType = true /\
  exists err st',
    InitServer plain_env (Z.lor CacheType OriginType) (fresh, tt) = (Some err, (st', tt)) /\
    enabledServers st' = enabledServers fresh /\
    setServerOnce st' = setServerOnce fresh /\
    viper_overrides st' = viper_overrides fresh /\
    ((viper_GetString plain_env "ConfigDir" fresh <> "" /\ st' = fresh /\
      err = conflict_error) \/
     (viper_GetString plain_env "ConfigDir" fresh = "" /\
      IsRootExecution plain_env = false /\
      exists e, getConfigBase plain_env = Err e /\ st' = fresh /\
                err = configDir_error e) \/
     (viper_GetString plain_env "ConfigDir" fresh = "" /\
      exists dir,
        (IsRootExecution plain_env = true /\ dir = "/etc/pelican" \/
         IsRootExecution plain_env = false /\ getConfigBase plain_env = Ok dir) /\
        viper_defaults st' =
          <[strings_ToLower plain_env "ConfigDir" := VString dir]> (viper_defaults fresh) /\
        err = conflict_error)).
Proof.
  split; [reflexivity |]. split; [reflexivity |].
  apply (InitServer_rejects_cache_and_origin plain_env (Z.lor CacheType OriginType) fresh tt);
    reflexivity.
Defined.

(** C10 as the specification words it does not hold: on a fresh process the
    rejected call has already set the default for the configuration
    directory, so the state is not the one it found. *)
Lemma rejected_untouched_fails :
  ~ rejected_untouched plain_env (Z.lor CacheType OriginType) (fresh, tt).
Proof.
  intros H. destruct (H eq_refl eq_refl) as (err & s' & Hrun & _ & _ & Hd).
  vm_compute in Hrun. inversion Hrun; subst s'. vm_compute in Hd. discriminate.
Qed.

(** On a fresh process the rejected call leaves exactly one default behind,
    the configuration directory, under viper's lower-cased key; it reads
    back under any capitalisation. *)
Example InitServer_conflict_leaves_ConfigDir :
  let '(err, (st, _)) := InitServer plain_env (Z.lor CacheType OriginType) (fresh, tt) in
  err = Some conflict_error /\
  map_to_list (viper_defaults st) = [("configdir", VString "/home/pelican/.config/pelican")] /\
  viper_GetString plain_env "ConfigDir" st = "/home/pelican/.config/pelican" /\
  viper_GetString plain_env "configdir" st = "/home/pelican/.config/pelican" /\
  enabledServers st = 0 /\ setServerOnce st = false.
Proof. vm_compute. repeat split. Qed.

(** An origin alone is accepted: its type is recorded and the defaults are
    in place afterwards. *)
Example InitServer_origin_alone :
  let '(err, (st, _)) := InitServer plain_env OriginType (fresh, tt) in
  err = None /\
  enabledServers st = OriginType /\
  viper_GetString plain_env "ConfigDir" st = "/home/pelican/.config/pelican" /\
  viper_GetString plain_env "Server.TLSCertificate" st =
    "/home/pelican/.config/pelican/certificates/tls.crt" /\
  viper_GetString plain_env "Xrootd.RunLocation" st = "/tmp/pelican-xrootd-1/origin".
Proof. vm_compute. repeat split. Qed.

End ConfigSpec.

(** ** Strings and hex *)

Module GoSpec.
Import Go.

Lemma length_append (a b : string) :
  String.length (a +:+ b) = (String.length a + String.length b)%nat.
Proof. induction a as [| c a IH]; simpl; [reflexivity | now rewrite IH]. Qed.

Lemma substring_all (s : string) : substring 0 (String.length s) s = s.
Proof. induction s as [| c s IH]; simpl; [reflexivity | now rewrite IH]. Qed.

Lemma substring_append_r (a b : string) :
  substring (String.length a) (String.length b) (a +:+ b) = b.
Proof. induction a as [| c a IH]; simpl; [apply substring_all | exact IH]. Qed.

Lemma substring_append_l (a b : string) :
  substring 0 (String.length a) (a +:+ b) = a.
Proof.
  induction a as [| c a IH]; simpl.
  - destruct b; reflexivity.
  - now rewrite IH.
Qed.

Lemma HasSuffix_append (a suffix : string) : HasSuffix (a +:+ suffix) suffix = true.
Proof.
  unfold HasSuffix. rewrite length_append.
  replace (String.length a + String.length suffix - String.length suffix)%nat
    with (String.length a) by lia.
  rewrite substring_append_r, String.eqb_refl, andb_true_r.
  apply Nat.leb_le. lia.
Qed.

Lemma TrimSuffix_append (a suffix : string) : TrimSuffix (a +:+ suffix) suffix = a.
Proof.
  unfold TrimSuffix. rewrite HasSuffix_append, length_append.
  replace (String.length a + String.length suffix - String.length suffix)%nat
    with (String.length a) by lia.
  apply substring_append_l.
Qed.

Lemma EncodeToString_length (s : string) :
  String.length (EncodeToString s) = (2 * String.length s)%nat.
Proof. induction s as [| c s IH]; simpl; [reflexivity | rewrite IH; lia]. Qed.

Lemma EncodeToString_append (a b : string) :
  EncodeToString (a +:+ b) = EncodeToString a +:+ EncodeToString b.
Proof. induction a as [| c a IH]; simpl; [reflexivity | now rewrite IH]. Qed.

Lemma length_string_of_list_ascii (l : list ascii) :
  String.length (string_of_list_ascii l) = length l.
Proof. induction l as [| c l IH]; simpl; [reflexivity | now rewrite IH]. Qed.

(** Decoding undoes encoding, byte for byte. *)
Lemma hex_byte_roundtrip (c : ascii) :
  let v := N_of_ascii c in
  fromHexChar (hexdigit (N.shiftr v 4)) = Some (N.shiftr v 4) /\
  fromHexChar (hexdigit (N.land v 15)) = Some (N.land v 15) /\
  ascii_of_N (N.lor (N.shiftl (N.shiftr v 4) 4) (N.land v 15)) = c.
Proof.
  destruct c as [[] [] [] [] [] [] [] []]; vm_compute; repeat split.
Qed.

Lemma DecodeString_EncodeToString (s : string) :
  DecodeString (EncodeToString s) = Ok s.
Proof.
  induction s as [| c s IH]; [reflexivity |].
  destruct (hex_byte_roundtrip c) as (Hhi & Hlo & Hc).
  cbn [EncodeToString DecodeString]. cbv zeta in Hhi, Hlo, Hc.
  rewrite Hhi, Hlo, IH, Hc. reflexivity.
Qed.

End GoSpec.

(** ** The registry handlers *)

Module RegistrySpec.
Import Go Registry GoSpec.

Section Facts.
Context {DB World : Type} (E : Env DB World).

Ltac unfold_M :=
  unfold bind, ret, JSON, serverError, readDB, writeDB, inWorld, readWorld, panic in *.

Ltac branches :=
  repeat match goal with
         | H : context [match ?x with _ => _ end] |- _ => destruct x eqn:?; simpl in *
         | H : context [if ?x then _ else _] |- _ => destruct x eqn:?; simpl in *
         end;
  repeat match goal with
         | H : (_, _) = (_, _) |- _ => inversion H; subst; clear H
         | H : Ok _ = Ok _ |- _ => inversion H; subst; clear H
         | H : Returned _ = Returned _ |- _ => inversion H; subst; clear H
         | H : Some _ = Some _ |- _ => inversion H; subst; clear H
         end;
  try discriminate.

Lemma nonempty_true (s : string) : nonempty s = true <-> s <> "".
Proof. unfold nonempty. rewrite negb_true_iff. apply String.eqb_neq. Qed.

Lemma nonempty_false (s : string) : nonempty s = false <-> s = "".
Proof. unfold nonempty. rewrite negb_false_iff. apply String.eqb_eq. Qed.

(** Once a request reaches the challenge, the handler is the challenge. *)
Lemma cliRegisterNamespace_challenge bound st data st0 :
  reaches_challenge E bound st data st0 ->
  cliRegisterNamespace E bound st = runChallenge E data st0.
Proof.
  intros (reqData & -> & [(Ha & Hi & -> & ->)
                         | (Ha & oidc & w1 & resp & body & Ho & Hp & Hs & Hb & -> & ->)]).
  - unfold cliRegisterNamespace.
    apply nonempty_false in Ha. rewrite Ha.
    destruct Hi as [Hi | Hi]; rewrite Hi; reflexivity.
  - unfold cliRegisterNamespace.
    apply nonempty_true in Ha. rewrite Ha, Ho.
    unfold bind at 1. unfold inWorld. rewrite Hp, Hs, Hb. simpl.
    destruct (runChallenge E (set_Identity reqData body) _) as [[o s2] w2].
    reflexivity.
Qed.

(** A body without client_nonce: the challenge answers 300 and the caller
    then tries 500. *)
Lemma runChallenge_missing data st0 :
  ClientNonce data = "" ->
  runChallenge E data st0 =
    (Returned tt, st0,
     [(300, H [("error", "MISSING PARAMETERS")]);
      (500, HErr "server encountered an error during key-sign challenge: "
                 (errors_New "key sign challenge was missing parameters"))]).
Proof.
  intros Hc. unfold runChallenge, keySignChallenge. rewrite Hc. reflexivity.
Qed.

(** What a successful challenge init sends back: a fresh nonce, and a
    payload built from the request's own server_nonce field. *)
Lemma keySignChallengeInit_writes data st0 st1 ws :
  keySignChallengeInit E data st0 = (Returned None, st1, ws) ->
  exists fill priv w sig,
    ecdsa_Sign E priv (sha256_Sum256 E (ClientNonce data +:+ ServerNonce data)) w =
      (Ok sig, world st1) /\
    ws = [(200, H [("server_nonce",
                    EncodeToString (string_of_list_ascii (map fill (seq 0 32))));
                   ("client_nonce", ClientNonce data);
                   ("server_payload",
                    EncodeToString (ClientNonce data +:+ ServerNonce data));
                   ("server_signature", EncodeToString sig)])].
Proof.
  intros H. unfold keySignChallengeInit, generateNonce, signPayload, loadServerKeys in H.
  unfold_M. simpl in H. branches.
  all: eexists _, _, _, _; split; [eassumption | reflexivity].
Qed.

(** The fresh nonce is 32 bytes from the random source, 64 hex digits. *)
Lemma server_nonce_length (fill : nat -> ascii) :
  String.length (EncodeToString (string_of_list_ascii (map fill (seq 0 32)))) = 64%nat.
Proof.
  rewrite EncodeToString_length, length_string_of_list_ascii, length_map, length_seq.
  reflexivity.
Qed.

Lemma loadServerKeys_frame s :
  exists r s1, loadServerKeys E s = (Returned r, s1, []) /\ db s1 = db s.
Proof.
  unfold loadServerKeys. destruct (serverCreds s).
  - eexists _, _. split; reflexivity.
  - destruct (config_LoadPrivateKey E (IssuerKey E) (world s)). eexists _, _.
    split; reflexivity.
Qed.

(** The challenge never touches the row of a prefix that is registered. *)
Lemma keySignChallenge_db data action s :
  namespaceExists E (rd_Prefix data) (db s) = Ok true ->
  db (final (keySignChallenge E data action s)) = db s.
Proof.
  intros Hex. unfold final, keySignChallenge, keySignChallengeCommit, keySignChallengeInit,
    generateNonce, signPayload, addNamespaceHandler.
  unfold bind, ret, JSON, serverError, readDB, writeDB, inWorld, readWorld, panic.
  destruct (nonempty (ClientNonce data) && nonempty (ClientPayload data) &&
            nonempty (ClientSignature data) && nonempty (ServerNonce data) &&
            nonempty (ServerPayload data) && nonempty (ServerSignature data)).
  - destruct (validateJwks E (rd_Pubkey data)); [| reflexivity].
    destruct (key_Raw E a); [| reflexivity].
    destruct (DecodeString (ClientSignature data)); [| reflexivity].
    destruct a0; [| reflexivity].
    destruct (DecodeString (ServerPayload data)); [| reflexivity].
    destruct (DecodeString (ServerSignature data)); [| reflexivity].
    destruct (loadServerKeys_frame s) as (r & s1 & Hl & Hdb). rewrite Hl.
    destruct r; [| simpl; exact Hdb].
    destruct (verifySignature E _ _ pub && verifySignature E _ _ _); [| simpl; exact Hdb].
    destruct (String.eqb action "register"); [| simpl; exact Hdb].
    simpl. rewrite Hdb, Hex. simpl. exact Hdb.
  - destruct (nonempty (ClientNonce data)); [| reflexivity].
    destruct (rand_Read E (world s)) as [[fill | err] w1]; [| reflexivity].
    simpl.
    destruct (loadServerKeys_frame {| db := db s; serverCreds := serverCreds s; world := w1 |})
      as (r & s1 & Hl & Hdb). rewrite Hl. simpl in Hdb.
    destruct r; [| simpl; exact Hdb].
    simpl. destruct (ecdsa_Sign E a _ (world s1)) as [[sig | err] w2]; reflexivity || (simpl; exact Hdb).
Qed.

Lemma runChallenge_db data s :
  namespaceExists E (rd_Prefix data) (db s) = Ok true ->
  db (final (runChallenge E data s)) = db s.
Proof.
  intros Hex. pose proof (keySignChallenge_db data "register" s Hex) as Hk.
  unfold runChallenge, final, bind in *.
  destruct (keySignChallenge E data "register" s) as [[[[e |] | msg] s1] ws]; exact Hk.
Qed.

(** What a verified commit for a registered prefix is answered. *)
Lemma runChallenge_registered data s :
  verified_commit E data s ->
  namespaceExists E (rd_Prefix data) (db s) = Ok true ->
  writes (runChallenge E data s) =
    [(200, H [("message", "The prefix " +:+ rd_Prefix data +:+
                          " is already registered -- nothing else to do!")])] /\
  result_of (runChallenge E data s) = Returned tt.
Proof.
  intros [(H1 & H2 & H3 & H4 & H5 & H6)
          (key & pub & csig & spay & ssig & priv & Hj & Hr & Hc & Hp & Hs & Hl & Hv1 & Hv2)] Hex.
  apply nonempty_true in H1, H2, H3, H4, H5, H6.
  unfold runChallenge, keySignChallenge, keySignChallengeCommit, writes, result_of.
  rewrite H1, H2, H3, H4, H5, H6. simpl.
  destruct (loadServerKeys_frame s) as (r & s1 & Hl' & Hdb).
  unfold result_of in Hl. rewrite Hl' in Hl. simpl in Hl. inversion Hl; subst r.
  unfold bind, readDB, JSON, ret, panic.
  rewrite Hj, Hr, Hc, Hp, Hs, Hl'. cbn beta iota zeta.
  rewrite Hv1, Hv2. cbn beta iota zeta. simpl.
  rewrite Hdb, Hex. simpl. split; reflexivity.
Qed.

Lemma reaches_challenge_db bound st data st0 :
  reaches_challenge E bound st data st0 -> db st0 = db st.
Proof.
  intros (r & _ & [(_ & _ & _ & ->) | (_ & ? & ? & ? & ? & _ & _ & _ & _ & _ & ->)]);
    reflexivity.
Qed.

(** Verified or not, a request for a registered prefix leaves the table as
    it is. *)
Lemma registered_prefix_row_kept bound st data st0 :
  reaches_challenge E bound st data st0 ->
  namespaceExists E (rd_Prefix data) (db st) = Ok true ->
  db (final (cliRegisterNamespace E bound st)) = db st.
Proof.
  intros Hreach Hex.
  rewrite (cliRegisterNamespace_challenge _ _ _ _ Hreach).
  rewrite <- (reaches_challenge_db _ _ _ _ Hreach) in *.
  now apply runChallenge_db.
Qed.

(** C3, as the code has it: a challenge commit whose signatures verify and
    whose prefix is already registered is answered 200 with the "already
    registered" message, whether the submitted key is the stored one or
    another, and the stored entry is left as it is. *)
Theorem commit_for_registered_prefix bound st data st0 :
  reaches_challenge E bound st data st0 ->
  verified_commit E data st0 ->
  namespaceExists E (rd_Prefix data) (db st) = Ok true ->
  let run := cliRegisterNamespace E bound st in
  status run = 200 /\
  writes run =
    [(200, H [("message", "The prefix " +:+ rd_Prefix data +:+
                          " is already registered -- nothing else to do!")])] /\
  result_of run = Returned tt /\
  db (final run) = db st.
Proof.
  intros Hreach Hv Hex. cbv zeta.
  pose proof (registered_prefix_row_kept _ _ _ _ Hreach Hex) as Hkept.
  rewrite (cliRegisterNamespace_challenge _ _ _ _ Hreach) in *.
  rewrite <- (reaches_challenge_db _ _ _ _ Hreach) in Hex.
  destruct (runChallenge_registered _ _ Hv Hex) as [Hw Hr].
  unfold status. rewrite Hw. auto.
Qed.

Lemma scopeValidator_None tok :
  scopeValidator tok = None ->
  exists scope, tok_scope tok = ScopeString scope /\
                In Pelican_NamespaceDelete (Split_on " " scope).
Proof.
  unfold scopeValidator. destruct (tok_scope tok) as [| | scope]; try discriminate.
  destruct (existsb _ _) eqn:Hx; [| discriminate]. intros _.
  exists scope. split; [reflexivity |].
  apply existsb_exists in Hx as (x & Hin & Heq). apply String.eqb_eq in Heq. now subst.
Qed.

(** C4, as the code has it: a delete request that is not authorized
    changes nothing and is answered with a status outside 2xx, namely 400
    or 500; for a registered prefix the answer is 500, also when no bearer
    token is supplied. *)
Theorem deleteNamespaceHandler_unauthorized prefix authHeader st :
  ~ authorized E prefix authHeader st ->
  let run := deleteNamespaceHandler E prefix authHeader st in
  final run = st /\
  is_2xx (status run) = false /\
  (status run = 400 \/ status run = 500) /\
  (prefix <> "" -> namespaceExists E prefix (db st) = Ok true -> status run = 500).
Proof.
  intros Hna. cbv zeta.
  unfold deleteNamespaceHandler, jwt_Validate, final, status, writes.
  unfold bind, ret, JSON, serverError, readDB, writeDB, inWorld, readWorld.
  destruct (String.eqb prefix "") eqn:Hp.
  { apply String.eqb_eq in Hp. simpl. repeat split; auto; try congruence. }
  destruct (namespaceExists E prefix (db st)) as [ex | e] eqn:Hex.
  2: { simpl. repeat split; auto; try congruence. }
  destruct (getNamespaceJwksByPrefix E prefix (db st)) as [[jwks md] | e] eqn:Hj.
  2: { destruct ex; simpl; rewrite Hj; simpl; repeat split; auto; try congruence. }
  destruct (jwt_Parse E (TrimPrefix authHeader "Bearer ") jwks) as [tok | e] eqn:Ht.
  2: { destruct ex; simpl; rewrite Hj, Ht; simpl; repeat split; auto; try congruence. }
  destruct (jwt_Validate_claims E tok (world st)) as [e |] eqn:Hv.
  { destruct ex; simpl; rewrite Hj, Ht, Hv; simpl; repeat split; auto; try congruence. }
  destruct (scopeValidator tok) as [e |] eqn:Hs.
  { destruct ex; simpl; rewrite Hj, Ht, Hv; simpl; rewrite Hs; simpl;
      repeat split; auto; try congruence. }
  exfalso. apply Hna. destruct (scopeValidator_None _ Hs) as (scope & Hsc & Hin).
  exists jwks, md, tok, scope. auto.
Qed.

(** C5: a GET of <prefix>/.well-known/issuer.jwks is answered 404 when
    the prefix is not registered; 403 when it is registered, its status is
    not Approved and the approval requirement for its kind (cache approval
    for /caches/..., origin approval otherwise) is on; and otherwise 200
    with the stored key set. *)
Theorem wildcardHandler_issuer_jwks prefix st :
  let run := wildcardHandler E (prefix +:+ "/.well-known/issuer.jwks") st in
  (namespaceExistsByPrefix E prefix (db st) = Ok false -> status run = 404) /\
  (forall jwks md,
     namespaceExistsByPrefix E prefix (db st) = Ok true ->
     getNamespaceJwksByPrefix E prefix (db st) = Ok (jwks, md) ->
     (not_approved md /\ approval_required E prefix = true -> status run = 403) /\
     (~ (not_approved md /\ approval_required E prefix = true) ->
      writes run = [(200, JwksBody jwks)])).
Proof.
  cbv zeta. unfold wildcardHandler, status, writes.
  rewrite HasSuffix_append, TrimSuffix_append.
  unfold bind, ret, JSON, serverError, readDB.
  split.
  - intros ->. reflexivity.
  - intros jwks md -> Hj. simpl. rewrite Hj. unfold approval_required, not_approved.
    destruct md as [m |].
    + destruct (String.eqb (Status m) Approved) eqn:Hs; simpl.
      * apply String.eqb_eq in Hs. split; [intros [(m' & Hm & Hne) _] | reflexivity].
        inversion Hm; subst. contradiction.
      * apply String.eqb_neq in Hs.
        destruct (HasPrefix prefix "/caches/");
          [destruct (Registry_RequireCacheApproval E)
          | destruct (Registry_RequireOriginApproval E)]; simpl;
          (split; [intros [_ ?]; congruence | intros Hn]); try reflexivity;
          exfalso; apply Hn; split; eauto.
    + simpl. split; [intros [(m' & Hm & _) _]; discriminate | reflexivity].
Qed.

(** What [checkNamespaceStatusHandler] answers for an origin prefix with
    admin metadata: the origin toggle is only consulted when the cache
    toggle is on. *)
Lemma checkNamespaceStatus_origin prefix ns st :
  prefix <> "" ->
  HasPrefix prefix "/caches" = false ->
  getNamespaceByPrefix E prefix (db st) = Ok (Some ns) ->
  AdminMetadata_eqb (Admin_Metadata ns) emptyMetadata = false ->
  writes (checkNamespaceStatusHandler E (Ok {| csr_Prefix := prefix |}) st) =
    [(200, CheckStatusRes
             (if Registry_RequireCacheApproval E
              then if Registry_RequireOriginApproval E
                   then String.eqb (Status (Admin_Metadata ns)) Approved
                   else true
              else true))].
Proof.
  intros Hp Hc Hn Hm. unfold checkNamespaceStatusHandler, writes. simpl.
  apply String.eqb_neq in Hp. rewrite Hp.
  unfold bind, readDB, JSON. rewrite Hn. simpl. rewrite Hm, Hc. simpl.
  destruct (Registry_RequireCacheApproval E), (Registry_RequireOriginApproval E);
    reflexivity.
Qed.

(** Every request that reaches the challenge without a client_nonce is
    answered 300. *)
Lemma cliRegisterNamespace_missing bound st data st0 :
  reaches_challenge E bound st data st0 ->
  ClientNonce data = "" ->
  status (cliRegisterNamespace E bound st) = 300.
Proof.
  intros Hr Hc. rewrite (cliRegisterNamespace_challenge _ _ _ _ Hr).
  rewrite (runChallenge_missing _ _ Hc). reflexivity.
Qed.

End Facts.

(** C2 at the body [{"client_nonce": "A"}]: the answer carries a fresh
    64-digit server nonce, but the payload that is signed and returned is
    hex("A"), not hex("A" ‖ server_nonce); the signature returned does not
    verify for "A" ‖ server_nonce. *)
Theorem keySignChallengeInit_payload_lacks_server_nonce :
  exists server_nonce,
    writes (cliRegisterNamespace (toy true true) (Ok initA) (start ∅)) =
      [(200, H [("server_nonce", server_nonce);
                ("client_nonce", "A");
                ("server_payload", EncodeToString "A");
                ("server_signature", EncodeToString "registry-key:A")])] /\
    String.length server_nonce = 64%nat /\
    EncodeToString "A" <> EncodeToString ("A" +:+ server_nonce) /\
    ecdsa_VerifyASN1 (toy true true) "registry-key"
      (sha256_Sum256 (toy true true) ("A" +:+ server_nonce)) "registry-key:A" = false.
Proof.
  eexists. split; [vm_compute; reflexivity |].
  split; [reflexivity |]. split; [vm_compute; discriminate | reflexivity].
Qed.

(** C8 at the body [{}]: the status on the wire is 300, with 500 attempted
    after it; 400 is never written. *)
Theorem cliRegisterNamespace_missing_fields_300 :
  let run := cliRegisterNamespace (toy true true) (Ok noData) (start ∅) in
  writes run =
    [(300, H [("error", "MISSING PARAMETERS")]);
     (500, HErr "server encountered an error during key-sign challenge: "
                (errors_New "key sign challenge was missing parameters"))] /\
  status run = 300 /\
  ~ In 400 (map fst (writes run)).
Proof. vm_compute. repeat split. intuition discriminate. Qed.

(** C6 at prefix /foo, status Pending, with cache approval off and origin
    approval on: the handler answers approved = true although the namespace
    is an origin that is not approved. *)
Theorem checkNamespaceStatus_origin_follows_cache_toggle :
  let E := toy false true in
  let run := checkNamespaceStatusHandler E (Ok {| csr_Prefix := "/foo" |})
               (start (foo_k1 Pending)) in
  HasPrefix "/foo" "/caches" = false /\
  Registry_RequireOriginApproval E = true /\
  Registry_RequireCacheApproval E = false /\
  String.eqb (Status (Admin_Metadata (row "/foo" "k1" Pending))) Approved = false /\
  writes run = [(200, CheckStatusRes true)].
Proof. vm_compute. repeat split. Qed.

(** A commit for /foo by the holder of another key, with /foo registered to
    k1: answered 200, row untouched. *)
Lemma commit_for_registered_prefix_witness :
  let run := cliRegisterNamespace (toy true true) (Ok (commitAB "k2" "/foo"))
               (start (foo_k1 Approved)) in
  status run = 200 /\
  writes run =
    [(200, H [("message", "The prefix /foo is already registered -- nothing else to do!")])] /\
  result_of run = Returned tt /\
  db (final run) = foo_k1 Approved.
Proof.
  apply (commit_for_registered_prefix (toy true true) (Ok (commitAB "k2" "/foo"))
           (start (foo_k1 Approved)) (commitAB "k2" "/foo") (start (foo_k1 Approved))).
  - exists (commitAB "k2" "/foo"). split; [reflexivity |]. left. simpl. auto.
  - split; [unfold complete_commit; simpl; repeat split; discriminate |].
    exists "k2", "k2", "k2:AB", "AB", "registry-key:AB", "registry-key".
    repeat split.
  - vm_compute. reflexivity.
Defined.

(** C3 as the specification words it does not hold: /foo is registered to
    k1, the commit submits k2, and the answer is 200. *)
Lemma same_key_or_refused_fails :
  ~ same_key_or_refused (toy true true) (commitAB "k2" "/foo") (start (foo_k1 Approved)).
Proof.
  unfold same_key_or_refused. intros Hclaim.
  destruct (Hclaim (row "/foo" "k1" Approved)) as [_ Hother]; [vm_compute; reflexivity |].
  destruct Hother as [H2xx _]; [simpl; discriminate |].
  vm_compute in H2xx. discriminate.
Qed.

(** A delete of /foo without any bearer token. *)
Lemma no_bearer_unauthorized :
  ~ authorized (toy true true) "/foo" "" (start (foo_k1 Approved)).
Proof.
  intros (jwks & md & tok & scope & Hj & Ht & _).
  vm_compute in Hj. inversion Hj; subst. vm_compute in Ht. discriminate.
Qed.

Lemma deleteNamespaceHandler_unauthorized_witness :
  let run := deleteNamespaceHandler (toy true true) "/foo" "" (start (foo_k1 Approved)) in
  final run = start (foo_k1 Approved) /\
  is_2xx (status run) = false /\
  (status run = 400 \/ status run = 500) /\
  ("/foo" <> "" ->
   namespaceExists (toy true true) "/foo" (db (start (foo_k1 Approved))) = Ok true ->
   status run = 500).
Proof.
  apply (deleteNamespaceHandler_unauthorized (toy true true) "/foo" ""
           (start (foo_k1 Approved))).
  intros (jwks & md & tok & scope & Hj & Ht & _).
  vm_compute in Hj. inversion Hj; subst. vm_compute in Ht. discriminate.
Defined.

(** C4 as the specification words it does not hold: the unauthorized
    delete without a bearer is answered 500, which is neither 401 nor any
    other 4xx. *)
Lemma refused_4xx_fails :
  ~ (~ authorized (toy true true) "/foo" "" (start (foo_k1 Approved)) ->
     refused_4xx (toy true true) "/foo" "" (start (foo_k1 Approved))).
Proof.
  intros Hclaim. destruct (Hclaim no_bearer_unauthorized) as [H4 _].
  vm_compute in H4. discriminate.
Qed.

(** The three answers of the key-set endpoint on sample tables. *)
Lemma wildcardHandler_issuer_jwks_witness :
  let run := wildcardHandler (toy true true) ("/foo" +:+ "/.well-known/issuer.jwks")
               (start (foo_k1 Pending)) in
  (namespaceExistsByPrefix (toy true true) "/foo" (db (start (foo_k1 Pending))) = Ok false ->
   status run = 404) /\
  (forall jwks md,
     namespaceExistsByPrefix (toy true true) "/foo" (db (start (foo_k1 Pending))) = Ok true ->
     getNamespaceJwksByPrefix (toy true true) "/foo" (db (start (foo_k1 Pending))) =
       Ok (jwks, md) ->
     (not_approved md /\ approval_required (toy true true) "/foo" = true ->
      status run = 403) /\
     (~ (not_approved md /\ approval_required (toy true true) "/foo" = true) ->
      writes run = [(200, JwksBody jwks)])).
Proof.
  apply (wildcardHandler_issuer_jwks (toy true true) "/foo" (start (foo_k1 Pending))).
Defined.

Example issuer_jwks_unknown_404 :
  status (wildcardHandler (toy true true) "/bar/.well-known/issuer.jwks"
            (start (foo_k1 Approved))) = 404.
Proof. reflexivity. Qed.

Example issuer_jwks_pending_403 :
  status (wildcardHandler (toy true true) "/foo/.well-known/issuer.jwks"
            (start (foo_k1 Pending))) = 403.
Proof. reflexivity. Qed.

Example issuer_jwks_pending_not_required_200 :
  writes (wildcardHandler (toy true false) "/foo/.well-known/issuer.jwks"
            (start (foo_k1 Pending))) = [(200, JwksBody ["k1"])].
Proof. reflexivity. Qed.

Example issuer_jwks_approved_200 :
  writes (wildcardHandler (toy true true) "/foo/.well-known/issuer.jwks"
            (start (foo_k1 Approved))) = [(200, JwksBody ["k1"])].
Proof. reflexivity. Qed.

End RegistrySpec.

(** ** The line scanner of the authfile *)

Module XrootdSpec.
Import Go Xrootd GoSpec.

Lemma drop_bytes_append (a b : string) : drop_bytes (String.length a) (a +:+ b) = b.
Proof.
  unfold drop_bytes. rewrite length_append.
  replace (String.length a + String.length b - String.length a)%nat
    with (String.length b) by lia.
  apply substring_append_r.
Qed.

Lemma drop_bytes_length (n : nat) (s : string) :
  (n <= String.length s)%nat ->
  String.length (drop_bytes n s) = (String.length s - n)%nat.
Proof.
  unfold drop_bytes. revert n. induction s as [| c s IH]; intros n Hn; simpl in *.
  - destruct n; reflexivity.
  - destruct n as [| n]; simpl.
    + f_equal. specialize (IH 0%nat ltac:(lia)). rewrite Nat.sub_0_r in IH. exact IH.
    + apply IH. lia.
Qed.

Lemma append_cons (c : ascii) (a b : string) : String c a +:+ b = String c (a +:+ b).
Proof. reflexivity. Qed.

Lemma append_nil_l (b : string) : "" +:+ b = b.
Proof. reflexivity. Qed.

Ltac sapp := rewrite ?append_cons, ?append_nil_l; simpl.

Lemma append_assoc (a b c : string) : (a +:+ b) +:+ c = a +:+ (b +:+ c).
Proof. induction a as [| x a IH]; sapp; [reflexivity | now rewrite IH]. Qed.

Lemma append_nil_r (a : string) : a +:+ "" = a.
Proof. induction a as [| x a IH]; sapp; [reflexivity | now rewrite IH]. Qed.

Lemma plain_append (a b : string) : plain (a +:+ b) = plain a && plain b.
Proof.
  induction a as [| c a IH]; sapp; [reflexivity |].
  rewrite IH. now rewrite andb_assoc.
Qed.

Lemma firstControl_None (s : string) : firstControl s = None <-> plain s = true.
Proof.
  induction s as [| c s IH]; simpl; [tauto |].
  destruct (Ascii.eqb c backslash || Ascii.eqb c LF); simpl.
  - split; discriminate.
  - destruct (firstControl s); simpl.
    + split; [discriminate |]. intros H. apply IH in H. discriminate.
    + split; [intros _; now apply IH | reflexivity].
Qed.

(** Where the first control byte is: everything before it is plain. *)
Lemma firstControl_Some (s : string) (i : nat) :
  firstControl s = Some i ->
  (i < String.length s)%nat /\
  plain (substring 0 i s) = true /\
  exists c, String.get i s = Some c /\ (Ascii.eqb c backslash || Ascii.eqb c LF = true).
Proof.
  revert i. induction s as [| c s IH]; intros i; simpl; [discriminate |].
  destruct (Ascii.eqb c backslash || Ascii.eqb c LF) eqn:Hc; simpl.
  - intros H; inversion H; subst. simpl. repeat split; [lia |]. exists c. auto.
  - destruct (firstControl s) as [j |]; simpl; [| discriminate].
    intros H; inversion H; subst. destruct (IH j eq_refl) as (Hl & Hp & c' & Hg & Hc').
    simpl. rewrite Hc, Hp. repeat split; [lia |]. exists c'. auto.
Qed.

Lemma firstControl_at (a : string) (c : ascii) (rest : string) :
  plain a = true ->
  Ascii.eqb c backslash || Ascii.eqb c LF = true ->
  firstControl (a +:+ String c rest) = Some (String.length a).
Proof.
  intros Ha Hc. induction a as [| x a IH]; sapp; simpl in Ha.
  - now rewrite Hc.
  - apply andb_true_iff in Ha as [Hx Ha]. apply negb_true_iff in Hx.
    rewrite Hx. rewrite (IH Ha). reflexivity.
Qed.

Lemma get_append_at (a : string) (c : ascii) (rest : string) :
  String.get (String.length a) (a +:+ String c rest) = Some c.
Proof. induction a as [| x a IH]; sapp; [reflexivity | exact IH]. Qed.

Lemma skipContinuation_bounds (rest : string) (idx j : nat) :
  skipContinuation rest idx = inl j ->
  (idx <= j <= idx + String.length rest)%nat.
Proof.
  revert idx. induction rest as [| c rest IH]; intros idx; simpl.
  - intros H; inversion H; lia.
  - destruct (Ascii.eqb c LF); [intros H; inversion H; lia |].
    destruct (IsSpace c); [| discriminate].
    intros H. apply IH in H. lia.
Qed.

Lemma skipContinuation_blanks (ws rest : string) (idx : nat) :
  blanks ws = true ->
  skipContinuation (ws +:+ rest) idx = skipContinuation rest (idx + String.length ws).
Proof.
  revert idx. induction ws as [| c ws IH]; intros idx Hb; sapp; simpl in Hb.
  - now rewrite Nat.add_0_r.
  - apply andb_true_iff in Hb as [Hc Hb]. apply andb_true_iff in Hc as [Hn Hs].
    apply negb_true_iff in Hn. rewrite Hn, Hs, (IH _ Hb). f_equal. lia.
Qed.

Lemma plain_substring (s : string) (n m : nat) :
  plain s = true -> plain (substring n m s) = true.
Proof.
  revert n m. induction s as [| c s IH]; intros n m Hp; simpl in *.
  - destruct n, m; reflexivity.
  - apply andb_true_iff in Hp as [Hc Hp].
    destruct n as [| n]; [destruct m as [| m]; simpl; [reflexivity |] | now apply IH].
    rewrite Hc. now apply IH.
Qed.

Lemma plain_append_bytes (token : bytes) (xs : string) :
  plain (content token) = true -> plain xs = true ->
  plain (content (append_bytes token xs)) = true.
Proof.
  intros Ht Hx. destruct xs as [| c xs]; [exact Ht |].
  unfold append_bytes, content in *. simpl. rewrite plain_append, Ht. exact Hx.
Qed.

Lemma plain_dropCR (data : bytes) :
  plain (content data) = true -> plain (content (dropCR data)) = true.
Proof.
  destruct data as [s |]; simpl; [| auto].
  intros Hp. destruct (last_byte s) as [c |]; [| exact Hp].
  destruct (Ascii.eqb c CR); [| exact Hp]. simpl. now apply plain_substring.
Qed.

(** The loop with enough fuel: it ends, stays within the data, moves on at
    end of input, hands back nothing on an error, and keeps the token free
    of backslashes and newlines. *)
Lemma scanLoop_spec (fuel : nat) (atEOF : bool) (curData : string) (token : bytes)
    (advance : nat) :
  (String.length curData < fuel)%nat ->
  plain (content token) = true ->
  exists adv tok err,
    scanLoop fuel atEOF curData token advance = Some (adv, tok, err) /\
    plain (content tok) = true /\
    (err <> None -> adv = 0%nat /\ tok = None) /\
    (err = None -> (adv <= advance + String.length curData)%nat) /\
    (err = None -> atEOF = true ->
       (advance <= adv)%nat /\ (curData <> "" -> (advance + 1 <= adv)%nat)).
Proof.
  revert curData token advance.
  induction fuel as [| fuel IH]; intros curData token advance Hf Ht; [lia |].
  simpl. destruct (firstControl curData) as [i |] eqn:Hfc.
  - destruct (firstControl_Some _ _ Hfc) as (Hi & Hpre & c & Hg & Hc).
    rewrite Hg. destruct (Ascii.eqb c backslash) eqn:Hb.
    + destruct (skipContinuation (drop_bytes (i + 1) curData) (i + 1)) as [idx | bad] eqn:Hsk.
      * apply skipContinuation_bounds in Hsk.
        rewrite drop_bytes_length in Hsk by lia.
        assert (Hlen : String.length (drop_bytes idx curData) =
                       (String.length curData - idx)%nat)
          by (apply drop_bytes_length; lia).
        destruct (IH (drop_bytes idx curData)
                     (append_bytes token (substring 0 i curData)) (advance + idx)%nat)
          as (adv & tok & err & Hr & Hp & He & Hle & Hge);
          [lia | now apply plain_append_bytes |].
        exists adv, tok, err. rewrite Hr.
        split; [reflexivity |]. split; [exact Hp |]. split; [exact He |]. split.
        -- intros Hn. specialize (Hle Hn). lia.
        -- intros Hn Heof. destruct (Hge Hn Heof) as [Hge1 _]. split; [lia |].
           intros _. lia.
      * eexists _, _, _. split; [reflexivity |]. repeat split; auto; try congruence.
    + eexists _, _, _. split; [reflexivity |]. repeat split; try congruence; try lia.
      apply plain_dropCR. now apply plain_append_bytes.
  - apply firstControl_None in Hfc. destruct atEOF.
    + eexists _, _, _. split; [reflexivity |]. repeat split; try congruence; try lia.
      * now apply plain_append_bytes.
      * intros Hne. destruct curData; [contradiction | simpl; lia].
    + eexists _, _, _. split; [reflexivity |]. repeat split; try congruence; try lia.
Qed.

Lemma length_append_cons (a : string) (c : ascii) (rest : string) :
  String.length (a +:+ String c rest) = S (String.length a + String.length rest).
Proof. rewrite length_append. simpl. lia. Qed.

(** One round on a line that ends here. *)
Lemma scanLoop_line (fuel : nat) (atEOF : bool) (line rest : string) (token : bytes)
    (advance : nat) :
  plain line = true ->
  scanLoop (S fuel) atEOF (line +:+ String LF rest) token advance =
    Some ((advance + String.length line + 1)%nat,
          dropCR (append_bytes token line), None).
Proof.
  intros Hp. simpl.
  rewrite (firstControl_at line LF rest Hp) by reflexivity.
  rewrite get_append_at. simpl. rewrite substring_append_l. reflexivity.
Qed.

(** One round on a line continuation. *)
Lemma scanLoop_continuation (fuel : nat) (atEOF : bool) (a ws rest : string)
    (token : bytes) (advance : nat) :
  plain a = true -> blanks ws = true ->
  scanLoop (S fuel) atEOF (a +:+ String backslash (ws +:+ String LF rest)) token advance =
    scanLoop fuel atEOF rest (append_bytes token a)
      (advance + (String.length a + 1 + String.length ws + 1))%nat.
Proof.
  intros Ha Hw. simpl.
  rewrite (firstControl_at a backslash _ Ha) by reflexivity.
  rewrite get_append_at. simpl. rewrite substring_append_l.
  replace (drop_bytes (String.length a + 1) (a +:+ String backslash (ws +:+ String LF rest)))
    with (ws +:+ String LF rest).
  2: { replace (a +:+ String backslash (ws +:+ String LF rest))
         with ((a +:+ String backslash "") +:+ (ws +:+ String LF rest))
         by (rewrite append_assoc; reflexivity).
       replace (String.length a + 1)%nat with (String.length (a +:+ String backslash ""))
         by (rewrite length_append; reflexivity).
       now rewrite drop_bytes_append. }
  rewrite (skipContinuation_blanks ws _ _ Hw). simpl.
  replace (drop_bytes (String.length a + 1 + String.length ws + 1)
             (a +:+ String backslash (ws +:+ String LF rest)))
    with rest; [reflexivity |].
  replace (a +:+ String backslash (ws +:+ String LF rest))
    with ((a +:+ String backslash (ws +:+ String LF "")) +:+ rest).
  2: { rewrite append_assoc. rewrite append_cons. rewrite append_assoc. reflexivity. }
  replace (String.length a + 1 + String.length ws + 1)%nat
    with (String.length (a +:+ String backslash (ws +:+ String LF ""))).
  2: { rewrite length_append_cons, length_append_cons. simpl. lia. }
  now rewrite drop_bytes_append.
Qed.

(** X1: the contract with bufio.Scanner. The scan always ends; without an
    error it never advances beyond the data it was given; with an error it
    hands back neither bytes nor a token; and at the end of the input it
    consumes at least one byte of non-empty data. *)
Theorem ScanLinesWithCont_contract (data : string) (atEOF : bool) :
  exists adv tok err,
    ScanLinesWithCont data atEOF = Some (adv, tok, err) /\
    (err = None -> (adv <= String.length data)%nat) /\
    (err <> None -> adv = 0%nat /\ tok = None) /\
    (err = None -> atEOF = true -> data <> "" -> (1 <= adv)%nat).
Proof.
  unfold ScanLinesWithCont.
  destruct (atEOF && (String.length data =? 0)%nat) eqn:Hz.
  - apply andb_true_iff in Hz as [-> Hl]. apply Nat.eqb_eq in Hl.
    exists 0%nat, None, None. repeat split; try lia; try congruence.
    intros _ _ Hne. destruct data; [contradiction | discriminate].
  - destruct (scanLoop_spec (S (String.length data)) atEOF data None 0)
      as (adv & tok & err & Hr & _ & He & Hle & Hge); [lia | reflexivity |].
    exists adv, tok, err. split; [exact Hr |]. repeat split; auto.
    + apply He; assumption.
    + apply He; assumption.
    + intros Hn Heof Hne. destruct (Hge Hn Heof) as [_ H1]. specialize (H1 Hne). lia.
Qed.

(** X2: a token never contains a backslash or a newline. *)
Theorem ScanLinesWithCont_token_plain (data : string) (atEOF : bool)
    (adv : nat) (t : string) (err : option error) :
  ScanLinesWithCont data atEOF = Some (adv, Some t, err) ->
  plain t = true.
Proof.
  unfold ScanLinesWithCont.
  destruct (atEOF && (String.length data =? 0)%nat); [discriminate |].
  destruct (scanLoop_spec (S (String.length data)) atEOF data None 0)
    as (adv' & tok & err' & Hr & Hp & _); [lia | reflexivity |].
  rewrite Hr. intros H. inversion H; subst. exact Hp.
Qed.

Lemma nonempty_data (atEOF : bool) (a : string) (c : ascii) (rest : string) :
  atEOF && (String.length (a +:+ String c rest) =? 0)%nat = false.
Proof. rewrite length_append_cons. simpl. apply andb_false_r. Qed.

(** X3: a line without continuation, ended by a newline, is one token: the
    line without its trailing carriage return, a nil token when the line is
    empty; the newline is consumed with it. This does not depend on
    [atEOF]. *)
Theorem ScanLinesWithCont_line (line rest : string) (atEOF : bool) :
  plain line = true ->
  ScanLinesWithCont (line +:+ String LF rest) atEOF =
    Some ((String.length line + 1)%nat, dropCR (append_bytes None line), None).
Proof.
  intros Hp. unfold ScanLinesWithCont. rewrite nonempty_data.
  now rewrite scanLoop_line.
Qed.

(** X4: data without any newline or backslash. Before the end of the input
    the scanner asks for more; at the end the rest is the last token, as it
    is (a trailing carriage return stays). *)
Theorem ScanLinesWithCont_unterminated (data : string) :
  plain data = true ->
  ScanLinesWithCont data false = Some (0%nat, None, None) /\
  (data <> "" ->
   ScanLinesWithCont data true = Some (String.length data, Some data, None)).
Proof.
  intros Hp. apply firstControl_None in Hp. unfold ScanLinesWithCont. split.
  - cbn [andb scanLoop]. rewrite Hp. reflexivity.
  - intros Hne.
    assert (Hl : (String.length data =? 0)%nat = false)
      by (destruct data; [contradiction | reflexivity]).
    rewrite Hl. cbn [andb scanLoop]. rewrite Hp.
    destruct data as [| c data]; [contradiction | reflexivity].
Qed.

(** X5: a continuation joins two lines. With [a] and [b] free of control
    bytes and only blanks between the backslash and its newline, the token
    is [a] followed by [b] (less a trailing carriage return) and both lines
    are consumed. *)
Theorem ScanLinesWithCont_continuation (a ws b rest : string) (atEOF : bool) :
  plain a = true -> blanks ws = true -> plain b = true ->
  ScanLinesWithCont
    (a +:+ String backslash (ws +:+ String LF (b +:+ String LF rest))) atEOF =
    Some ((String.length a + 1 + String.length ws + 1 + String.length b + 1)%nat,
          dropCR (append_bytes (append_bytes None a) b), None).
Proof.
  intros Ha Hw Hb. unfold ScanLinesWithCont. rewrite nonempty_data.
  rewrite scanLoop_continuation by assumption.
  rewrite length_append_cons. rewrite scanLoop_line by assumption.
  reflexivity.
Qed.

(** X6: anything but white space between a backslash and the end of its
    line is an error, and the scan yields nothing. *)
Theorem ScanLinesWithCont_bad_continuation (a ws rest : string) (c : ascii)
    (atEOF : bool) :
  plain a = true -> blanks ws = true -> IsSpace c = false ->
  ScanLinesWithCont (a +:+ String backslash (ws +:+ String c rest)) atEOF =
    Some (0%nat, None,
          Some (errors_Errorf "invalid character after line continuation: %s"
                  [ArgStr (string_of_byte c)])).
Proof.
  intros Ha Hw Hc. unfold ScanLinesWithCont. rewrite nonempty_data. simpl.
  rewrite (firstControl_at a backslash _ Ha) by reflexivity.
  rewrite get_append_at. simpl.
  replace (drop_bytes (String.length a + 1) (a +:+ String backslash (ws +:+ String c rest)))
    with (ws +:+ String c rest).
  2: { replace (a +:+ String backslash (ws +:+ String c rest))
         with ((a +:+ String backslash "") +:+ (ws +:+ String c rest))
         by (rewrite append_assoc; reflexivity).
       replace (String.length a + 1)%nat with (String.length (a +:+ String backslash ""))
         by (rewrite length_append; reflexivity).
       now rewrite drop_bytes_append. }
  rewrite (skipContinuation_blanks ws _ _ Hw). simpl.
  assert (Hn : Ascii.eqb c LF = false).
  { destruct (Ascii.eqb c LF) eqn:He; [| reflexivity].
    apply Ascii.eqb_eq in He. subst c. discriminate Hc. }
  rewrite Hn, Hc. reflexivity.
Qed.

(** *** The scanner on sample lines *)

(** Two lines of an authfile joined by a continuation. *)
Lemma ScanLinesWithCont_token_plain_witness :
  ScanLinesWithCont ("u * /a lr " +:+ String backslash (String LF ("/b lr" +:+ String LF "")))
    true = Some (18%nat, Some "u * /a lr /b lr", None) /\
  plain "u * /a lr /b lr" = true.
Proof.
  assert (H : ScanLinesWithCont
                ("u * /a lr " +:+ String backslash (String LF ("/b lr" +:+ String LF "")))
                true = Some (18%nat, Some "u * /a lr /b lr", None))
    by (vm_compute; reflexivity).
  split; [exact H | exact (ScanLinesWithCont_token_plain _ _ _ _ _ H)].
Defined.

Lemma ScanLinesWithCont_line_witness :
  plain "u * /a lr" = true /\
  ScanLinesWithCont ("u * /a lr" +:+ String LF "g b /c r") false =
    Some ((String.length "u * /a lr" + 1)%nat, dropCR (append_bytes None "u * /a lr"), None).
Proof.
  split; [reflexivity |].
  apply (ScanLinesWithCont_line "u * /a lr" "g b /c r" false). reflexivity.
Defined.

Lemma ScanLinesWithCont_unterminated_witness :
  plain "u * /a lr" = true /\
  ScanLinesWithCont "u * /a lr" false = Some (0%nat, None, None) /\
  ("u * /a lr" <> "" ->
   ScanLinesWithCont "u * /a lr" true =
     Some (String.length "u * /a lr", Some "u * /a lr", None)).
Proof.
  split; [reflexivity |].
  apply (ScanLinesWithCont_unterminated "u * /a lr"). reflexivity.
Defined.

Lemma ScanLinesWithCont_continuation_witness :
  plain "u * /a lr " = true /\ blanks "  " = true /\ plain "/b lr" = true /\
  ScanLinesWithCont
    ("u * /a lr " +:+ String backslash ("  " +:+ String LF ("/b lr" +:+ String LF "g b /c r")))
    false =
    Some ((String.length "u * /a lr " + 1 + String.length "  " + 1 +
           String.length "/b lr" + 1)%nat,
          dropCR (append_bytes (append_bytes None "u * /a lr ") "/b lr"), None).
Proof.
  split; [reflexivity |]. split; [reflexivity |]. split; [reflexivity |].
  apply (ScanLinesWithCont_continuation "u * /a lr " "  " "/b lr" "g b /c r" false);
    reflexivity.
Defined.

Lemma ScanLinesWithCont_bad_continuation_witness :
  plain "u * /a lr " = true /\ blanks " " = true /\ IsSpace "x" = false /\
  ScanLinesWithCont
    ("u * /a lr " +:+ String backslash (" " +:+ String "x" (String LF "/b lr"))) true =
    Some (0%nat, None,
          Some (errors_Errorf "invalid character after line continuation: %s"
                  [ArgStr (string_of_byte "x")])).
Proof.
  split; [reflexivity |]. split; [reflexivity |]. split; [reflexivity |].
  apply (ScanLinesWithCont_bad_continuation "u * /a lr " " " (String LF "/b lr") "x" true);
    reflexivity.
Defined.

End XrootdSpec.

(** ** More on the registry handlers *)

Module RegistryMore.
Import Go Registry RegistryKeys RegistrySamples GoSpec.

Lemma Split_on_space_free (s : string) :
  Forall (fun item => space_free item = true) (Split_on " " s).
Proof.
  induction s as [| c s IH]; simpl.
  - constructor; [reflexivity | constructor].
  - destruct (Ascii.eqb c " ") eqn:Hc.
    + constructor; [reflexivity | exact IH].
    + destruct (Split_on " " s) as [| piece pieces].
      * constructor; [| constructor]. unfold space_free. simpl. now rewrite Hc.
      * inversion IH as [| ? ? Hp Hps]; subst. constructor; [| exact Hps].
        unfold space_free in *. simpl. now rewrite Hc, Hp.
Qed.

Lemma Split_on_nonempty (sep : ascii) (s : string) : Split_on sep s <> [].
Proof.
  destruct s as [| c s]; simpl; [discriminate |].
  destruct (Ascii.eqb c sep); [discriminate |].
  destruct (Split_on sep s); discriminate.
Qed.

Lemma concat_cons_cons (sep x y : string) (ys : list string) :
  String.concat sep (x :: y :: ys) = x +:+ sep +:+ String.concat sep (y :: ys).
Proof. reflexivity. Qed.

(** Joining the pieces with the separator gives the string back. *)
Lemma concat_Split_on (s : string) : String.concat " " (Split_on " " s) = s.
Proof.
  induction s as [| c s IH]; [reflexivity |].
  cbn [Split_on]. destruct (Ascii.eqb c " ") eqn:Hc.
  - apply Ascii.eqb_eq in Hc. subst c.
    destruct (Split_on " " s) as [| p ps] eqn:Hs; [now apply Split_on_nonempty in Hs |].
    rewrite concat_cons_cons, IH. reflexivity.
  - destruct (Split_on " " s) as [| p ps] eqn:Hs; [now apply Split_on_nonempty in Hs |].
    destruct ps as [| q qs].
    + simpl in *. now rewrite IH.
    + rewrite concat_cons_cons in *. rewrite XrootdSpec.append_cons, IH. reflexivity.
Qed.

Lemma Split_on_piece (x t : string) :
  space_free x = true ->
  Split_on " " (x +:+ String " " t) = x :: Split_on " " t.
Proof.
  induction x as [| c x IH]; intros Hx.
  - rewrite XrootdSpec.append_nil_l. reflexivity.
  - unfold space_free in Hx. simpl in Hx. apply andb_true_iff in Hx as [Hc Hx].
    apply negb_true_iff in Hc. rewrite XrootdSpec.append_cons. cbn [Split_on]. rewrite Hc.
    rewrite (IH Hx). reflexivity.
Qed.

Lemma Split_on_last (x : string) : space_free x = true -> Split_on " " x = [x].
Proof.
  induction x as [| c x IH]; intros Hx; [reflexivity |].
  unfold space_free in Hx. simpl in Hx. apply andb_true_iff in Hx as [Hc Hx].
  apply negb_true_iff in Hc. cbn [Split_on]. rewrite Hc, (IH Hx). reflexivity.
Qed.

(** Splitting a join of space-free items gives the items back. *)
Lemma Split_on_concat (items : list string) :
  items <> [] -> Forall (fun item => space_free item = true) items ->
  Split_on " " (String.concat " " items) = items.
Proof.
  induction items as [| x xs IH]; [contradiction |]. intros _ Hall.
  inversion Hall as [| ? ? Hx Hxs]; subst.
  destruct xs as [| y ys]; [exact (Split_on_last x Hx) |].
  rewrite concat_cons_cons.
  change (x +:+ " " +:+ String.concat " " (y :: ys))
    with (x +:+ String " " (String.concat " " (y :: ys))).
  rewrite (Split_on_piece _ _ Hx), IH; [reflexivity | discriminate | exact Hxs].
Qed.

Section Facts.
Context {DB World : Type} (E : Env DB World).

Ltac monad := unfold bind, ret, JSON, serverError, readDB, writeDB, inWorld, readWorld, panic.

(** The challenge is what the registration handler runs once the request
    has reached it. *)
Lemma to_challenge bound st data st0 :
  reaches_challenge E bound st data st0 ->
  cliRegisterNamespace E bound st = runChallenge E data st0 /\ db st0 = db st.
Proof.
  intros (reqData & -> & [(Ha & Hi & -> & ->)
                         | (Ha & oidc & w1 & resp & body & Ho & Hp & Hs & Hb & -> & ->)]).
  - split; [| reflexivity]. unfold cliRegisterNamespace, nonempty.
    rewrite Ha. simpl. destruct Hi as [Hi | Hi]; rewrite Hi; reflexivity.
  - split; [| reflexivity]. unfold cliRegisterNamespace, nonempty.
    apply String.eqb_neq in Ha. rewrite Ha, Ho. simpl.
    unfold bind at 1. unfold inWorld. rewrite Hp, Hs, Hb. simpl.
    destruct (runChallenge E (set_Identity reqData body) _) as [[o s2] w2].
    reflexivity.
Qed.

Lemma loadServerKeys_result s priv :
  result_of (loadServerKeys E s) = Returned (Ok priv) ->
  exists s1, loadServerKeys E s = (Returned (Ok priv), s1, []) /\ db s1 = db s.
Proof.
  unfold result_of, loadServerKeys. destruct (serverCreds s) as [r |].
  - simpl. intros H; inversion H; subst. exists s. auto.
  - destruct (config_LoadPrivateKey E (IssuerKey E) (world s)) as [r w] eqn:Hl.
    simpl. intros H; inversion H; subst. eexists. split; reflexivity.
Qed.

(** How far a verified commit for an unregistered prefix gets before the
    prefix is validated. *)
Lemma commit_to_validation data s :
  verified_commit E data s ->
  namespaceExists E (rd_Prefix data) (db s) = Ok false ->
  exists key s1,
    validateJwks E (rd_Pubkey data) = Ok key /\ db s1 = db s /\
    keySignChallengeCommit E data "register" s =
      (let '(reqPrefix, verr) := validatePrefix E (rd_Prefix data) in
       match verr with
       | Some err =>
           ret (Some (errors_Wrapf err "Requested namespace %s failed validation"
                        [ArgStr reqPrefix]))
       | None =>
           bind (readDB (validateKeyChaining E reqPrefix key))
             (fun r =>
                match r with
                | (Some valErr, _) => bind (JSON 403 (HErr "" valErr))
                                        (fun _ => ret (Some valErr))
                | (None, Some sysErr) => bind (JSON 500 (HErr "" sysErr))
                                           (fun _ => ret (Some sysErr))
                | (None, None) =>
                    bind (addNamespaceHandler E (set_Prefix data reqPrefix))
                      (fun err =>
                         match err with
                         | Some err =>
                             bind (JSON 500 (H [("error",
                               "The server encountered an error while attempting to add the prefix to its database")]))
                               (fun _ => ret (Some (errors_Wrapf err
                                          "Failed while trying to add to database" [])))
                         | None => ret None
                         end)
                end)
       end) s1.
Proof.
  intros [_ (key & pub & csig & spay & ssig & priv & Hj & Hr & Hc & Hp & Hs & Hl & Hv1 & Hv2)]
         Hex.
  destruct (loadServerKeys_result _ _ Hl) as (s1 & Hl' & Hdb).
  exists key, s1. split; [exact Hj |]. split; [exact Hdb |].
  unfold keySignChallengeCommit. rewrite Hj, Hr, Hc, Hp, Hs.
  unfold bind at 1. rewrite Hl'. rewrite Hv1, Hv2. simpl.
  unfold bind at 1. unfold readDB at 1. rewrite Hdb, Hex. simpl.
  destruct (validatePrefix E (rd_Prefix data)) as [reqPrefix [verr |]].
  - reflexivity.
  - destruct (bind (readDB (validateKeyChaining E reqPrefix key)) _ s1) as [[o s2] w2].
    reflexivity.
Qed.

Lemma complete_commit_nonempty data :
  complete_commit data ->
  nonempty (ClientNonce data) && nonempty (ClientPayload data) &&
  nonempty (ClientSignature data) && nonempty (ServerNonce data) &&
  nonempty (ServerPayload data) && nonempty (ServerSignature data) = true.
Proof.
  intros (H1 & H2 & H3 & H4 & H5 & H6). unfold nonempty.
  apply String.eqb_neq in H1, H2, H3, H4, H5, H6.
  now rewrite H1, H2, H3, H4, H5, H6.
Qed.

Lemma runChallenge_commit data s :
  complete_commit data ->
  runChallenge E data s =
    bind (bind (keySignChallengeCommit E data "register")
            (fun err => match err with
                        | Some err => ret (Some (errors_Wrap err "commit failed"))
                        | None => ret None
                        end))
         (fun err => match err with
                     | Some err =>
                         JSON 500 (HErr "server encountered an error during key-sign challenge: " err)
                     | None => ret tt
                     end) s.
Proof.
  intros Hc. unfold runChallenge, keySignChallenge.
  now rewrite (complete_commit_nonempty _ Hc).
Qed.

(** X7: registering a new prefix. A verified commit for a prefix that is not
    registered, that passes prefix validation and key chaining, is answered
    201, and the row added carries the validated prefix, the submitted key
    set, the request's identity and status Pending. *)
Theorem register_new_namespace bound st data st0 key p pk db' :
  reaches_challenge E bound st data st0 ->
  verified_commit E data st0 ->
  namespaceExists E (rd_Prefix data) (db st) = Ok false ->
  validateJwks E (rd_Pubkey data) = Ok key ->
  validatePrefix E (rd_Prefix data) = (p, None) ->
  validateKeyChaining E p key (db st) = (None, None) ->
  json_Marshal_RawMessage E (rd_Pubkey data) = Ok pk ->
  addNamespace E
    {| ID := 0; Prefix := p; Pubkey := pk; Identity := rd_Identity data;
       Admin_Metadata := {| UserID := ""; Description := ""; SiteName := "";
                            Institution := ""; Status := Pending |} |}
    (db st) = (None, db') ->
  let run := cliRegisterNamespace E bound st in
  writes run = [(201, H [("status", "success")])] /\
  db (final run) = db' /\
  result_of run = Returned tt.
Proof.
  intros Hreach Hv Hex Hj Hvp Hkc Hm Hadd. cbv zeta.
  destruct (to_challenge _ _ _ _ Hreach) as [-> Hdb0].
  rewrite <- Hdb0 in Hex, Hkc, Hadd.
  destruct (commit_to_validation _ _ Hv Hex) as (key' & s1 & Hj' & Hdb & Heq).
  assert (key' = key) by congruence. subst key'.
  assert (Hrun : exists sfin,
            runChallenge E data st0 = (Returned tt, sfin, [(201, H [("status", "success")])]) /\
            db sfin = db').
  { eexists. split.
    - rewrite (runChallenge_commit _ _ (proj1 Hv)). unfold bind.
      rewrite Heq, Hvp. unfold addNamespaceHandler. simpl. rewrite Hm.
      monad. rewrite Hdb, Hkc. simpl. rewrite Hdb, Hadd. simpl. reflexivity.
    - reflexivity. }
  destruct Hrun as (sfin & -> & Hfin). repeat split. exact Hfin.
Qed.

(** X8: key chaining. When the chaining check refuses the key, the answer is
    403 and the table stays as it was. *)
Theorem register_key_chaining_refused bound st data st0 key p valErr sysErr :
  reaches_challenge E bound st data st0 ->
  verified_commit E data st0 ->
  namespaceExists E (rd_Prefix data) (db st) = Ok false ->
  validateJwks E (rd_Pubkey data) = Ok key ->
  validatePrefix E (rd_Prefix data) = (p, None) ->
  validateKeyChaining E p key (db st) = (Some valErr, sysErr) ->
  let run := cliRegisterNamespace E bound st in
  status run = 403 /\
  db (final run) = db st /\
  result_of run = Returned tt.
Proof.
  intros Hreach Hv Hex Hj Hvp Hkc. cbv zeta.
  destruct (to_challenge _ _ _ _ Hreach) as [-> Hdb0].
  rewrite <- Hdb0 in *.
  destruct (commit_to_validation _ _ Hv Hex) as (key' & s1 & Hj' & Hdb & Heq).
  assert (key' = key) by congruence. subst key'.
  assert (Hrun : exists sfin ws,
            runChallenge E data st0 = (Returned tt, sfin, (403, HErr "" valErr) :: ws) /\
            db sfin = db st0).
  { eexists _, _. split.
    - rewrite (runChallenge_commit _ _ (proj1 Hv)). unfold bind.
      rewrite Heq, Hvp. monad. rewrite Hdb, Hkc. simpl. reflexivity.
    - exact Hdb. }
  destruct Hrun as (sfin & ws & -> & Hfin). repeat split. exact Hfin.
Qed.

(** X9: a complete commit whose client or server signature does not verify
    is answered 500 and changes nothing in the table. *)
Theorem register_unverified_refused bound st data st0 key pub csig spay ssig priv :
  reaches_challenge E bound st data st0 ->
  complete_commit data ->
  validateJwks E (rd_Pubkey data) = Ok key ->
  key_Raw E key = Ok (ECDSAPublicKey pub) ->
  DecodeString (ClientSignature data) = Ok csig ->
  DecodeString (ServerPayload data) = Ok spay ->
  DecodeString (ServerSignature data) = Ok ssig ->
  result_of (loadServerKeys E st0) = Returned (Ok priv) ->
  verifySignature E (ClientNonce data +:+ ServerNonce data) csig pub &&
  verifySignature E spay ssig (PublicKey_of E priv) = false ->
  let run := cliRegisterNamespace E bound st in
  status run = 500 /\
  db (final run) = db st /\
  result_of run = Returned tt.
Proof.
  intros Hreach Hc Hj Hr Hcs Hsp Hss Hl Hver. cbv zeta.
  destruct (to_challenge _ _ _ _ Hreach) as [-> Hdb0].
  destruct (loadServerKeys_result _ _ Hl) as (s1 & Hl' & Hdb).
  assert (Hrun : exists sfin b ws,
            runChallenge E data st0 = (Returned tt, sfin, (500, b) :: ws) /\
            db sfin = db st0).
  { eexists _, _, _. split.
    - rewrite (runChallenge_commit _ _ Hc). unfold keySignChallengeCommit.
      rewrite Hj, Hr, Hcs, Hsp, Hss. unfold bind. rewrite Hl', Hver.
      monad. simpl. reflexivity.
    - exact Hdb. }
  destruct Hrun as (sfin & b & ws & -> & Hfin). repeat split.
  unfold final; simpl. congruence.
Qed.

(** X10: a commit whose key is not an ECDSA public key makes the handler
    panic, once the client signature has decoded: nothing is written and
    the table is not touched. *)
Theorem register_non_ecdsa_panics bound st data st0 key csig :
  reaches_challenge E bound st data st0 ->
  complete_commit data ->
  validateJwks E (rd_Pubkey data) = Ok key ->
  key_Raw E key = Ok OtherKey ->
  DecodeString (ClientSignature data) = Ok csig ->
  let run := cliRegisterNamespace E bound st in
  result_of run = Panicked "interface conversion: interface {} is not *ecdsa.PublicKey" /\
  writes run = [] /\
  final run = st0.
Proof.
  intros Hreach Hc Hj Hr Hcs. cbv zeta.
  destruct (to_challenge _ _ _ _ Hreach) as [-> Hdb0].
  rewrite (runChallenge_commit _ _ Hc). unfold keySignChallengeCommit.
  rewrite Hj, Hr, Hcs. monad. simpl. repeat split.
Qed.

Lemma scopeValidator_accepts tok scope :
  tok_scope tok = ScopeString scope ->
  In Pelican_NamespaceDelete (Split_on " " scope) ->
  scopeValidator tok = None.
Proof.
  intros Hs Hin. unfold scopeValidator. rewrite Hs.
  replace (existsb _ _) with true; [reflexivity |].
  symmetry. apply existsb_exists. exists Pelican_NamespaceDelete.
  split; [exact Hin | apply String.eqb_refl].
Qed.

(** X11: the scope check of a delete token. It passes exactly when the
    scope claim is a string that reads as items without spaces, joined by
    single spaces, one of them pelican.namespace_delete. A missing or
    non-string claim, or the name inside a longer item, does not pass. *)
Theorem scopeValidator_passes_iff tok :
  scopeValidator tok = None <->
  exists before after,
    tok_scope tok =
      ScopeString (String.concat " " (before ++ "pelican.namespace_delete" :: after)) /\
    Forall (fun item => space_free item = true) (before ++ after).
Proof.
  split.
  - unfold scopeValidator. destruct (tok_scope tok) as [| | scope]; try discriminate.
    destruct (existsb _ _) eqn:Hx; [| discriminate]. intros _.
    apply existsb_exists in Hx as (x & Hin & Heq). apply String.eqb_eq in Heq. subst x.
    apply in_split in Hin as (before & after & Hsplit).
    exists before, after. split.
    + rewrite <- (concat_Split_on scope) at 1. rewrite Hsplit. reflexivity.
    + pose proof (Split_on_space_free scope) as Hall. rewrite Hsplit in Hall.
      apply Forall_app in Hall as [Hb Ha]. inversion Ha; subst.
      apply Forall_app. split; assumption.
  - intros (before & after & Hs & Hall).
    apply (scopeValidator_accepts tok _ Hs).
    rewrite Split_on_concat.
    + apply in_elt.
    + destruct before; discriminate.
    + apply Forall_app in Hall as [Hb Ha]. apply Forall_app. split; [exact Hb |].
      constructor; [reflexivity | exact Ha].
Qed.

(** X12: an authorized delete of a registered prefix calls [deleteNamespace]
    once and answers 200 when that succeeds, 500 when it fails; the table
    afterwards is the one [deleteNamespace] left. *)
Theorem deleteNamespaceHandler_authorized prefix authHeader st derr db' :
  prefix <> "" ->
  namespaceExists E prefix (db st) = Ok true ->
  authorized E prefix authHeader st ->
  deleteNamespace E prefix (db st) = (derr, db') ->
  let run := deleteNamespaceHandler E prefix authHeader st in
  db (final run) = db' /\
  world (final run) = world st /\
  writes run =
    [match derr with
     | Some _ =>
         (500, H [("error",
                   "server encountered an error deleting namespace from database")])
     | None => (200, H [("status", "success")])
     end] /\
  result_of run = Returned tt.
Proof.
  intros Hp Hex (jwks & md & tok & scope & Hj & Ht & Hv & Hs & Hin) Hd. cbv zeta.
  pose proof (scopeValidator_accepts _ _ Hs Hin) as Hsv.
  apply String.eqb_neq in Hp.
  assert (Hrun :
            deleteNamespaceHandler E prefix authHeader st =
              (Returned tt, {| db := db'; serverCreds := serverCreds st; world := world st |},
               [match derr with
                | Some _ =>
                    (500, H [("error",
                              "server encountered an error deleting namespace from database")])
                | None => (200, H [("status", "success")])
                end])).
  { unfold deleteNamespaceHandler, jwt_Validate. rewrite Hp. monad.
    rewrite Hex. simpl. rewrite Hj, Ht. simpl. rewrite Hv, Hsv. simpl. rewrite Hd.
    destruct derr; simpl; reflexivity. }
  rewrite Hrun. repeat split.
Qed.

(** X13: a delete without a prefix, or for a prefix that is not registered,
    is answered 400 whatever token it carries. *)
Theorem deleteNamespaceHandler_unknown_400 prefix authHeader st :
  prefix = "" \/ namespaceExists E prefix (db st) = Ok false ->
  status (deleteNamespaceHandler E prefix authHeader st) = 400.
Proof.
  intros [-> | Hex]; [reflexivity |].
  unfold status, writes, deleteNamespaceHandler.
  destruct (String.eqb prefix ""); [reflexivity |].
  monad. rewrite Hex. simpl.
  destruct (getNamespaceJwksByPrefix E prefix (db st)) as [[jwks md] | e]; [| reflexivity].
  destruct (jwt_Parse E _ jwks) as [tok | e]; [| reflexivity].
  unfold jwt_Validate. monad.
  destruct (jwt_Validate_claims E tok (world st)); [reflexivity |]. simpl.
  destruct (scopeValidator tok); [reflexivity |]. simpl.
  destruct (deleteNamespace E prefix (db st)) as [[e |] d]; reflexivity.
Qed.

(** X14: the status check for caches and for legacy rows. For a prefix under
    /caches with admin metadata the answer follows the cache toggle alone:
    approved is (status = Approved) when cache approval is required and
    true otherwise. A row without admin metadata is always approved. *)
Theorem checkNamespaceStatus_cache_and_legacy prefix ns st :
  prefix <> "" ->
  getNamespaceByPrefix E prefix (db st) = Ok (Some ns) ->
  let run := checkNamespaceStatusHandler E (Ok {| csr_Prefix := prefix |}) st in
  (AdminMetadata_eqb (Admin_Metadata ns) emptyMetadata = true ->
   writes run = [(200, CheckStatusRes true)]) /\
  (AdminMetadata_eqb (Admin_Metadata ns) emptyMetadata = false ->
   HasPrefix prefix "/caches" = true ->
   writes run =
     [(200, CheckStatusRes
              (if Registry_RequireCacheApproval E
               then String.eqb (Status (Admin_Metadata ns)) Approved
               else true))]).
Proof.
  intros Hp Hn. cbv zeta. unfold checkNamespaceStatusHandler, writes. simpl.
  apply String.eqb_neq in Hp. rewrite Hp. monad. rewrite Hn. simpl. split.
  - intros ->. reflexivity.
  - intros -> ->. simpl. destruct (Registry_RequireCacheApproval E); reflexivity.
Qed.

Lemma substring_skip (a s : string) (n m : nat) :
  substring (String.length a + n) m (a +:+ s) = substring n m s.
Proof. induction a as [| c a IH]; [reflexivity | exact IH]. Qed.

(** A path ending in the openid-configuration suffix does not end in the
    key-set suffix. *)
Lemma openid_not_jwks (prefix : string) :
  HasSuffix (prefix +:+ "/.well-known/openid-configuration") "/.well-known/issuer.jwks"
  = false.
Proof.
  unfold HasSuffix. rewrite length_append.
  replace (String.length prefix + String.length "/.well-known/openid-configuration" -
           String.length "/.well-known/issuer.jwks")%nat
    with (String.length prefix + 9)%nat by (simpl; lia).
  rewrite substring_skip. apply andb_false_r.
Qed.

(** Case analysis from the inside out: only a scrutinee that holds no
    further case analysis is split. *)
Ltac cases :=
  repeat (simpl;
          match goal with
          | |- context [match ?x with _ => _ end] =>
              lazymatch x with
              | context [match _ with _ => _ end] => fail
              | _ => destruct x
              end
          end);
  simpl.

(** X15: the read-only handlers. Serving a GET under the registry prefix, or
    a namespace status check, returns normally and leaves the registry
    state (table, loaded key, world) exactly as it was; a path with
    neither well-known suffix is answered 404. *)
Theorem registry_queries_read_only :
  (forall path st,
     final (wildcardHandler E path st) = st /\
     result_of (wildcardHandler E path st) = Returned tt /\
     (HasSuffix path "/.well-known/issuer.jwks" = false ->
      HasSuffix path "/.well-known/openid-configuration" = false ->
      writes (wildcardHandler E path st) = [(404, Text "404 Page not found")])) /\
  (forall bound st,
     final (checkNamespaceStatusHandler E bound st) = st /\
     result_of (checkNamespaceStatusHandler E bound st) = Returned tt).
Proof.
  split.
  - intros path st. unfold final, result_of, writes, wildcardHandler. monad.
    repeat split.
    + cases; reflexivity.
    + cases; reflexivity.
    + intros -> ->. reflexivity.
  - intros bound st. unfold final, result_of, checkNamespaceStatusHandler. monad.
    split; cases; reflexivity.
Qed.

(** X16: the openid-configuration of a registered prefix advertises, as
    jwks_uri, the issuer.jwks route of the same prefix under this server's
    external URL; for a prefix that is not registered the status is 404. *)
Theorem wildcardHandler_openid_configuration prefix st :
  let run := wildcardHandler E (prefix +:+ "/.well-known/openid-configuration") st in
  (namespaceExists E prefix (db st) = Ok false -> status run = 404) /\
  (forall configUrl joined,
     namespaceExists E prefix (db st) = Ok true ->
     url_Parse E (Server_ExternalWebUrl E) = Ok configUrl ->
     url_JoinPath E "api" ["v1.0"; "registry"; prefix +:+ "/.well-known"; "issuer.jwks"] =
       Ok joined ->
     writes run = [(200, NamespaceConfig (url_String E configUrl joined))]).
Proof.
  cbv zeta. unfold status, writes, wildcardHandler.
  rewrite openid_not_jwks, HasSuffix_append, TrimSuffix_append.
  assert (Htrim : TrimSuffix (prefix +:+ "/.well-known/openid-configuration")
                    "/openid-configuration" = prefix +:+ "/.well-known").
  { change "/.well-known/openid-configuration"
      with ("/.well-known" +:+ "/openid-configuration").
    replace (prefix +:+ "/.well-known" +:+ "/openid-configuration")
      with ((prefix +:+ "/.well-known") +:+ "/openid-configuration").
    - apply TrimSuffix_append.
    - induction prefix as [| c q IH]; [reflexivity |].
      change (String c q +:+ "/.well-known" +:+ "/openid-configuration")
        with (String c (q +:+ "/.well-known" +:+ "/openid-configuration")).
      rewrite <- IH. reflexivity. }
  rewrite Htrim. monad. split.
  - intros ->. simpl. cases; reflexivity.
  - intros configUrl joined -> -> ->. reflexivity.
Qed.

(** X17: the server key is loaded at most once. After a first call, every
    later call gives the same answer, also a failure, without loading
    again: the state is not touched. *)
Theorem loadServerKeys_once st :
  let '(r, st1, ws) := loadServerKeys E st in
  ws = [] /\ db st1 = db st /\
  loadServerKeys E st1 = (r, st1, []).
Proof.
  unfold loadServerKeys. destruct (serverCreds st) as [r |] eqn:Hc.
  - rewrite Hc. repeat split.
  - destruct (config_LoadPrivateKey E (IssuerKey E) (world st)) as [r w]. simpl.
    repeat split.
Qed.

(** X18: a challenge init (client_nonce present, another challenge field
    missing) never touches the table and is answered 200 or 500. *)
Theorem challenge_init_outcome bound st data st0 :
  reaches_challenge E bound st data st0 ->
  ClientNonce data <> "" ->
  ClientPayload data = "" \/ ClientSignature data = "" \/ ServerNonce data = "" \/
  ServerPayload data = "" \/ ServerSignature data = "" ->
  let run := cliRegisterNamespace E bound st in
  db (final run) = db st /\
  (status run = 200 \/ status run = 500) /\
  result_of run = Returned tt.
Proof.
  intros Hreach Hn Hmiss. cbv zeta.
  destruct (to_challenge _ _ _ _ Hreach) as [-> Hdb0]. rewrite <- Hdb0.
  unfold runChallenge, keySignChallenge, nonempty.
  apply String.eqb_neq in Hn. rewrite Hn.
  replace (negb false && negb (ClientPayload data =? "")%string &&
           negb (ClientSignature data =? "")%string &&
           negb (ServerNonce data =? "")%string &&
           negb (ServerPayload data =? "")%string &&
           negb (ServerSignature data =? "")%string) with false.
  2: { destruct Hmiss as [-> | [-> | [-> | [-> | ->]]]]; simpl;
       rewrite ?andb_false_r; reflexivity. }
  simpl. unfold keySignChallengeInit, generateNonce, signPayload, loadServerKeys.
  unfold final, status, writes, result_of. monad.
  destruct (rand_Read E (world st0)) as [[fill | e] w1]; simpl; [| auto].
  destruct (serverCreds st0) as [[priv | e] |]; simpl; auto.
  - destruct (ecdsa_Sign E priv _ w1) as [[sig | e] w2]; simpl; auto.
  - destruct (config_LoadPrivateKey E (IssuerKey E) w1) as [[priv | e] w2]; simpl; auto.
    destruct (ecdsa_Sign E priv _ w2) as [[sig | e] w3]; simpl; auto.
Qed.

(** X19: identity required but no access token. The handler only talks to
    the identity provider: the table and the loaded server key are as
    before, and the answer is 200 or 500. *)
Theorem identity_flow_outcome reqData st :
  AccessToken reqData = "" ->
  IdentityRequired reqData <> "false" ->
  IdentityRequired reqData <> "" ->
  let run := cliRegisterNamespace E (Ok reqData) st in
  db (final run) = db st /\
  serverCreds (final run) = serverCreds st /\
  (status run = 200 \/ status run = 500) /\
  result_of run = Returned tt.
Proof.
  intros Ha H1 H2. cbv zeta. unfold cliRegisterNamespace, nonempty.
  rewrite Ha. apply String.eqb_neq in H1, H2. rewrite H1, H2. simpl.
  unfold final, status, writes, result_of. monad.
  destruct (ServerOIDCClient E) as [oidc | e]; simpl; [| auto].
  destruct (String.eqb (DeviceCode reqData) "").
  - destruct (client_PostForm E _ _ (world st)) as [[resp | e] w1]; simpl; [| auto].
    destruct (StatusCode resp =? 200); simpl; [| auto].
    destruct (RespBody resp); simpl; [| auto].
    destruct (json_Unmarshal_Response E a); simpl; auto.
  - destruct (client_PostForm E _ _ (world st)) as [[resp | e] w1]; simpl; [| auto].
    destruct (negb (StatusCode resp =? 200) && negb (StatusCode resp =? 400)); simpl; [auto |].
    destruct (RespBody resp); simpl; [| auto].
    destruct (json_Unmarshal_TokenResponse E a); simpl; [| auto].
    destruct (String.eqb (tr_AccessToken a0) ""); simpl; [| auto].
    destruct ((StatusCode resp =? 400) && String.eqb (tr_Error a0) "authorization_pending");
      simpl; auto.
Qed.

Lemma hexdigit_lower_hex (c : ascii) :
  is_lower_hex (hexdigit (N.shiftr (N_of_ascii c) 4)) = true /\
  is_lower_hex (hexdigit (N.land (N_of_ascii c) 15)) = true.
Proof. destruct c as [[] [] [] [] [] [] [] []]; vm_compute; split; reflexivity. Qed.

Lemma EncodeToString_lower_hex (s : string) :
  forallb is_lower_hex (list_ascii_of_string (EncodeToString s)) = true.
Proof.
  induction s as [| c s IH]; [reflexivity |].
  destruct (hexdigit_lower_hex c) as [Hhi Hlo].
  cbn [EncodeToString list_ascii_of_string forallb]. cbv zeta.
  now rewrite Hhi, Hlo, IH.
Qed.

(** X20: a nonce that [generateNonce] returns is 64 lower-case hex digits
    that decode to 32 bytes; producing it writes no response and leaves the
    table alone. *)
Theorem generateNonce_hex64 st n st1 ws :
  generateNonce E st = (Returned (Ok n), st1, ws) ->
  String.length n = 64%nat /\
  forallb is_lower_hex (list_ascii_of_string n) = true /\
  (exists raw, DecodeString n = Ok raw /\ String.length raw = 32%nat) /\
  ws = [] /\ db st1 = db st.
Proof.
  unfold generateNonce. monad.
  destruct (rand_Read E (world st)) as [[fill | e] w1]; cbv beta iota zeta;
    [| discriminate].
  remember (string_of_list_ascii (map fill (seq 0 32))) as raw eqn:Hraw.
  assert (Hlen : String.length raw = 32%nat)
    by (subst raw; rewrite length_string_of_list_ascii, length_map, length_seq; reflexivity).
  clear Hraw. intros Heq. injection Heq as <- <- <-.
  split; [| split; [| split; [| split; reflexivity]]].
  - rewrite EncodeToString_length, Hlen. reflexivity.
  - apply EncodeToString_lower_hex.
  - exists raw. split; [apply DecodeString_EncodeToString | exact Hlen].
Qed.

End Facts.

Section KeyFacts.
Context {DB World : Type} (E : Env DB World) (L : JwkLib).

Lemma matchKeyset_true k ns keys :
  matchKeyset L k ns keys = Ok true ->
  exists rk buf, In rk keys /\ json_Marshal_Key L rk = Ok buf /\
                 json_Marshal_Key L k = Ok buf.
Proof.
  induction keys as [| rk keys IH]; simpl; [discriminate |].
  destruct (json_Marshal_Key L rk) as [b1 |] eqn:H1; [| discriminate].
  destruct (json_Marshal_Key L k) as [b2 |] eqn:H2; [| discriminate].
  destruct (String.eqb b1 b2) eqn:Hb.
  - intros _. apply String.eqb_eq in Hb. subst. exists rk, b2. auto.
  - intros H. destruct (IH H) as (rk' & buf & Hin & Ha & Hb'). exists rk', buf. auto.
Qed.

Lemma matchKeyset_false k ns keys :
  matchKeyset L k ns keys = Ok false ->
  forall rk, In rk keys ->
    exists b1 b2, json_Marshal_Key L rk = Ok b1 /\ json_Marshal_Key L k = Ok b2 /\ b1 <> b2.
Proof.
  induction keys as [| rk keys IH]; simpl; [intros _ ? [] |].
  destruct (json_Marshal_Key L rk) as [b1 |] eqn:H1; [| discriminate].
  destruct (json_Marshal_Key L k) as [b2 |] eqn:H2; [| discriminate].
  destruct (String.eqb b1 b2) eqn:Hb; [discriminate |].
  intros H rk' [<- | Hin].
  - exists b1, b2. apply String.eqb_neq in Hb. auto.
  - now apply IH.
Qed.

Lemma matchKeysLoop_spec k nss found d b :
  matchKeysLoop E L k nss found d = Ok b ->
  (forall ns, In ns nss -> exists jwks md r,
     getNamespaceJwksByPrefix E ns d = Ok (jwks, md) /\ matchKeyset L k ns jwks = Ok r) /\
  (b = true ->
   found = true \/
   exists ns jwks md, In ns nss /\ getNamespaceJwksByPrefix E ns d = Ok (jwks, md) /\
                      matchKeyset L k ns jwks = Ok true) /\
  (b = false ->
   found = false /\
   forall ns jwks md, In ns nss -> getNamespaceJwksByPrefix E ns d = Ok (jwks, md) ->
                      matchKeyset L k ns jwks = Ok false).
Proof.
  revert found. induction nss as [| ns nss IH]; intros found; simpl.
  - intros H; inversion H; subst.
    split; [intros ? [] |]. split; [auto |]. intros ->. split; [reflexivity |].
    intros ? ? ? [].
  - destruct (getNamespaceJwksByPrefix E ns d) as [[jwks md] | e] eqn:Hl; [| discriminate].
    destruct (matchKeyset L k ns jwks) as [r | e] eqn:Hm; [| discriminate].
    intros H. destruct (IH _ H) as (Hall & Ht & Hf). repeat split.
    + intros ns' [<- | Hin]; [eauto | now apply Hall].
    + intros Hb. destruct (Ht Hb) as [Hfound | (ns' & j & m & Hin & Hl' & Hm')].
      * destruct r; [right; exists ns, jwks, md; auto | now left].
      * right. exists ns', j, m. auto.
    + apply Hf in H0 as [Hfound _]. destruct r; [discriminate | exact Hfound].
    + intros ns' j m [<- | Hin] Hl'.
      * apply Hf in H0 as [Hfound _]. destruct r; [discriminate |].
        rewrite Hl in Hl'. inversion Hl'; subst. exact Hm.
      * apply Hf in H0 as [_ Hrest]. eapply Hrest; eauto.
Qed.

(** X21: what an answer of [matchKeys] means. [true]: some listed namespace
    holds a key whose JSON equals the incoming key's. [false]: every listed
    namespace was read and none of its keys has that JSON. Either answer
    means every lookup succeeded: a match does not end the search, and a
    namespace that cannot be read makes the whole call fail. *)
Theorem matchKeys_meaning k nss d b :
  matchKeys E L k nss d = Ok b ->
  (forall ns, In ns nss -> exists jwks md, getNamespaceJwksByPrefix E ns d = Ok (jwks, md)) /\
  (b = true ->
   exists ns jwks md rk buf,
     In ns nss /\ getNamespaceJwksByPrefix E ns d = Ok (jwks, md) /\ In rk jwks /\
     json_Marshal_Key L rk = Ok buf /\ json_Marshal_Key L k = Ok buf) /\
  (b = false ->
   forall ns jwks md rk,
     In ns nss -> getNamespaceJwksByPrefix E ns d = Ok (jwks, md) -> In rk jwks ->
     exists b1 b2, json_Marshal_Key L rk = Ok b1 /\ json_Marshal_Key L k = Ok b2 /\ b1 <> b2).
Proof.
  unfold matchKeys. intros H.
  destruct (matchKeysLoop_spec _ _ _ _ _ H) as (Hall & Ht & Hf). repeat split.
  - intros ns Hin. destruct (Hall ns Hin) as (j & m & r & Hl & _). eauto.
  - intros Hb. destruct (Ht Hb) as [Hd | (ns & j & m & Hin & Hl & Hm)]; [discriminate |].
    destruct (matchKeyset_true _ _ _ Hm) as (rk & buf & Hk & H1 & H2).
    exists ns, j, m, rk, buf. auto.
  - intros Hb ns j m rk Hin Hl Hk. destruct (Hf Hb) as [_ Hrest].
    exact (matchKeyset_false _ _ _ (Hrest _ _ _ Hin Hl) rk Hk).
Qed.

(** X22: the existence check. It answers 200 both for a registered and for an
    unregistered prefix; key_match is only ever true together with
    prefix_exists, and then the stored key set holds, under the submitted
    key's id, a key equal to the submitted one. *)
Theorem checkNamespaceExists_meaning bound d code pe km msg :
  checkNamespaceExistsHandler E L bound d = (code, ExistsRes pe km msg) ->
  code = 200 /\
  exists req jwkReq,
    bound = Ok req /\ cer_Prefix req <> "" /\
    jwk_ParseString L (cer_PubKey req) = Ok [jwkReq] /\
    namespaceExistsByPrefix E (cer_Prefix req) d = Ok pe /\
    (km = true ->
     pe = true /\
     exists jwks md rk,
       getNamespaceJwksByPrefix E (cer_Prefix req) d = Ok (jwks, md) /\
       LookupKeyID L jwks (jwk_KeyID L jwkReq) = Some rk /\
       jwk_Equal L rk jwkReq = true).
Proof.
  unfold checkNamespaceExistsHandler.
  destruct bound as [req | e]; [| discriminate].
  destruct (String.eqb (cer_Prefix req) "") eqn:Hp; [discriminate |].
  destruct (String.eqb (cer_PubKey req) ""); [discriminate |].
  destruct (jwk_ParseString L (cer_PubKey req)) as [jwksReq | e] eqn:Hparse; [| discriminate].
  destruct jwksReq as [| jwkReq [| k2 rest]]; simpl; try discriminate.
  apply String.eqb_neq in Hp.
  destruct (namespaceExistsByPrefix E (cer_Prefix req) d) as [[|] | e] eqn:Hex;
    try discriminate.
  - destruct (getNamespaceJwksByPrefix E (cer_Prefix req) d) as [[jwks md] | e] eqn:Hl;
      [| discriminate].
    destruct (LookupKeyID L jwks (jwk_KeyID L jwkReq)) as [rk |] eqn:Hk.
    + destruct (jwk_Equal L rk jwkReq) eqn:He; intros H; inversion H; subst;
        (split; [reflexivity |]); exists req, jwkReq; repeat split; auto; try discriminate.
      exists jwks, md, rk. auto.
    + intros H; inversion H; subst. split; [reflexivity |].
      exists req, jwkReq. repeat split; auto; discriminate.
  - intros H; inversion H; subst. split; [reflexivity |].
    exists req, jwkReq. repeat split; auto; discriminate.
Qed.

End KeyFacts.
(** *** The handlers on sample registries *)

Lemma register_new_namespace_witness :
  let run := cliRegisterNamespace (toy true true) (Ok (commitAB "k2" "/bar"))
               (start (foo_k1 Approved)) in
  writes run = [(201, H [("status", "success")])] /\
  db (final run) = <["/bar" := pendingRow "/bar" "k2"]> (foo_k1 Approved) /\
  result_of run = Returned tt.
Proof.
  apply (register_new_namespace (toy true true) (Ok (commitAB "k2" "/bar"))
           (start (foo_k1 Approved)) (commitAB "k2" "/bar") (start (foo_k1 Approved))
           "k2" "/bar" "k2").
  - exists (commitAB "k2" "/bar"). split; [reflexivity |]. left. simpl. auto.
  - split; [unfold complete_commit; simpl; repeat split; discriminate |].
    exists "k2", "k2", "k2:AB", "AB", "registry-key:AB", "registry-key".
    repeat split.
  - vm_compute. reflexivity.
  - reflexivity.
  - reflexivity.
  - reflexivity.
  - reflexivity.
  - reflexivity.
Defined.

Lemma register_key_chaining_refused_witness :
  let run := cliRegisterNamespace toy_unchained (Ok (commitAB "k2" "/bar"))
               (start (foo_k1 Approved)) in
  status run = 403 /\
  db (final run) = foo_k1 Approved /\
  result_of run = Returned tt.
Proof.
  apply (register_key_chaining_refused toy_unchained (Ok (commitAB "k2" "/bar"))
           (start (foo_k1 Approved)) (commitAB "k2" "/bar") (start (foo_k1 Approved))
           "k2" "/bar" (errors_New "key does not chain to a superspace") None).
  - exists (commitAB "k2" "/bar"). split; [reflexivity |]. left. simpl. auto.
  - split; [unfold complete_commit; simpl; repeat split; discriminate |].
    exists "k2", "k2", "k2:AB", "AB", "registry-key:AB", "registry-key".
    repeat split.
  - vm_compute. reflexivity.
  - reflexivity.
  - reflexivity.
  - reflexivity.
Defined.

Lemma register_unverified_refused_witness :
  let run := cliRegisterNamespace (toy true true) (Ok (forgedAB "k2" "/bar"))
               (start (foo_k1 Approved)) in
  status run = 500 /\
  db (final run) = foo_k1 Approved /\
  result_of run = Returned tt.
Proof.
  apply (register_unverified_refused (toy true true) (Ok (forgedAB "k2" "/bar"))
           (start (foo_k1 Approved)) (forgedAB "k2" "/bar") (start (foo_k1 Approved))
           "k2" "k2" "intruder:AB" "AB" "registry-key:AB" "registry-key").
  - exists (forgedAB "k2" "/bar"). split; [reflexivity |]. left. simpl. auto.
  - unfold complete_commit; simpl; repeat split; discriminate.
  - reflexivity.
  - reflexivity.
  - reflexivity.
  - reflexivity.
  - reflexivity.
  - reflexivity.
  - reflexivity.
Defined.

Lemma register_non_ecdsa_panics_witness :
  let run := cliRegisterNamespace toy_rsa (Ok (commitAB "k2" "/bar"))
               (start (foo_k1 Approved)) in
  result_of run = Panicked "interface conversion: interface {} is not *ecdsa.PublicKey" /\
  writes run = [] /\
  final run = start (foo_k1 Approved).
Proof.
  apply (register_non_ecdsa_panics toy_rsa (Ok (commitAB "k2" "/bar"))
           (start (foo_k1 Approved)) (commitAB "k2" "/bar") (start (foo_k1 Approved))
           "k2" "k2:AB").
  - exists (commitAB "k2" "/bar"). split; [reflexivity |]. left. simpl. auto.
  - unfold complete_commit; simpl; repeat split; discriminate.
  - reflexivity.
  - reflexivity.
  - reflexivity.
Defined.

Lemma deleteNamespaceHandler_authorized_witness :
  let run := deleteNamespaceHandler (toy true true) "/foo"
               "Bearer k1|pelican.namespace_delete" (start (foo_k1 Approved)) in
  db (final run) = delete "/foo" (foo_k1 Approved) /\
  world (final run) = world (start (foo_k1 Approved)) /\
  writes run = [(200, H [("status", "success")])] /\
  result_of run = Returned tt.
Proof.
  apply (deleteNamespaceHandler_authorized (toy true true) "/foo"
           "Bearer k1|pelican.namespace_delete" (start (foo_k1 Approved)) None
           (delete "/foo" (foo_k1 Approved))).
  - discriminate.
  - vm_compute. reflexivity.
  - exists ["k1"], (Some (Admin_Metadata (row "/foo" "k1" Approved))),
      {| tok_scope := ScopeString "pelican.namespace_delete"; tok_claims := "" |},
      "pelican.namespace_delete".
    split; [vm_compute; reflexivity |]. split; [vm_compute; reflexivity |].
    split; [reflexivity |]. split; [reflexivity |]. vm_compute. auto.
  - reflexivity.
Defined.

Lemma deleteNamespaceHandler_unknown_400_witness :
  ("/bar" = "" \/
   namespaceExists (toy true true) "/bar" (db (start (foo_k1 Approved))) = Ok false) /\
  status (deleteNamespaceHandler (toy true true) "/bar"
            "Bearer k1|pelican.namespace_delete" (start (foo_k1 Approved))) = 400.
Proof.
  assert (H : "/bar" = "" \/
              namespaceExists (toy true true) "/bar" (db (start (foo_k1 Approved))) = Ok false)
    by (right; vm_compute; reflexivity).
  split; [exact H |].
  exact (deleteNamespaceHandler_unknown_400 (toy true true) "/bar"
           "Bearer k1|pelican.namespace_delete" (start (foo_k1 Approved)) H).
Defined.

Lemma checkNamespaceStatus_cache_and_legacy_witness :
  let E := toy true false in
  let ns := row "/caches/c1" "k1" Pending in
  let st := start {[ "/caches/c1" := ns ]} in
  let run := checkNamespaceStatusHandler E (Ok {| csr_Prefix := "/caches/c1" |}) st in
  (AdminMetadata_eqb (Admin_Metadata ns) emptyMetadata = true ->
   writes run = [(200, CheckStatusRes true)]) /\
  (AdminMetadata_eqb (Admin_Metadata ns) emptyMetadata = false ->
   HasPrefix "/caches/c1" "/caches" = true ->
   writes run =
     [(200, CheckStatusRes
              (if Registry_RequireCacheApproval E
               then String.eqb (Status (Admin_Metadata ns)) Approved
               else true))]).
Proof.
  apply (checkNamespaceStatus_cache_and_legacy (toy true false) "/caches/c1"
           (row "/caches/c1" "k1" Pending)
           (start {[ "/caches/c1" := row "/caches/c1" "k1" Pending ]})).
  - discriminate.
  - vm_compute. reflexivity.
Defined.

Lemma challenge_init_outcome_witness :
  let run := cliRegisterNamespace (toy true true) (Ok initA) (start (foo_k1 Approved)) in
  db (final run) = foo_k1 Approved /\
  (status run = 200 \/ status run = 500) /\
  result_of run = Returned tt.
Proof.
  apply (challenge_init_outcome (toy true true) (Ok initA) (start (foo_k1 Approved))
           initA (start (foo_k1 Approved))).
  - exists initA. split; [reflexivity |]. left. simpl. auto.
  - discriminate.
  - left. reflexivity.
Defined.

Lemma identity_flow_outcome_witness :
  let run := cliRegisterNamespace (toy true true) (Ok identityWanted)
               (start (foo_k1 Approved)) in
  db (final run) = foo_k1 Approved /\
  serverCreds (final run) = None /\
  (status run = 200 \/ status run = 500) /\
  result_of run = Returned tt.
Proof.
  apply (identity_flow_outcome (toy true true) identityWanted (start (foo_k1 Approved)));
    [reflexivity | discriminate | discriminate].
Defined.

Lemma generateNonce_hex64_witness :
  exists n st1 ws,
    generateNonce (toy true true) (start ∅) = (Returned (Ok n), st1, ws) /\
    String.length n = 64%nat /\
    forallb is_lower_hex (list_ascii_of_string n) = true /\
    (exists raw, DecodeString n = Ok raw /\ String.length raw = 32%nat) /\
    ws = [] /\ db st1 = db (start ∅).
Proof.
  eexists _, _, _.
  assert (H : generateNonce (toy true true) (start ∅) = (Returned (Ok _), _, _))
    by reflexivity.
  split; [exact H |].
  exact (generateNonce_hex64 (toy true true) (start ∅) _ _ _ H).
Defined.

Lemma matchKeys_meaning_witness :
  matchKeys (toy true true) plain_keys "k1" ["/foo"] (foo_k1 Approved) = Ok true /\
  exists ns jwks md rk buf,
    In ns ["/foo"] /\
    getNamespaceJwksByPrefix (toy true true) ns (foo_k1 Approved) = Ok (jwks, md) /\
    In rk jwks /\
    json_Marshal_Key plain_keys rk = Ok buf /\ json_Marshal_Key plain_keys "k1" = Ok buf.
Proof.
  assert (Hm : matchKeys (toy true true) plain_keys "k1" ["/foo"] (foo_k1 Approved) = Ok true)
    by (vm_compute; reflexivity).
  split; [exact Hm |].
  exact (proj1 (proj2 (matchKeys_meaning (toy true true) plain_keys "k1" ["/foo"]
                         (foo_k1 Approved) true Hm)) eq_refl).
Defined.

Lemma checkNamespaceExists_meaning_witness :
  let bound := Ok {| cer_Prefix := "/foo"; cer_PubKey := "k1" |} in
  checkNamespaceExistsHandler (toy true true) plain_keys bound (foo_k1 Approved) =
    (200, ExistsRes true true "") /\
  exists req jwkReq,
    bound = Ok req /\ cer_Prefix req <> "" /\
    jwk_ParseString plain_keys (cer_PubKey req) = Ok [jwkReq] /\
    namespaceExistsByPrefix (toy true true) (cer_Prefix req) (foo_k1 Approved) = Ok true /\
    (true = true ->
     true = true /\
     exists jwks md rk,
       getNamespaceJwksByPrefix (toy true true) (cer_Prefix req) (foo_k1 Approved) =
         Ok (jwks, md) /\
       LookupKeyID plain_keys jwks (jwk_KeyID plain_keys jwkReq) = Some rk /\
       jwk_Equal plain_keys rk jwkReq = true).
Proof.
  cbv zeta.
  assert (Hc : checkNamespaceExistsHandler (toy true true) plain_keys
                 (Ok {| cer_Prefix := "/foo"; cer_PubKey := "k1" |}) (foo_k1 Approved) =
               (200, ExistsRes true true ""))
    by (vm_compute; reflexivity).
  split; [exact Hc |].
  exact (proj2 (checkNamespaceExists_meaning (toy true true) plain_keys _ _ _ _ _ _ Hc)).
Defined.

End RegistryMore.

(** ** Server types and prefixes *)

Module ServerTypesSpec.
Import Go Config ServerTypes.

Lemma IsEnabled_land (s t : ServerType) : IsEnabled s t = true <-> Z.land s t = t.
Proof. unfold IsEnabled. apply Z.eqb_eq. Qed.

(** [IsEnabled] compares bit sets. *)
Lemma IsEnabled_bits (s t : ServerType) :
  IsEnabled s t = true <->
  forall n, 0 <= n -> Z.testbit t n = true -> Z.testbit s n = true.
Proof.
  rewrite IsEnabled_land. split.
  - intros H n Hn Ht. rewrite <- H, Z.land_spec in Ht.
    apply andb_true_iff in Ht. tauto.
  - intros H. apply Z.bits_inj'. intros n Hn. rewrite Z.land_spec.
    destruct (Z.testbit t n) eqn:Ht; [| apply andb_false_r].
    rewrite (H n Hn Ht). reflexivity.
Qed.

Lemma SetList_bits (l : list ServerType) (s : ServerType) (n : Z) :
  Z.testbit (SetList s l) n = Z.testbit s n || existsb (fun t => Z.testbit t n) l.
Proof.
  unfold SetList. revert s. induction l as [| t l IH]; intros s; simpl.
  - now rewrite orb_false_r.
  - rewrite IH, Z.lor_spec. now rewrite orb_assoc.
Qed.

(** X23: the bit mask. After [SetList] a server type is enabled exactly when
    each of its bits is a bit of the old mask or of a listed type; so every
    listed type is enabled and nothing that was enabled is lost. [Set] is
    [SetList] of one type. The empty mask of [NewServerType] counts as
    enabled in every mask, and after [Clear] it is the only one that does. *)
Theorem server_mask_semantics (s : ServerType) (l : list ServerType) :
  (forall t, IsEnabled (SetList s l) t = true <->
             forall n, 0 <= n -> Z.testbit t n = true ->
                       Z.testbit s n = true \/ exists u, In u l /\ Z.testbit u n = true) /\
  (forall t, In t l -> IsEnabled (SetList s l) t = true) /\
  (forall t, IsEnabled s t = true -> IsEnabled (SetList s l) t = true) /\
  (forall t, SetList s [t] = Set_ s t) /\
  IsEnabled s NewServerType = true /\
  (forall t, IsEnabled (Clear s) t = true <-> t = NewServerType).
Proof.
  assert (Hiff : forall t, IsEnabled (SetList s l) t = true <->
             forall n, 0 <= n -> Z.testbit t n = true ->
                       Z.testbit s n = true \/ exists u, In u l /\ Z.testbit u n = true).
  { intros t. rewrite IsEnabled_bits. split; intros H n Hn Ht; specialize (H n Hn Ht).
    - rewrite SetList_bits in H. apply orb_true_iff in H as [H | H]; [now left |].
      right. apply existsb_exists in H. exact H.
    - rewrite SetList_bits. apply orb_true_iff. destruct H as [H | H]; [now left |].
      right. apply existsb_exists. exact H. }
  split; [exact Hiff |]. split; [| split; [| split; [reflexivity | split]]].
  - intros t Hin. apply Hiff. intros n Hn Ht. right. exists t. auto.
  - intros t Ht. apply Hiff. intros n Hn Hb. left.
    exact (proj1 (IsEnabled_bits s t) Ht n Hn Hb).
  - apply IsEnabled_land. apply Z.land_0_r.
  - intros t. unfold Clear, NewServerType.
    rewrite IsEnabled_land, Z.land_0_l. split; congruence.
Qed.

(** X24: only the first [setEnabledServer] of a process has an effect. A
    second call, with whatever argument, leaves the state of the first; the
    first call itself can only add servers to those enabled. *)
Theorem setEnabledServer_first_call_wins (a b : ServerType) (st : State) :
  setEnabledServer a (setEnabledServer b st) = setEnabledServer b st /\
  setServerOnce (setEnabledServer b st) = true /\
  (forall t, IsServerEnabled t st = true -> IsServerEnabled t (setEnabledServer b st) = true).
Proof.
  unfold setEnabledServer, IsServerEnabled.
  destruct (setServerOnce st) eqn:Ho; simpl.
  - rewrite Ho. auto.
  - repeat split. intros t Ht. unfold Set_.
    apply IsEnabled_bits. intros n Hn Hb. rewrite Z.lor_spec.
    rewrite (proj1 (IsEnabled_bits _ _) Ht n Hn Hb). reflexivity.
Qed.

Section NameFacts.
Variable strings_ToLower : string -> string.
Variable strings_ToUpper : string -> string.
Variable filepath_Base : string -> string.
Variable os_Args0 : string.

(** X25: [GetEnabledServerString] lists the names of exactly those of the
    four server types that are enabled, in the order Cache, Director,
    Origin, Registry, each passed through [strings.ToLower] when lowerCase
    is set; bits of the mask beyond the four play no part. *)
Theorem GetEnabledServerString_sorted (lowerCase : bool) (st : State) :
  GetEnabledServerString strings_ToLower lowerCase st =
    map (fun t => if lowerCase then strings_ToLower (ServerType_String t)
                  else ServerType_String t)
        (List.filter (fun t => IsEnabled (enabledServers st) t) server_types).
Proof.
  unfold GetEnabledServerString, server_types. cbn [List.filter].
  destruct (IsEnabled (enabledServers st) CacheType),
           (IsEnabled (enabledServers st) OriginType),
           (IsEnabled (enabledServers st) DirectorType),
           (IsEnabled (enabledServers st) RegistryType), lowerCase; reflexivity.
Qed.

Lemma SetString_cases (s : ServerType) (name : string) :
  (fst (SetString strings_ToLower s name) = false /\
   snd (SetString strings_ToLower s name) = s) \/
  (fst (SetString strings_ToLower s name) = true /\
   exists t, In t server_types /\
             snd (SetString strings_ToLower s name) = Set_ s t /\
             strings_ToLower name = ascii_lower (ServerType_String t)).
Proof.
  unfold SetString, server_types, Set_.
  destruct (String.eqb (strings_ToLower name) "cache") eqn:H1.
  { right. apply String.eqb_eq in H1. split; [reflexivity |].
    exists CacheType. simpl. auto. }
  destruct (String.eqb (strings_ToLower name) "origin") eqn:H2.
  { right. apply String.eqb_eq in H2. split; [reflexivity |].
    exists OriginType. simpl. auto 6. }
  destruct (String.eqb (strings_ToLower name) "director") eqn:H3.
  { right. apply String.eqb_eq in H3. split; [reflexivity |].
    exists DirectorType. simpl. auto 6. }
  destruct (String.eqb (strings_ToLower name) "registry") eqn:H4.
  { right. apply String.eqb_eq in H4. split; [reflexivity |].
    exists RegistryType. simpl. auto 6. }
  left. auto.
Qed.

(** X26: [SetString] only ever adds. When it answers false the mask is
    unchanged; when it answers true the mask gained one of the four server
    types, the one whose lower-cased name the lower-cased argument is, and
    that type is now enabled. Whatever was enabled before stays enabled. *)
Theorem SetString_only_adds (s : ServerType) (name : string) :
  let r := SetString strings_ToLower s name in
  (fst r = false -> snd r = s) /\
  (fst r = true ->
   exists t, In t server_types /\ snd r = Set_ s t /\ IsEnabled (snd r) t = true /\
             strings_ToLower name = ascii_lower (ServerType_String t)) /\
  (forall u, IsEnabled s u = true -> IsEnabled (snd r) u = true).
Proof.
  cbv zeta.
  destruct (SetString_cases s name) as [[Hf Hs] | [Hf (t & Hin & Hs & Hl)]];
    rewrite Hf, Hs.
  - split; [reflexivity |]. split; [discriminate | auto].
  - split; [discriminate |]. split.
    + intros _. exists t. repeat split; auto.
      apply IsEnabled_bits. intros n Hn Hb. unfold Set_. rewrite Z.lor_spec, Hb.
      apply orb_true_r.
    + intros u Hu. apply IsEnabled_bits. intros n Hn Hb. unfold Set_.
      rewrite Z.lor_spec, (proj1 (IsEnabled_bits _ _) Hu n Hn Hb). reflexivity.
Qed.

(** [strings.ToLower] on a string of ASCII bytes. *)
Hypothesis ToLower_ascii :
  forall s, is_ascii s = true -> strings_ToLower s = ascii_lower s.

(** X27: [String] and [SetString]. The name of one of the four server types
    sets that type; the name of any other mask, a combined one included, is
    Unknown, which [SetString] refuses. An ASCII name is accepted in any
    capitalisation. *)
Theorem SetString_of_String (s t : ServerType) :
  SetString strings_ToLower s (ServerType_String t) =
    (if existsb (Z.eqb t) server_types then (true, Set_ s t) else (false, s)) /\
  (forall name,
     In t server_types -> is_ascii name = true ->
     ascii_lower name = ascii_lower (ServerType_String t) ->
     SetString strings_ToLower s name = (true, Set_ s t)).
Proof.
  split.
  - unfold SetString. rewrite ToLower_ascii.
    2: { unfold ServerType_String.
         destruct (t =? CacheType), (t =? OriginType), (t =? DirectorType),
                  (t =? RegistryType); reflexivity. }
    unfold ServerType_String, server_types, Set_. cbn [existsb].
    destruct (t =? CacheType) eqn:H1.
    { apply Z.eqb_eq in H1. subst. reflexivity. }
    destruct (t =? OriginType) eqn:H2.
    { apply Z.eqb_eq in H2. subst. reflexivity. }
    destruct (t =? DirectorType) eqn:H3.
    { apply Z.eqb_eq in H3. subst. reflexivity. }
    destruct (t =? RegistryType) eqn:H4.
    { apply Z.eqb_eq in H4. subst. reflexivity. }
    reflexivity.
  - intros name Hin Ha Hl. unfold SetString. rewrite (ToLower_ascii _ Ha), Hl.
    simpl in Hin. destruct Hin as [<- | [<- | [<- | [<- | []]]]]; reflexivity.
Qed.

Lemma IndexByte_substring (c : ascii) (s : string) (i : nat) :
  IndexByte c s = Some i -> IndexByte c (substring 0 i s) = None.
Proof.
  revert i. induction s as [| x s IH]; intros i; simpl; [discriminate |].
  destruct (Ascii.eqb x c) eqn:Hx.
  - intros H; inversion H; subst. reflexivity.
  - destruct (IndexByte c s) as [j |] eqn:Hj; [| discriminate].
    intros H; inversion H; subst. simpl. rewrite Hx, (IH j eq_refl). reflexivity.
Qed.

(** X28: the prefixes. A non-empty override is the preferred prefix, and
    setting the empty override brings the detected one back; the detected
    prefix never holds an underscore. [GetAllPrefixes] starts with the
    preferred prefix and repeats none; it holds OSDF exactly when it holds
    STASH, and then PELICAN too; otherwise it is the preferred prefix
    alone. *)
Theorem preferred_prefix_shape (tpp : string) :
  let get := GetPreferredPrefix strings_ToUpper filepath_Base os_Args0 in
  let all := GetAllPrefixes strings_ToUpper filepath_Base os_Args0 tpp in
  (tpp <> "" -> get tpp = tpp) /\
  IndexByte underscore (get "") = None /\
  (forall newPref : string,
     get (snd (SetPreferredPrefix newPref tpp)) = if String.eqb newPref "" then get ""
                                                  else newPref) /\
  hd_error all = Some (get tpp) /\
  NoDup all /\
  (In "OSDF" all <-> In "STASH" all) /\
  (In "OSDF" all -> In "PELICAN" all) /\
  (In "OSDF" all \/ all = [get tpp]).
Proof.
  cbv zeta.
  split; [| split; [| split]].
  - intros Hp. unfold GetPreferredPrefix.
    apply String.eqb_neq in Hp. rewrite Hp. reflexivity.
  - unfold GetPreferredPrefix. simpl.
    destruct (IndexByte underscore (strings_ToUpper (filepath_Base os_Args0)))
      as [i |] eqn:Hi.
    + apply IndexByte_substring, Hi.
    + destruct (HasPrefix _ "STASH"); [reflexivity |].
      destruct (HasPrefix _ "OSDF"); reflexivity.
  - intros newPref. unfold SetPreferredPrefix, GetPreferredPrefix. simpl.
    destruct (String.eqb newPref ""); reflexivity.
  - unfold GetAllPrefixes.
    set (p := GetPreferredPrefix _ _ _ _).
    destruct (String.eqb p "OSDF") eqn:H1.
    { apply String.eqb_eq in H1. rewrite H1. simpl.
      split; [reflexivity |]. split; [| split; [| split]]; [| tauto | tauto | tauto].
      apply (bool_decide_unpack _). vm_compute. exact I. }
    destruct (String.eqb p "STASH") eqn:H2.
    { apply String.eqb_eq in H2. rewrite H2. simpl.
      split; [reflexivity |]. split; [| split; [| split]]; [| tauto | tauto | tauto].
      apply (bool_decide_unpack _). vm_compute. exact I. }
    apply String.eqb_neq in H1, H2. simpl.
    split; [reflexivity |]. split; [| split; [| split]].
    + apply NoDup_singleton.
    + split; intros [H | []]; congruence.
    + intros [H | []]. congruence.
    + right. reflexivity.
Qed.

End NameFacts.
Lemma SetString_of_String_witness :
  SetString ascii_lower 0 (ServerType_String OriginType) =
    (if existsb (Z.eqb OriginType) server_types then (true, Set_ 0 OriginType)
     else (false, 0)) /\
  (forall name,
     In OriginType server_types -> is_ascii name = true ->
     ascii_lower name = ascii_lower (ServerType_String OriginType) ->
     SetString ascii_lower 0 name = (true, Set_ 0 OriginType)).
Proof.
  apply (SetString_of_String ascii_lower). intros s _. reflexivity.
Defined.

End ServerTypesSpec.

(** ** The requests of the test runner *)

Module UtilsMore.
Import Go Utils UtilsRequests UtilsSpec.

Section Facts.
Context {World : Type} (E : Env World).

Ltac token_call :=
  match goal with
  | H : context [generateFileTestScitoken E ?t ?w] |- _ =>
      let Ht := fresh "Htok" in
      pose proof (generateFileTestScitoken_trace E t w) as Ht;
      destruct (generateFileTestScitoken E t w) as [[? ?] ?];
      unfold trace in Ht; simpl in Ht; subst
  end.

Ltac branches :=
  repeat match goal with
         | H : context [match ?x with _ => _ end] |- _ => destruct x eqn:?; simpl in *
         | H : context [if ?x then _ else _] |- _ => destruct x eqn:?; simpl in *
         end;
  repeat match goal with
         | H : (_, _) = (_, _) |- _ => inversion H; subst; clear H
         | H : Ok _ = Ok _ |- _ => inversion H; subst; clear H
         | H : Some _ = Some _ |- _ => inversion H; subst; clear H
         end;
  try discriminate.

Ltac run_step H :=
  unfold uploadTestfile, downloadTestfile, deleteTestfile, bind, mark, now, Do, ret,
    NewRequestWithContext in H;
  simpl in H; token_call; simpl in *; branches.

Lemma uploadTestfile_request t base w r w1 tr :
  uploadTestfile E t base w = (r, w1, tr) ->
  (requests tr = [] /\ exists e, r = Err e) \/
  exists q, requests tr = [q] /\ bearer q /\ Method q = "PUT" /\
            Body q = Some (testBody t) /\
            forall u, r = Ok u -> ReqURL q = u.
Proof.
  intros H. run_step H; unfold requests; simpl;
    first [ left; split; [reflexivity | eexists; reflexivity]
          | right; eexists; split; [reflexivity |];
            split; [eexists; reflexivity |];
            split; [reflexivity |]; split; [reflexivity |];
            intros u' Hu'; simpl; congruence ].
Qed.

Lemma downloadTestfile_request t u w r w1 tr :
  downloadTestfile E t u w = (r, w1, tr) ->
  (requests tr = [] /\ r <> None) \/
  exists q, requests tr = [q] /\ bearer q /\ shape q = ("GET", u, None).
Proof.
  intros H. run_step H; unfold requests; simpl;
    first [ left; split; [reflexivity | discriminate]
          | right; eexists; split; [reflexivity |];
            split; [eexists; reflexivity | reflexivity] ].
Qed.

Lemma deleteTestfile_request t u w r w1 tr :
  deleteTestfile E t u w = (r, w1, tr) ->
  requests tr = [] \/
  exists q, requests tr = [q] /\ bearer q /\ shape q = ("DELETE", u, None).
Proof.
  intros H. run_step H; unfold requests; simpl;
    first [ left; reflexivity
          | right; eexists; split; [reflexivity |];
            split; [eexists; reflexivity | reflexivity] ].
Qed.

Lemma requests_app (a b : list Event) : requests (a ++ b) = requests a ++ requests b.
Proof. unfold requests. now rewrite exchanges_app, map_app. Qed.

(** X30: the requests of a run. Whatever happens, the runner sends at most
    three requests: a PUT with the test body, then a GET, then a DELETE,
    the later ones without a body and all to one URL; each carries a bearer
    token in its Authorization header and no other header. *)
Theorem RunTests_requests t base iss tt w :
  let qs := requests (trace (RunTests E t base iss tt w)) in
  (forall q, In q qs -> bearer q) /\
  exists u body rest,
    [("PUT", u, Some body); ("GET", u, None); ("DELETE", u, None)] =
      map shape qs ++ rest /\
    (qs <> [] ->
     exists t', configure t base iss tt = Some t' /\ body = testBody t').
Proof.
  cbv zeta. unfold trace.
  destruct (RunTests_cases E t base iss tt w)
    as [[Hc ->] | (t' & Hc & [(e & w1 & tr1 & Hu & ->)
                  | [(u & w1 & tr1 & e & w2 & tr2 & Hu & Hd & ->)
                  | [(u & w1 & tr1 & w2 & tr2 & e & w3 & tr3 & Hu & Hd & Hx & ->)
                  | (u & w1 & tr1 & w2 & tr2 & w3 & tr3 & Hu & Hd & Hx & ->)]]])];
    simpl.
  - split; [intros ? [] |]. eexists "", "", _. split; [reflexivity |]. intros []. reflexivity.
  - rewrite app_nil_r.
    destruct (uploadTestfile_request _ _ _ _ _ _ Hu)
      as [[-> _] | (q & -> & Hb & Hm & Hbody & Hurl)].
    + split; [intros ? [] |]. eexists "", "", _. split; [reflexivity |].
      intros []. reflexivity.
    + split; [intros ? [<- | []]; exact Hb |].
      eexists (ReqURL q), (testBody t'), _. split.
      * unfold shape. simpl. rewrite Hm, Hbody. reflexivity.
      * intros _. eauto.
  - rewrite app_nil_r, requests_app.
    destruct (uploadTestfile_request _ _ _ _ _ _ Hu)
      as [[_ [? ?]] | (q & -> & Hb & Hm & Hbody & Hurl)]; [discriminate |].
    specialize (Hurl u eq_refl).
    destruct (downloadTestfile_request _ _ _ _ _ _ Hd)
      as [[-> _] | (q2 & -> & Hb2 & Hs2)].
    + split; [intros ? [<- | []]; exact Hb |].
      eexists u, (testBody t'), _. split.
      * unfold shape. simpl. rewrite Hm, Hbody, Hurl. reflexivity.
      * intros _. eauto.
    + split; [intros ? [<- | [<- | []]]; assumption |].
      eexists u, (testBody t'), _. split.
      * simpl. rewrite Hs2. unfold shape. rewrite Hm, Hbody, Hurl. reflexivity.
      * intros _. eauto.
  - rewrite app_nil_r, !requests_app.
    destruct (uploadTestfile_request _ _ _ _ _ _ Hu)
      as [[_ [? ?]] | (q & -> & Hb & Hm & Hbody & Hurl)]; [discriminate |].
    specialize (Hurl u eq_refl).
    destruct (downloadTestfile_request _ _ _ _ _ _ Hd)
      as [[_ ?] | (q2 & -> & Hb2 & Hs2)]; [contradiction |].
    destruct (deleteTestfile_request _ _ _ _ _ _ Hx) as [-> | (q3 & -> & Hb3 & Hs3)].
    + split; [intros ? [<- | [<- | []]]; assumption |].
      eexists u, (testBody t'), _. split.
      * simpl. rewrite Hs2. unfold shape. rewrite Hm, Hbody, Hurl. reflexivity.
      * intros _. eauto.
    + split; [intros ? [<- | [<- | [<- | []]]]; assumption |].
      exists u, (testBody t'), []. split.
      * simpl. rewrite Hs2, Hs3. unfold shape. rewrite Hm, Hbody, Hurl. reflexivity.
      * intros _. eauto.
  - rewrite app_nil_r, !requests_app.
    destruct (uploadTestfile_request _ _ _ _ _ _ Hu)
      as [[_ [? ?]] | (q & -> & Hb & Hm & Hbody & Hurl)]; [discriminate |].
    specialize (Hurl u eq_refl).
    destruct (downloadTestfile_request _ _ _ _ _ _ Hd)
      as [[_ ?] | (q2 & -> & Hb2 & Hs2)]; [contradiction |].
    destruct (deleteTestfile_request _ _ _ _ _ _ Hx) as [-> | (q3 & -> & Hb3 & Hs3)].
    + split; [intros ? [<- | [<- | []]]; assumption |].
      eexists u, (testBody t'), _. split.
      * simpl. rewrite Hs2. unfold shape. rewrite Hm, Hbody, Hurl. reflexivity.
      * intros _. eauto.
    + split; [intros ? [<- | [<- | [<- | []]]]; assumption |].
      exists u, (testBody t'), []. split.
      * simpl. rewrite Hs2, Hs3. unfold shape. rewrite Hm, Hbody, Hurl. reflexivity.
      * intros _. eauto.
Qed.

(** X29: no issuer. With no issuer URL passed and no external web URL
    configured, a run of a supported test type fails in the upload step
    before any token is minted or any request is sent, and the world is as
    before. *)
Theorem RunTests_no_issuer t base tt w :
  Server_ExternalWebUrl E = "" ->
  tt = OriginSelfFileTest \/ tt = DirectorFileTest ->
  RunTests E t base "" tt w =
    ((false,
      Some (errors_Wrap
              (errors_Wrap
                 (errors_New
                    "Failed to create token: Invalid iss, Server_ExternalWebUrl is empty")
                 "Failed to create a token for test file transfer")
              "Test file transfer failed during upload")),
     w, [EvStep StepUpload]).
Proof.
  intros Hs [-> | ->]; unfold RunTests, configure; simpl;
    unfold bind, uploadTestfile, bind, mark, generateFileTestScitoken; simpl;
    rewrite Hs; reflexivity.
Qed.

End Facts.
Lemma RunTests_no_issuer_witness :
  RunTests offline blank origin_url "" OriginSelfFileTest tt =
    ((false,
      Some (errors_Wrap
              (errors_Wrap
                 (errors_New
                    "Failed to create token: Invalid iss, Server_ExternalWebUrl is empty")
                 "Failed to create a token for test file transfer")
              "Test file transfer failed during upload")),
     tt, [EvStep StepUpload]).
Proof.
  apply (RunTests_no_issuer offline blank origin_url OriginSelfFileTest tt);
    [reflexivity | left; reflexivity].
Defined.

End UtilsMore.
